(** * MaidSafe-Routing: message handler, network utilities, group-change handler

    A shallow embedding of
      - src/maidsafe/routing/message_handler.cc
      - src/maidsafe/routing/network_utils.cc
      - src/maidsafe/routing/group_change_handler.cc

    Conventions.
    - A node id is the raw byte string that [NodeId] wraps; protobuf [bytes]
      fields are strings as well.
    - An optional protobuf field is an [option]; its accessor returns the
      protobuf default when the field is unset, and [has_x] tests presence.
    - Every handler returns the list of calls it makes on its collaborators,
      in program order.  An empty list is a dropped message.
    - [LOG(...)] lines have no effect on the state and are left out.
    - [assert] is compiled out in release builds; the message handler and the
      network utilities follow the release build.  The group-change handler,
      which asserts on data read from the wire, takes the build as a
      parameter.
    - The integer fields of a message hold the protobuf value; where the
      code narrows one ([static_cast<uint16_t>]) the wrap is written out.
    - Locks are not modelled: every function below is one critical section. *)

From Stdlib Require Import ZArith Lia.
From stdpp Require Import base option list strings gmap sorting.

(** ** Fixed-width integers *)

(** [static_cast<uint16_t>(z)] *)
Definition u16 (z : Z) : Z := (z mod 65536)%Z.

(** ** Node identifiers *)

Definition NodeId := string.

Module NodeIds.

Definition kSize : nat := 64.

Fixpoint zeros (n : nat) : string :=
  match n with
  | O => EmptyString
  | S n' => String Ascii.zero (zeros n')
  end.

(** [NodeId()], the id of [kSize] zero bytes. *)
Definition zero : NodeId := zeros kSize.

Definition IsZero (id : NodeId) : bool := bool_decide (id = zero).

(** The raw id read as a big-endian number. *)
Fixpoint value_from (acc : Z) (s : string) : Z :=
  match s with
  | EmptyString => acc
  | String c s' => value_from (acc * 256 + Z.of_N (Ascii.N_of_ascii c))%Z s'
  end.

Definition value (id : NodeId) : Z := value_from 0%Z id.

(** XOR distance, compared as a big-endian number. *)
Definition distance (a b : NodeId) : Z := Z.lxor (value a) (value b).

(** [NodeId::CloserToTarget(a, b, target)], ties allowed. *)
Definition closer (target a b : NodeId) : Prop :=
  (distance a target <= distance b target)%Z.

(** A short name padded on the left to a full-size id. *)
Definition pad (s : string) : NodeId :=
  zeros (kSize - String.length s) +:+ s.

End NodeIds.

#[global] Instance closer_dec target a b : Decision (NodeIds.closer target a b).
Proof. unfold NodeIds.closer. apply _. Defined.

(** ** NodeInfo *)

(** Modelled from the spec: node_info.h is not among the sources embedded
    here; the fields are those of section 3 that the handlers read. *)
Record NodeInfo := {
  node_id : NodeId;
  connection_id : NodeId;
  rank : Z;
}.

#[global] Instance NodeInfo_eq_dec : EqDecision NodeInfo.
Proof. solve_decision. Defined.

(** [NodeInfo()] *)
Definition NodeInfo_default : NodeInfo :=
  {| node_id := NodeIds.zero; connection_id := NodeIds.zero; rank := 0 |}.

(** ** Parameters *)

(** The protocol constants of [Parameters].  parameters.cc is not among the
    sources embedded here, so the constants are taken as given.  They are
    unsigned; the ones that bound a container size are naturals. *)
Module Parameters.
Record t := {
  max_routing_table_size : nat;
  closest_nodes_size : nat;
  node_group_size : nat;
  max_route_history : nat;
  hops_to_live : Z;
  caching : bool;
}.
End Parameters.

(** ** The wire message *)

(** Modelled from the spec: the message types of section 6; [kNodeLevel]
    stands for the application-level type. *)
Inductive MessageType :=
| kPing
| kConnect
| kFindNodes
| kConnectSuccess
| kConnectSuccessAcknowledgement
| kRemove
| kClosestNodesUpdate
| kClosestNodesUpdateSubscribe
| kNodeLevel (tag : Z).

#[global] Instance MessageType_eq_dec : EqDecision MessageType.
Proof. solve_decision. Defined.

Module protobuf.

(** Modelled from the spec: the generated class of routing.proto is not
    among the sources embedded here.  The fields are those of sections 3
    and 6; a field whose presence the handlers test is an [option]. *)
Record Message := {
  id_ : option Z;
  type_ : MessageType;
  source_id_ : option string;
  destination_id_ : option string;
  last_id_ : option string;
  relay_id_ : option string;
  relay_connection_id_ : option string;
  request_ : bool;
  direct_ : bool;
  visited_ : option bool;
  client_node_ : bool;
  routing_message_ : bool;
  cacheable_ : bool;
  replication_ : Z;
  hops_to_live_ : Z;
  route_history_ : list string;
  group_claim_ : option string;
  data_ : list string;
}.

#[global] Instance Message_eq_dec : EqDecision Message.
Proof. solve_decision. Defined.

(** A default-constructed message, also the result of [Clear()]. *)
Definition Clear : Message :=
  {| id_ := None; type_ := kNodeLevel 0; source_id_ := None;
     destination_id_ := None; last_id_ := None; relay_id_ := None;
     relay_connection_id_ := None; request_ := false; direct_ := false;
     visited_ := None; client_node_ := false; routing_message_ := false;
     cacheable_ := false; replication_ := 0; hops_to_live_ := 0;
     route_history_ := []; group_claim_ := None; data_ := [] |}.

(** *** Accessors *)

Definition has_id (m : Message) : bool := bool_decide (is_Some (id_ m)).
Definition id (m : Message) : Z := default 0%Z (id_ m).
Definition type (m : Message) : MessageType := type_ m.
Definition has_source_id (m : Message) : bool := bool_decide (is_Some (source_id_ m)).
Definition source_id (m : Message) : string := default EmptyString (source_id_ m).
Definition has_destination_id (m : Message) : bool :=
  bool_decide (is_Some (destination_id_ m)).
Definition destination_id (m : Message) : string :=
  default EmptyString (destination_id_ m).
Definition has_relay_id (m : Message) : bool := bool_decide (is_Some (relay_id_ m)).
Definition relay_id (m : Message) : string := default EmptyString (relay_id_ m).
Definition has_relay_connection_id (m : Message) : bool :=
  bool_decide (is_Some (relay_connection_id_ m)).
Definition relay_connection_id (m : Message) : string :=
  default EmptyString (relay_connection_id_ m).
Definition request (m : Message) : bool := request_ m.
Definition direct (m : Message) : bool := direct_ m.
Definition has_visited (m : Message) : bool := bool_decide (is_Some (visited_ m)).
Definition visited (m : Message) : bool := default false (visited_ m).
Definition client_node (m : Message) : bool := client_node_ m.
Definition routing_message (m : Message) : bool := routing_message_ m.
Definition cacheable (m : Message) : bool := cacheable_ m.
Definition replication (m : Message) : Z := replication_ m.
Definition hops_to_live (m : Message) : Z := hops_to_live_ m.
Definition route_history (m : Message) : list string := route_history_ m.
Definition has_group_claim (m : Message) : bool :=
  bool_decide (is_Some (group_claim_ m)).
Definition group_claim (m : Message) : string := default EmptyString (group_claim_ m).
(** [message.data(0)] *)
Definition data0 (m : Message) : string := default EmptyString (head (data_ m)).

(** *** Mutators *)

(** The fields the handlers write; every other field is carried over. *)
Definition map_fields
    (f_src f_dst : option string → option string)
    (f_dir : bool → bool) (f_vis : option bool → option bool)
    (f_hops : Z → Z) (f_hist : list string → list string)
    (m : Message) : Message :=
  {| id_ := id_ m; type_ := type_ m;
     source_id_ := f_src (source_id_ m);
     destination_id_ := f_dst (destination_id_ m);
     last_id_ := last_id_ m;
     relay_id_ := relay_id_ m;
     relay_connection_id_ := relay_connection_id_ m;
     request_ := request_ m; direct_ := f_dir (direct_ m);
     visited_ := f_vis (visited_ m); client_node_ := client_node_ m;
     routing_message_ := routing_message_ m; cacheable_ := cacheable_ m;
     replication_ := replication_ m; hops_to_live_ := f_hops (hops_to_live_ m);
     route_history_ := f_hist (route_history_ m);
     group_claim_ := group_claim_ m; data_ := data_ m |}.

Definition keep {A} (x : A) : A := x.
Definition put {A} (v x : A) : A := v.

Definition set_source_id (v : string) : Message → Message :=
  map_fields (put (Some v)) keep keep keep keep keep.
Definition clear_source_id : Message → Message :=
  map_fields (put None) keep keep keep keep keep.
Definition set_destination_id (v : string) : Message → Message :=
  map_fields keep (put (Some v)) keep keep keep keep.
Definition clear_destination_id : Message → Message :=
  map_fields keep (put None) keep keep keep keep.
Definition set_direct (v : bool) : Message → Message :=
  map_fields keep keep (put v) keep keep keep.
Definition set_visited (v : bool) : Message → Message :=
  map_fields keep keep keep (put (Some v)) keep keep.
Definition set_hops_to_live (v : Z) : Message → Message :=
  map_fields keep keep keep keep (put v) keep.
Definition add_route_history (v : string) : Message → Message :=
  map_fields keep keep keep keep keep (λ h, h ++ [v]).
Definition clear_route_history : Message → Message :=
  map_fields keep keep keep keep keep (put []).

End protobuf.

Import protobuf.

(** ** utils.cc *)

(** utils.cc is not among the sources embedded here.  Its predicates read
    the message flag they are named after. *)

(** Modelled from the spec: [IsRoutingMessage] of utils.cc, a routing
    control message (section 4.6.3). *)
Definition IsRoutingMessage (m : Message) : bool := routing_message m.
(** Modelled from the spec: [IsNodeLevelMessage] of utils.cc, an application
    message. *)
Definition IsNodeLevelMessage (m : Message) : bool := negb (IsRoutingMessage m).
(** Modelled from the spec: [IsRequest] of utils.cc, the [request] flag. *)
Definition IsRequest (m : Message) : bool := request m.
(** Modelled from the spec: [IsResponse] of utils.cc, not a request. *)
Definition IsResponse (m : Message) : bool := negb (request m).
(** Modelled from the spec: [IsDirect] of utils.cc, the [direct] flag. *)
Definition IsDirect (m : Message) : bool := direct m.
(** Modelled from the spec: [IsCacheable] of utils.cc, the [cacheable]
    flag. *)
Definition IsCacheable (m : Message) : bool := cacheable m.

(** Modelled from the spec: [CheckId] of utils.cc; a valid id has exactly
    [kSize] bytes. *)
Definition CheckId (id : string) : bool :=
  bool_decide (String.length id = NodeIds.kSize).

(** Modelled from the spec: [message.IsInitialized()], the required fields
    of section 6 are present. *)
Definition IsInitialized (m : Message) : bool :=
  has_id m && has_destination_id m.

(** Modelled from the spec: [ValidateMessage] of utils.cc.  Section 4.6,
    guard 1: a message is dropped when it is invalid (required field missing,
    invalid id) or when [hops_to_live == 0]. *)
Definition ValidateMessage (m : Message) : bool :=
  IsInitialized m
  && negb (hops_to_live m =? 0)%Z
  && CheckId (destination_id m)
  && (negb (has_source_id m) || CheckId (source_id m)).

(** ** Routing table *)

(** routing_table.cc is not among the sources embedded here; the table and
    its queries follow sections 3, 4.1 and 4.3 of the spec. *)
Module RoutingTable.

(** Modelled from the spec: the routing table is the sequence of connected
    vault peers (section 3) together with the group matrix, a map from a
    close peer to its reported close group. *)
Record t := {
  kNodeId : NodeId;
  client_mode : bool;
  nodes : list NodeInfo;
  group_matrix : gmap string (list NodeInfo);
}.

(** Modelled from the spec: [size()], the number of entries. *)
Definition size (rt : t) : nat := length (nodes rt).

(** Modelled from the spec: [GetNodeInfo(id, out node)], the entry with
    that id, if any. *)
Definition GetNodeInfo (rt : t) (id : NodeId) : option NodeInfo :=
  List.find (λ n, bool_decide (node_id n = id)) (nodes rt).

(** Modelled from the spec: [IsConnected(id)], some entry has that id. *)
Definition IsConnected (rt : t) (id : NodeId) : bool :=
  bool_decide (is_Some (GetNodeInfo rt id)).

(** Modelled from the spec: the entries ordered by XOR distance to
    [target] (section 4.1). *)
Definition sorted_by_distance (target : NodeId) (l : list NodeInfo) : list NodeInfo :=
  merge_sort (λ a b, NodeIds.closer target (node_id a) (node_id b)) l.

(** Modelled from the spec: [GetClosestNodeInfo(target, n)], up to [n]
    entries ordered by XOR distance to [target] (section 4.1,
    GetClosestNodes). *)
Definition GetClosestNodeInfo (rt : t) (target : NodeId) (n : nat) : list NodeInfo :=
  take n (sorted_by_distance target (nodes rt)).

(** Modelled from the spec: [GetClosestNodes(target, n)], the ids of those
    entries. *)
Definition GetClosestNodes (rt : t) (target : NodeId) (n : nat) : list NodeId :=
  node_id <$> GetClosestNodeInfo rt target n.

(** Modelled from the spec:
    [GetClosestNode(target, exclude, ignore_exact_match, ignore_self)], the
    closest entry whose id is not excluded, [NodeInfo()] when there is
    none (sections 4.1 and 4.5).  The table never holds this node, so
    [ignore_self] changes nothing. *)
Definition GetClosestNode (rt : t) (target : NodeId) (exclude : list string)
    (ignore_exact_match ignore_self : bool) : NodeInfo :=
  let candidates :=
    filter (λ n, (node_id n ∉ exclude)
                 ∧ ¬ (ignore_exact_match = true ∧ node_id n = target))
           (sorted_by_distance target (nodes rt)) in
  default NodeInfo_default (head candidates).

(** Modelled from the spec: [GroupUpdateFromConnectedPeer(peer,
    close_nodes)] replaces the row of [peer] by the reported close group,
    re-sorted (section 4.3). *)
Definition GroupUpdateFromConnectedPeer (rt : t) (peer : NodeId)
    (close_nodes : list NodeInfo) : t :=
  {| kNodeId := kNodeId rt; client_mode := client_mode rt; nodes := nodes rt;
     group_matrix := <[peer := sorted_by_distance peer close_nodes]> (group_matrix rt) |}.

(** Modelled from the spec: [GetNodesNeedingGroupUpdates(out)], the peers
    whose own close group, as recorded in the matrix row, contains this
    node (section 4.4). *)
Definition GetNodesNeedingGroupUpdates (rt : t) : list NodeInfo :=
  filter (λ n, kNodeId rt ∈ (node_id <$> default [] (group_matrix rt !! node_id n)))
         (nodes rt).

End RoutingTable.

(** The closeness queries of the routing table that consult the group matrix.
    Their code is in routing_table.cc and group_matrix.cc; the handlers only
    branch on the answers, so the queries are an interface here. *)
Class ClosenessQueries := {
  (** [IsThisNodeClosestTo(target, ignore_exact_match)] *)
  IsThisNodeClosestTo : RoutingTable.t → NodeId → bool → bool;
  (** [IsThisNodeInRange(target, range)] *)
  IsThisNodeInRange : RoutingTable.t → NodeId → nat → bool;
  (** [IsThisNodeGroupLeader(target, out leader)]: the answer and the value
      left in [leader]. *)
  IsThisNodeGroupLeader : RoutingTable.t → NodeId → bool * NodeInfo;
}.

(** ** Non-routing table *)

(** non_routing_table.cc is not among the sources embedded here; the table
    follows section 4.2 of the spec. *)
Module NonRoutingTable.

(** Modelled from the spec: the non-routing table is the set of connected
    clients. *)
Record t := { nodes : list NodeInfo }.

(** Modelled from the spec: [GetNodesInfo(id)], the clients with that
    id. *)
Definition GetNodesInfo (nrt : t) (id : NodeId) : list NodeInfo :=
  filter (λ n, node_id n = id) (nodes nrt).

(** Modelled from the spec: [IsConnected(id)], some client has that id. *)
Definition IsConnected (nrt : t) (id : NodeId) : bool :=
  bool_decide (GetNodesInfo nrt id ≠ []).

End NonRoutingTable.

(** ** network_utils.cc *)

Module NetworkUtils.

(** Return codes of the transport, as far as the send callback tells them
    apart. *)
Inductive ReturnCode :=
| kSuccess
| kSendFailure
| kOtherError (code : Z).

(** Calls made on the transport and on the connection-lost functor. *)
Inductive Call :=
| rudp_Send (peer : NodeId) (m : Message)
| rudp_Remove (peer : NodeId)
| OnConnectionLost (peer : NodeId)
| Sleep (milliseconds : Z).

(** What one activation of [RecursiveSendOn] leaves behind: the routing
    table as the connection-lost functor left it, the calls made, and the
    values captured by the send callback when a send was issued. *)
Record SendOn := {
  table : RoutingTable.t;
  calls : list Call;
  pending : option (Message * NodeInfo * Z);
}.

(** The next activation a send callback asks for. *)
Inductive Next :=
| Finished
| Again (message : Message) (last_node_attempted : NodeInfo) (attempt_count : Z).

Section NetworkUtils.

Context (P : Parameters.t).
(** [non_routing_table_], [stopped_] and the effect of
    [connection_lost_functor_] on the routing table. *)
Context (nrt : NonRoutingTable.t) (stopped_ : bool).
Context (connection_lost_functor_ : NodeId → RoutingTable.t → RoutingTable.t).

Definition SendTo (message : Message) (peer : NodeId) : list Call :=
  [rudp_Send peer message].

(** [SendToDirect(message, peer)] *)
Definition SendToDirect (message : Message) (peer : NodeId) : list Call :=
  SendTo message peer.

Definition RudpSend (message : Message) (peer : NodeId) : list Call :=
  if stopped_ then [] else [rudp_Send peer message].

(** Lines 307-321.  [kKeys().identity] is this node's id. *)
Definition AdjustRouteHistory (rt : RoutingTable.t) (message : Message) : Message :=
  if bool_decide (RoutingTable.kNodeId rt ∈ route_history message) then message
  else
    let message := add_route_history (RoutingTable.kNodeId rt) message in
    if bool_decide (Parameters.max_route_history P < length (route_history message))
    then
      let route_history := drop 1 (route_history message) in
      foldl (λ m route, add_route_history route m)
            (clear_route_history message) route_history
    else message.

(** Lines 255-261: the ids handed to [GetClosestNode] as already
    visited. *)
Definition excluded_route_history (rt : RoutingTable.t) (message : Message)
    : list string :=
  let history := route_history message in
  if bool_decide (1 < length history) then
    take (length history - 1) history
  else if bool_decide (length history = 1)
          && bool_decide (default EmptyString (head history) ≠ RoutingTable.kNodeId rt)
  then [default EmptyString (head history)]
  else [].

(** Lines 220-305, one activation up to the transport send. *)
Definition RecursiveSendOn (rt : RoutingTable.t) (message : Message)
    (last_node_attempted : NodeInfo) (attempt_count : Z) : SendOn :=
  if stopped_ then {| table := rt; calls := []; pending := None |}
  else
    let retries_exhausted := bool_decide (3 <= attempt_count)%Z in
    let dropped :=
      if retries_exhausted
      then [rudp_Remove (connection_id last_node_attempted);
            OnConnectionLost (connection_id last_node_attempted)]
      else [] in
    let rt :=
      if retries_exhausted
      then connection_lost_functor_ (connection_id last_node_attempted) rt
      else rt in
    let attempt_count := if retries_exhausted then 0%Z else attempt_count in
    let slept := if bool_decide (0 < attempt_count)%Z then [Sleep 50] else [] in
    let ignore_exact_match := negb (IsDirect message) in
    let route_history := excluded_route_history rt message in
    let closest_node :=
      RoutingTable.GetClosestNode rt (destination_id message) route_history
                                  ignore_exact_match true in
    if bool_decide (node_id closest_node = NodeIds.zero)
    then {| table := rt; calls := dropped ++ slept; pending := None |}
    else
      let message := AdjustRouteHistory rt message in
      {| table := rt;
         calls := dropped ++ slept
                  ++ RudpSend message (connection_id closest_node);
         pending := Some (message, closest_node, attempt_count) |}.

(** Lines 271-302: the callback of the send issued by [RecursiveSendOn],
    with the values it captured. *)
Definition message_sent_functor (message : Message) (closest_node : NodeInfo)
    (attempt_count : Z) (message_sent : ReturnCode) : list Call * Next :=
  match message_sent with
  | kSuccess => ([], Finished)
  | kSendFailure => ([], Again message closest_node (attempt_count + 1))
  | kOtherError _ =>
      if stopped_ then ([], Finished)
      else ([rudp_Remove (connection_id closest_node);
             OnConnectionLost (connection_id closest_node)],
            Again message NodeInfo_default 0)
  end.

(** Lines 164-200. *)
Definition SendToClosestNode (rt : RoutingTable.t) (message : Message) : list Call :=
  if has_destination_id message then
    let non_routing_nodes :=
      NonRoutingTable.GetNodesInfo nrt (destination_id message) in
    if bool_decide (non_routing_nodes ≠ []) && direct message then
      mjoin ((λ i, SendTo message (node_id i)) <$> non_routing_nodes)
    else if bool_decide (0 < RoutingTable.size rt) then
      calls (RecursiveSendOn rt message NodeInfo_default 0)
    else []
  else if has_relay_id message && IsResponse message then
    let relay_message := set_destination_id (relay_id message) message in
    SendTo relay_message (relay_id relay_message)
  else [].

End NetworkUtils.

End NetworkUtils.

(** ** std::vector algorithms used by the group-change handler *)

Module vector.

(** The loop of [std::remove_if] once [std::find_if] has found the first
    match: every later element that does not match is move-assigned to the
    slot at [first], which then advances.  [kept] holds the slots before
    [first], which are final; [gap] the slots from [first] up to the read
    position; [rest] the elements still to be read.  The slot of an
    element that was moved to the front is left with a moved-from value:
    valid but unspecified, [moved_from] stands for it.  The result is the
    vector and the index of the new logical end. *)
Fixpoint remove_if_loop {A} (moved_from : A → A) (pred : A → bool)
    (kept gap rest : list A) : list A * nat :=
  match rest with
  | [] => (kept ++ gap, length kept)
  | x :: rest' =>
      if pred x then remove_if_loop moved_from pred kept (gap ++ [x]) rest'
      else remove_if_loop moved_from pred (kept ++ [x])
                          (drop 1 gap ++ [moved_from x]) rest'
  end.

(** [std::remove_if(v.begin(), v.end(), pred)]: the elements in front of
    the first match are not touched; without a match the vector is as it
    was and the result is [end()].  The vector keeps its length. *)
Fixpoint remove_if {A} (moved_from : A → A) (pred : A → bool) (v : list A)
    : list A * nat :=
  match v with
  | [] => ([], 0)
  | x :: v' =>
      if pred x then
        let '(v'', new_end) := remove_if_loop moved_from pred [] [x] v' in
        (v'', new_end)
      else
        let '(v'', new_end) := remove_if moved_from pred v' in
        (x :: v'', S new_end)
  end.

(** [v.erase(pos)] with one iterator: removes the element at [pos]; [pos]
    must be dereferenceable, erasing at [end()] is undefined. *)
Definition erase {A} (v : list A) (pos : nat) : option (list A) :=
  if bool_decide (pos < length v) then Some (delete pos v) else None.

(** [std::find_if(...) == v.end()] *)
Definition find_if_is_end {A} (pred : A → bool) (v : list A) : bool :=
  bool_decide (List.find pred v = None).

End vector.

(** The value a [NodeInfo] holds after [std::move] has taken its content.
    node_info.h is not among the sources embedded here, and the standard
    leaves a moved-from object valid but unspecified, so the value is left
    open. *)
Class MovedFrom := moved_from : NodeInfo → NodeInfo.

(** ** group_change_handler.cc *)

Module GroupChangeHandler.

(** Modelled from the spec: the parsed payloads of routing.proto, as
    section 4.4 names their fields. *)
Record BasicNodeInfo := { basic_node_id : string; basic_rank : Z }.
Record ClosestNodesUpdate_pb := { node : string; nodes_info : list BasicNodeInfo }.
Record ClosestNodesUpdateSubscrirbe_pb := { peer : string; subscribe : bool }.

(** Modelled from the spec: the requests built by rpcs.cc (section 4.4),
    kept symbolic. *)
Inductive Rpc :=
| ClosestNodesUpdateRequest (to from : NodeId) (closest_nodes : list NodeInfo)
| ClosestNodesUpdateSubscrirbe (to from : NodeId) (subscribe : bool).

(** [network_.SendToDirect(rpc, node_id, connection_id)] *)
Inductive Call :=
| SendToDirect (rpc : Rpc) (peer connection : NodeId).

(** The state the handler works on, with the calls made so far. *)
Record State := {
  routing_table_ : RoutingTable.t;
  update_subscribers_ : list NodeInfo;
  network_ : list Call;
}.

(** A handler returns, trips an assertion (debug build), or runs into
    undefined behaviour. *)
Inductive Outcome (A : Type) :=
| Returned (a : A) (s : State)
| AssertionFailed
| Undefined.
Arguments Returned {A} a s.
Arguments AssertionFailed {A}.
Arguments Undefined {A}.

Definition M (A : Type) : Type := State → Outcome A.

Definition ret {A} (a : A) : M A := λ s, Returned a s.
Definition bind {A B} (c : M A) (k : A → M B) : M B :=
  λ s, match c s with
       | Returned a s' => k a s'
       | AssertionFailed => AssertionFailed
       | Undefined => Undefined
       end.

Notation "'do' x ← c ;; k" := (bind c (λ x, k))
  (at level 10, x name, c at level 99, k at level 200).
Notation "'run' c ;; k" := (bind c (λ _, k))
  (at level 10, c at level 99, k at level 200).

Definition get_table : M RoutingTable.t := λ s, Returned (routing_table_ s) s.
Definition get_subscribers : M (list NodeInfo) :=
  λ s, Returned (update_subscribers_ s) s.
Definition set_table (rt : RoutingTable.t) : M unit :=
  λ s, Returned tt {| routing_table_ := rt;
                      update_subscribers_ := update_subscribers_ s;
                      network_ := network_ s |}.
Definition set_subscribers (l : list NodeInfo) : M unit :=
  λ s, Returned tt {| routing_table_ := routing_table_ s;
                      update_subscribers_ := l;
                      network_ := network_ s |}.
Definition send (c : Call) : M unit :=
  λ s, Returned tt {| routing_table_ := routing_table_ s;
                      update_subscribers_ := update_subscribers_ s;
                      network_ := network_ s ++ [c] |}.
Definition undefined {A} : M A := λ _, Undefined.

Fixpoint for_each {A} (l : list A) (body : A → M unit) : M unit :=
  match l with
  | [] => ret tt
  | x :: l' => run body x ;; for_each l' body
  end.

Section GroupChangeHandler.

Context `{MovedFrom} (P : Parameters.t).
(** [true] for a release build (asserts compiled out). *)
Context (NDEBUG : bool).
(** [ParseFromString] of the two payloads. *)
Context (ParseClosestNodesUpdate : string → option ClosestNodesUpdate_pb).
Context (ParseClosestNodesUpdateSubscrirbe :
           string → option ClosestNodesUpdateSubscrirbe_pb).

Definition assert (cond : bool) : M unit :=
  λ s, if NDEBUG || cond then Returned tt s else AssertionFailed.

(** [update_subscribers_.erase(std::remove_if(begin, end, pred))] *)
Definition erase_remove_if (pred : NodeInfo → bool) : M unit :=
  do subscribers ← get_subscribers ;;
  let '(v, new_end) := vector.remove_if moved_from pred subscribers in
  match vector.erase v new_end with
  | Some v' => set_subscribers v'
  | None => undefined
  end.

(** Lines 102-112. *)
Definition Unsubscribe (node_id_ : NodeId) : M unit :=
  do subscribers ← get_subscribers ;;
  if bool_decide (subscribers ≠ []) then
    erase_remove_if (λ node_info, bool_decide (node_id node_info = node_id_))
  else ret tt.

(** Lines 114-146. *)
Definition Subscribe (node_id_ : NodeId) : M unit :=
  do rt ← get_table ;;
  let connected_closest_nodes :=
    RoutingTable.GetClosestNodeInfo rt (RoutingTable.kNodeId rt)
                                    (Parameters.closest_nodes_size P) in
  if bool_decide (length connected_closest_nodes < Parameters.closest_nodes_size P)
  then ret tt
  else
    let found := RoutingTable.GetNodeInfo rt node_id_ in
    let node_info := default NodeInfo_default found in
    run (if bool_decide (is_Some found) then
           do subscribers ← get_subscribers ;;
           if vector.find_if_is_end
                (λ node, bool_decide (node_id node = node_id_)) subscribers
           then set_subscribers (subscribers ++ [node_info])
           else ret tt
         else ret tt) ;;
    if bool_decide (node_id node_info ≠ NodeIds.zero) then
      run assert (bool_decide (length connected_closest_nodes
                               ≤ Parameters.closest_nodes_size P)) ;;
      send (SendToDirect
              (ClosestNodesUpdateRequest (node_id node_info)
                                         (RoutingTable.kNodeId rt)
                                         connected_closest_nodes)
              (node_id node_info) (connection_id node_info))
    else ret tt.

(** Lines 179-204. *)
Definition SendSubscribeRpc (subscribe_ : bool) (node_info : NodeInfo) : M unit :=
  do nodes_needing_update ←
    (if subscribe_ then
       do rt ← get_table ;;
       ret (RoutingTable.GetNodesNeedingGroupUpdates rt)
     else
       do subscribers ← get_subscribers ;;
       run (if bool_decide (subscribers ≠ []) then
              erase_remove_if
                (λ node, bool_decide (node_id node = node_id node_info))
            else ret tt) ;;
       ret [node_info]) ;;
  do rt ← get_table ;;
  for_each nodes_needing_update (λ node,
    send (SendToDirect
            (ClosestNodesUpdateSubscrirbe (node_id node) (RoutingTable.kNodeId rt)
                                          subscribe_)
            (node_id node) (connection_id node))).

(** Lines 149-160. *)
Definition UpdateGroupChange (node_id_ : NodeId) (close_nodes : list NodeInfo)
    : M unit :=
  do rt ← get_table ;;
  run (if RoutingTable.IsConnected rt node_id_ then
         set_table (RoutingTable.GroupUpdateFromConnectedPeer rt node_id_ close_nodes)
       else ret tt) ;;
  SendSubscribeRpc true NodeInfo_default.

(** Lines 62-70: [node_info] is declared outside the loop, so every
    entry carries a default [connection_id]. *)
Definition collect_closest_nodes (infos : list BasicNodeInfo) : list NodeInfo :=
  (λ basic_info, {| node_id := basic_node_id basic_info;
                    connection_id := NodeIds.zero;
                    rank := basic_rank basic_info |})
    <$> List.filter (λ basic_info, CheckId (basic_node_id basic_info)) infos.

(** Lines 44-74.  The result is the message as the handler leaves it. *)
Definition ClosestNodesUpdate (message : Message) : M Message :=
  do rt ← get_table ;;
  if bool_decide (destination_id message ≠ RoutingTable.kNodeId rt) then
    ret Clear
  else
    match ParseClosestNodesUpdate (data0 message) with
    | None => ret message
    | Some closest_node_update =>
        if bool_decide (node closest_node_update = EmptyString)
           || negb (CheckId (node closest_node_update))
        then ret message
        else
          let closest_nodes :=
            collect_closest_nodes (nodes_info closest_node_update) in
          run assert (bool_decide (closest_nodes ≠ [])) ;;
          run UpdateGroupChange (node closest_node_update) closest_nodes ;;
          ret Clear
    end.

(** Lines 76-100. *)
Definition ClosestNodesUpdateSubscribe (message : Message) : M Message :=
  do rt ← get_table ;;
  if bool_decide (destination_id message ≠ RoutingTable.kNodeId rt) then
    ret Clear
  else
    match ParseClosestNodesUpdateSubscrirbe (data0 message) with
    | None => ret message
    | Some closest_node_update_subscribe =>
        if bool_decide (peer closest_node_update_subscribe = EmptyString)
           || negb (CheckId (peer closest_node_update_subscribe))
        then ret message
        else
          run (if subscribe closest_node_update_subscribe
               then Subscribe (peer closest_node_update_subscribe)
               else Unsubscribe (peer closest_node_update_subscribe)) ;;
          ret Clear
    end.

(** Lines 162-177. *)
Definition SendClosestNodesUpdateRpcs (closest_nodes : list NodeInfo) : M unit :=
  if bool_decide (length closest_nodes < Parameters.closest_nodes_size P) then ret tt
  else
    run assert (bool_decide (length closest_nodes
                             ≤ Parameters.closest_nodes_size P)) ;;
    do update_subscribers ← get_subscribers ;;
    do rt ← get_table ;;
    for_each update_subscribers (λ itr,
      send (SendToDirect
              (ClosestNodesUpdateRequest (node_id itr) (RoutingTable.kNodeId rt)
                                         closest_nodes)
              (node_id itr) (connection_id itr))).

End GroupChangeHandler.

End GroupChangeHandler.

(** ** message_handler.cc *)

Module MessageHandler.

(** The routing services a routing message is handed to (lines 55-85). *)
Inductive RoutingHandler :=
| service_Ping
| response_handler_Ping
| service_Connect
| response_handler_Connect
| service_FindNodes
| response_handler_FindNodes
| service_ConnectSuccess
| response_handler_ConnectSuccessAcknowledgement
| remove_furthest_node_RemoveRequest
| remove_furthest_node_RemoveResponse
| group_change_handler_ClosestNodesUpdate
| group_change_handler_ClosestNodesUpdateSubscribe.

#[global] Instance RoutingHandler_eq_dec : EqDecision RoutingHandler.
Proof. solve_decision. Defined.

(** The calls a handler makes on its collaborators. *)
Inductive Action :=
(** [network_.SendToDirect(message, node_id, connection_id)] *)
| SendToDirect (message : Message) (peer connection : NodeId)
(** [network_.SendToClosestNode(message)] *)
| SendToClosestNode (message : Message)
(** A routing service or response handler is called with the message. *)
| Service (handler : RoutingHandler) (message : Message)
(** [message_received_functor_(data, group_claim, cacheable, reply)];
    the reply functor is given by the message it captured. *)
| MessageReceived (data : string) (group_claim : NodeId) (cacheable : bool)
                  (captured : Message)
(** [timer_.AddResponse(message)] *)
| AddResponse (message : Message)
(** [cache_manager_->HandleGetFromCache(message)] *)
| HandleGetFromCache (message : Message)
(** [cache_manager_->AddToCache(message)] *)
| AddToCache (message : Message).

#[global] Instance Action_eq_dec : EqDecision Action.
Proof. solve_decision. Defined.

Definition is_SendToDirect (a : Action) : bool :=
  match a with SendToDirect _ _ _ => true | _ => false end.

(** The message an action hands over. *)
Definition carried (a : Action) : Message :=
  match a with
  | SendToDirect m _ _ | SendToClosestNode m | Service _ m
  | MessageReceived _ _ _ m | AddResponse m | HandleGetFromCache m
  | AddToCache m => m
  end.

(** What a routing service, response handler or group-change handler
    does with the message it is handed.  It holds the message and the
    routing table by reference: when it returns, the message and the
    table are as it left them.  It may also not return (an assertion or
    undefined behaviour inside it). *)
Inductive Served :=
| Leaves (message : Message) (routing_table : RoutingTable.t)
| NeverReturns.

(** [service_], [response_handler_], [remove_furthest_node_] and
    [group_change_handler_], by the handler called. *)
Class RoutingServices := routing_services : RoutingHandler → Message → Served.

(** A handler returns after the calls it made, or the process stops
    after the calls made so far: at an assertion (debug build), or in a
    service that does not return. *)
Inductive Run (A : Type) :=
| Done (a : A) (calls : list Action)
| Aborted (calls : list Action).
Arguments Done {A} a calls.
Arguments Aborted {A} calls.

Definition calls_of {A} (r : Run A) : list Action :=
  match r with Done _ calls | Aborted calls => calls end.

(** [r], run once the calls [calls] have been made. *)
Definition after {A} (calls : list Action) (r : Run A) : Run A :=
  match r with
  | Done a calls' => Done a (calls ++ calls')
  | Aborted calls' => Aborted (calls ++ calls')
  end.

Definition ret {A} (a : A) : Run A := Done a [].
Definition bind {A B} (c : Run A) (k : A → Run B) : Run B :=
  match c with
  | Done a calls => after calls (k a)
  | Aborted calls => Aborted calls
  end.
Definition call (a : Action) : Run unit := Done tt [a].

Notation "'do' x ← c ;; k" := (bind c (λ x, k))
  (at level 10, x name, c at level 99, k at level 200).
Notation "'run' c ;; k" := (bind c (λ _, k))
  (at level 10, c at level 99, k at level 200).

(** The handlers that assert [message.request()] before the call (lines
    76 and 80). *)
Definition asserts_request (handler : RoutingHandler) : bool :=
  match handler with
  | group_change_handler_ClosestNodesUpdate
  | group_change_handler_ClosestNodesUpdateSubscribe => true
  | _ => false
  end.

Section MessageHandler.

Context `{ClosenessQueries} {services : RoutingServices} (P : Parameters.t).
(** [true] for a release build (asserts compiled out). *)
Context (NDEBUG : bool).
Context (routing_table_ : RoutingTable.t) (non_routing_table_ : NonRoutingTable.t).
(** [network_.bootstrap_connection_id()], and whether
    [message_received_functor_] has been set. *)
Context (bootstrap_connection_id : NodeId) (message_received_functor_ : bool).

Definition kNodeId : NodeId := RoutingTable.kNodeId routing_table_.
Definition client_mode : bool := RoutingTable.client_mode routing_table_.

Definition assert (cond : bool) : Run unit :=
  if NDEBUG || cond then ret tt else Aborted [].

(** Lines 55-85: the handler selected by the message type. *)
Definition routing_handler (message : Message) : option RoutingHandler :=
  match type message with
  | kPing => Some (if request message then service_Ping else response_handler_Ping)
  | kConnect =>
      Some (if request message then service_Connect else response_handler_Connect)
  | kFindNodes =>
      Some (if request message then service_FindNodes else response_handler_FindNodes)
  | kConnectSuccess => Some service_ConnectSuccess
  | kConnectSuccessAcknowledgement =>
      Some response_handler_ConnectSuccessAcknowledgement
  | kRemove =>
      Some (if request message then remove_furthest_node_RemoveRequest
            else remove_furthest_node_RemoveResponse)
  | kClosestNodesUpdate => Some group_change_handler_ClosestNodesUpdate
  | kClosestNodesUpdateSubscribe =>
      Some group_change_handler_ClosestNodesUpdateSubscribe
  | kNodeLevel _ => None
  end.

(** The call of the handler: the message and the routing table as it
    leaves them. *)
Definition serve (handler : RoutingHandler) (message : Message)
    : Run (Message * RoutingTable.t) :=
  match routing_services handler message with
  | Leaves message' routing_table' =>
      Done (message', routing_table') [Service handler message]
  | NeverReturns => Aborted [Service handler message]
  end.

(** Lines 87-95, once the service has returned: [request] was read
    before the call, [message] and [routing_table] are what the service
    left. *)
Definition HandleRoutingMessage_reply (routing_table : RoutingTable.t)
    (request : bool) (message : Message) : list Action :=
  if negb request || negb (IsInitialized message) then []
  else if bool_decide (RoutingTable.size routing_table = 0) then
    [SendToDirect message bootstrap_connection_id bootstrap_connection_id]
  else [SendToClosestNode message].

(** Lines 53-96. *)
Definition HandleRoutingMessage (message : Message) : Run unit :=
  let request := request message in
  match routing_handler message with
  | Some handler =>
      run assert (negb (asserts_request handler) || request) ;;
      do served ← serve handler message ;;
      let '(message, routing_table) := served in
      Done tt (HandleRoutingMessage_reply routing_table request message)
  | None => ret tt
  end.

(** Lines 98-158; the reply functor is [response_functor] below. *)
Definition HandleNodeLevelMessageForThisNode (message : Message) : Run unit :=
  if IsRequest message then
    let group_claim_ :=
      if has_group_claim message then group_claim message else NodeIds.zero in
    if message_received_functor_
    then call (MessageReceived (data0 message) group_claim_ false message)
    else ret tt
  else call (AddResponse message).

(** Lines 502-520: the answer and the message as left. *)
Definition RelayDirectMessageIfNeeded (message : Message) : Run (bool * Message) :=
  run assert (bool_decide (destination_id message = kNodeId)) ;;
  if negb (has_relay_id message) then ret (false, message)
  else if bool_decide (destination_id message ≠ relay_id message)
          && IsResponse message then
    let message := clear_destination_id message in
    run call (SendToClosestNode message) ;;
    ret (true, message)
  else ret (false, message).

(** Lines 160-169. *)
Definition HandleMessageForThisNode (message : Message) : Run unit :=
  do relayed ← RelayDirectMessageIfNeeded message ;;
  let '(relayed, message) := relayed in
  if relayed then ret tt
  else if IsRoutingMessage message then HandleRoutingMessage message
  else HandleNodeLevelMessageForThisNode message.

(** Lines 182-212. *)
Definition HandleDirectMessageAsClosestNode (message : Message) : Run unit :=
  run assert (direct message) ;;
  let destination_node_id := destination_id message in
  if IsThisNodeClosestTo routing_table_ destination_node_id false then
    if RoutingTable.IsConnected routing_table_ destination_node_id
       || NonRoutingTable.IsConnected non_routing_table_ destination_node_id
    then call (SendToClosestNode message)
    else if negb (has_visited message) || negb (visited message) then
      let message := set_visited true message in
      call (SendToClosestNode message)
    else ret tt
  else call (SendToClosestNode message).

(** Lines 270-278 (and 473-481): the replication loop.  The result is
    the message as the loop leaves it and the sends made. *)
Fixpoint replicate_to (close : list NodeId) (message : Message)
    : Message * list Action :=
  match close with
  | [] => (message, [])
  | i :: close' =>
      let message := set_destination_id i message in
      let sent :=
        match RoutingTable.GetNodeInfo routing_table_ i with
        | Some node => [SendToDirect message (node_id node) (connection_id node)]
        | None => []
        end in
      let '(message', rest) := replicate_to close' message in
      (message', sent ++ rest)
  end.

(** Lines 214-286. *)
Definition HandleGroupMessageAsClosestNode (message : Message) : Run unit :=
  run assert (negb (direct message)) ;;
  let have_node_with_group_id :=
    RoutingTable.IsConnected routing_table_ (destination_id message) in
  if negb (IsThisNodeClosestTo routing_table_ (destination_id message)
                               (negb (IsDirect message)))
     && negb have_node_with_group_id
  then call (SendToClosestNode message)
  else if has_visited message
          && negb (visited message)
          && bool_decide (Parameters.closest_nodes_size P
                          < RoutingTable.size routing_table_)
          && negb (IsThisNodeInRange routing_table_ (destination_id message)
                                     (Parameters.closest_nodes_size P))
  then
    let message := set_visited true message in
    call (SendToClosestNode message)
  else
    let '(is_leader, group_leader_node) :=
      IsThisNodeGroupLeader routing_table_ (destination_id message) in
    if negb is_leader then
      call (SendToDirect message (node_id group_leader_node)
                         (connection_id group_leader_node))
    else
      let replication := u16 (replication message) in
      if (replication <? 1)%Z
         || (Z.of_nat (Parameters.node_group_size P) <? replication)%Z
      then ret tt
      else
        let replication := u16 (replication - 1) in
        let message := set_direct true message in
        let replication :=
          if have_node_with_group_id then u16 (replication + 1) else replication in
        let close :=
          RoutingTable.GetClosestNodes routing_table_ (destination_id message)
                                       (Z.to_nat replication) in
        (* close.erase(close.begin()): the exact match is the head *)
        let close := if have_node_with_group_id then drop 1 close else close in
        let '(message, sent) := replicate_to close message in
        let message := set_destination_id kNodeId message in
        after sent (if IsRoutingMessage message then HandleRoutingMessage message
                    else HandleNodeLevelMessageForThisNode message).

(** Lines 171-180. *)
Definition HandleMessageAsClosestNode (message : Message) : Run unit :=
  if IsDirect message then HandleDirectMessageAsClosestNode message
  else HandleGroupMessageAsClosestNode message.

(** Lines 288-299. *)
Definition HandleMessageAsFarNode (message : Message) : Run unit :=
  let message :=
    if has_visited message
       && IsThisNodeClosestTo routing_table_ (destination_id message)
                              (negb (direct message))
       && negb (direct message)
       && negb (visited message)
    then set_visited true message
    else message in
  call (SendToClosestNode message).

(** Lines 357-372. *)
Definition HandleMessageForNonRoutingNodes (message : Message) : Run unit :=
  let non_routing_nodes :=
    NonRoutingTable.GetNodesInfo non_routing_table_ (destination_id message) in
  run assert (bool_decide (non_routing_nodes ≠ []) && direct message) ;;
  if IsRequest message
     && (negb (client_node message)
         || bool_decide (source_id message ≠ destination_id message))
  then ret tt
  else call (SendToClosestNode message).

(** Lines 546-553. *)
Definition HandleGroupMessageToSelfId (message : Message) : Run unit :=
  run assert (bool_decide (source_id message = kNodeId)) ;;
  run assert (bool_decide (destination_id message = kNodeId)) ;;
  run assert (request message) ;;
  run assert (negb (direct message)) ;;
  call (SendToClosestNode message).

(** Lines 539-544. *)
Definition IsGroupMessageRequestToSelfId (message : Message) : bool :=
  bool_decide (source_id message = kNodeId)
  && bool_decide (destination_id message = kNodeId)
  && request message
  && negb (direct message).

(** Lines 403-426. *)
Definition HandleDirectRelayRequestMessageAsClosestNode (message : Message)
    : Run unit :=
  run assert (direct message) ;;
  let destination_node_id := destination_id message in
  if IsThisNodeClosestTo routing_table_ destination_node_id false then
    if RoutingTable.IsConnected routing_table_ destination_node_id
       || NonRoutingTable.IsConnected non_routing_table_ destination_node_id
    then
      let message := set_source_id kNodeId message in
      call (SendToClosestNode message)
    else ret tt
  else call (SendToClosestNode message).

(** Lines 428-489. *)
Definition HandleGroupRelayRequestMessageAsClosestNode (message : Message)
    : Run unit :=
  run assert (negb (direct message)) ;;
  let have_node_with_group_id :=
    RoutingTable.IsConnected routing_table_ (destination_id message) in
  if negb (IsThisNodeClosestTo routing_table_ (destination_id message)
                               (negb (IsDirect message)))
     && negb have_node_with_group_id
  then
    let message := set_source_id kNodeId message in
    call (SendToClosestNode message)
  else
    let '(is_leader, group_leader_node) :=
      IsThisNodeGroupLeader routing_table_ (destination_id message) in
    if negb is_leader then
      call (SendToDirect message (node_id group_leader_node)
                         (connection_id group_leader_node))
    else
      let replication := u16 (replication message) in
      if (replication <? 1)%Z
         || (Z.of_nat (Parameters.node_group_size P) <? replication)%Z
      then ret tt
      else
        let replication := u16 (replication - 1) in
        let message := set_direct true message in
        let replication :=
          if have_node_with_group_id then u16 (replication + 1) else replication in
        let close :=
          RoutingTable.GetClosestNodes routing_table_ (destination_id message)
                                       (Z.to_nat replication) in
        let close := if have_node_with_group_id then drop 1 close else close in
        let message := set_source_id kNodeId message in
        let '(message, sent) := replicate_to close message in
        let message := set_destination_id kNodeId message in
        let message := clear_source_id message in
        after sent (if IsRoutingMessage message then HandleRoutingMessage message
                    else HandleNodeLevelMessageForThisNode message).

(** Lines 374-401. *)
Definition HandleRelayRequest (message : Message) : Run unit :=
  run assert (negb (has_source_id message)) ;;
  if bool_decide (destination_id message = kNodeId) && IsRequest message then
    if bool_decide (destination_id message = kNodeId)
       && request message && negb (direct message)
    then
      let message := set_source_id kNodeId message in
      HandleGroupMessageToSelfId message
    else HandleMessageForThisNode message
  else if request message
          && IsThisNodeClosestTo routing_table_ (destination_id message) false
  then
    if direct message then HandleDirectRelayRequestMessageAsClosestNode message
    else HandleGroupRelayRequestMessageAsClosestNode message
  else
    let message := set_source_id kNodeId message in
    call (SendToClosestNode message).

(** Lines 491-500. *)
Definition IsRelayResponseForThisNode (message : Message) : bool :=
  IsRoutingMessage message && has_relay_id message
  && bool_decide (relay_id message = kNodeId).

(** Lines 522-536. *)
Definition HandleClientMessage (message : Message) : Run unit :=
  run assert client_mode ;;
  if bool_decide (source_id message = EmptyString) then ret tt
  else if IsRoutingMessage message then HandleRoutingMessage message
  else if bool_decide (destination_id message = kNodeId)
  then HandleNodeLevelMessageForThisNode message
  else ret tt.

(** Lines 577-585. *)
Definition IsCacheableRequest (message : Message) : bool :=
  IsNodeLevelMessage message && Parameters.caching P && negb client_mode
  && IsCacheable message && IsRequest message.

Definition IsCacheableResponse (message : Message) : bool :=
  IsNodeLevelMessage message && Parameters.caching P && negb client_mode
  && IsCacheable message && negb (IsRequest message).

(** Lines 565-575. *)
Definition HandleCacheLookup (message : Message) : Run unit :=
  run assert (negb client_mode) ;;
  run assert (IsCacheable message && IsRequest message) ;;
  call (HandleGetFromCache message).

Definition StoreCacheCopy (message : Message) : Run unit :=
  run assert (negb client_mode) ;;
  run assert (IsCacheable message && negb (IsRequest message)) ;;
  call (AddToCache message).

(** Lines 312-354: the guards applied to a validated message, in
    order. *)
Definition dispatch (message : Message) : Run unit :=
  if negb client_mode && IsCacheableRequest message then HandleCacheLookup message
  else
    run (if negb client_mode && IsCacheableResponse message
         then StoreCacheCopy message else ret tt) ;;
    if IsGroupMessageRequestToSelfId message then HandleGroupMessageToSelfId message
    else if client_mode then HandleClientMessage message
    else if bool_decide (source_id message = EmptyString)
    then HandleRelayRequest message
    else if NodeIds.IsZero (source_id message) then ret tt
    else if bool_decide (destination_id message = kNodeId)
    then HandleMessageForThisNode message
    else if IsRelayResponseForThisNode message then HandleRoutingMessage message
    else if NonRoutingTable.IsConnected non_routing_table_ (destination_id message)
            && IsDirect message
    then HandleMessageForNonRoutingNodes message
    else if IsThisNodeInRange routing_table_ (destination_id message)
                              (Parameters.node_group_size P)
            || (IsThisNodeClosestTo routing_table_ (destination_id message)
                                    (negb (direct message))
                && visited message)
    then HandleMessageAsClosestNode message
    else HandleMessageAsFarNode message.

(** Lines 301-355. *)
Definition HandleMessage (message : Message) : Run unit :=
  if negb (ValidateMessage message) then
    run assert (0 <? hops_to_live message)%Z ;;
    ret tt
  else
    let message := set_hops_to_live (hops_to_live message - 1) message in
    dispatch message.

(** Lines 113-135: the response built by the reply functor. *)
Definition message_out (message : Message) (reply_message : string) : Message :=
  {| id_ := if has_id message then Some (id message) else None;
     type_ := type message;
     source_id_ := Some kNodeId;
     destination_id_ := Some (source_id message);
     last_id_ := Some kNodeId;
     relay_id_ := if has_relay_id message then Some (relay_id message) else None;
     relay_connection_id_ :=
       if has_relay_connection_id message
       then Some (relay_connection_id message) else None;
     request_ := false;
     direct_ := true;
     visited_ := None;
     client_node_ := client_node message;
     routing_message_ := routing_message message;
     cacheable_ := false;
     replication_ := 0;
     hops_to_live_ := Parameters.hops_to_live P;
     route_history_ := [];
     group_claim_ := None;
     data_ := [reply_message] |}.

(** Lines 104-147: the reply functor handed to the application, called
    with [reply_message]; [message] is the request it captured. *)
Definition response_functor (message : Message) (reply_message : string)
    : Run unit :=
  if bool_decide (reply_message = EmptyString) then ret tt
  else
    let message_out := message_out message reply_message in
    if client_mode && bool_decide (kNodeId = destination_id message_out)
    then call (SendToClosestNode message_out)
    else if bool_decide (kNodeId ≠ destination_id message_out)
    then call (SendToClosestNode message_out)
    else HandleMessage message_out.

End MessageHandler.

(** The two group-change handlers as routing services, on the handler
    state [s]; every other handler is served by [others]. *)
Definition group_change_services `{MovedFrom} (P : Parameters.t) (NDEBUG : bool)
    (ParseClosestNodesUpdate :
       string → option GroupChangeHandler.ClosestNodesUpdate_pb)
    (ParseClosestNodesUpdateSubscrirbe :
       string → option GroupChangeHandler.ClosestNodesUpdateSubscrirbe_pb)
    (s : GroupChangeHandler.State) (others : RoutingServices) : RoutingServices :=
  λ handler message,
    let left (outcome : GroupChangeHandler.Outcome Message) :=
      match outcome with
      | GroupChangeHandler.Returned message' s' =>
          Leaves message' (GroupChangeHandler.routing_table_ s')
      | _ => NeverReturns
      end in
    match handler with
    | group_change_handler_ClosestNodesUpdate =>
        left (GroupChangeHandler.ClosestNodesUpdate NDEBUG ParseClosestNodesUpdate
                                                    message s)
    | group_change_handler_ClosestNodesUpdateSubscribe =>
        left (GroupChangeHandler.ClosestNodesUpdateSubscribe
                P NDEBUG ParseClosestNodesUpdateSubscrirbe message s)
    | _ => others handler message
    end.

End MessageHandler.

(** ** Definitions used in the statements *)

(** The history [NetworkUtils.AdjustRouteHistory] leaves, as a function of
    the one it found: this node appended when absent, the oldest entry
    dropped when that exceeds [max_route_history]. *)
Definition adjusted_history (P : Parameters.t) (self : NodeId) (h : list string)
    : list string :=
  if bool_decide (self ∈ h) then h
  else if bool_decide (Parameters.max_route_history P < length h + 1)
  then drop 1 (h ++ [self])
  else h ++ [self].

(** A group message gets as far as the replication fan-out (line 247 of
    message_handler.cc): neither forwarding guard fires and the routing
    table names this node as group leader. *)
Definition is_group_leader_for `{ClosenessQueries} (P : Parameters.t)
    (rt : RoutingTable.t) (m : Message) : bool :=
  negb (negb (IsThisNodeClosestTo rt (destination_id m) (negb (IsDirect m)))
        && negb (RoutingTable.IsConnected rt (destination_id m)))
  && negb (has_visited m
           && negb (visited m)
           && bool_decide (Parameters.closest_nodes_size P < RoutingTable.size rt)
           && negb (IsThisNodeInRange rt (destination_id m)
                                      (Parameters.closest_nodes_size P)))
  && (IsThisNodeGroupLeader rt (destination_id m)).1.

(** [ids] are the ids of entries of [nodes] that are closest to [target]:
    every entry left out is at least as far from [target] as every entry
    chosen. *)
Definition closest_to (target : NodeId) (ids : list NodeId) (nodes : list NodeInfo)
    : Prop :=
  ∃ chosen rest : list NodeInfo,
    ids = node_id <$> chosen
    ∧ nodes ≡ₚ chosen ++ rest
    ∧ ∀ p q, p ∈ chosen → q ∈ rest → NodeIds.closer target (node_id p) (node_id q).

Module MessageHandler_states.

Import MessageHandler.

(** The entry [GetNodeInfo] finds for an id of the routing table. *)
Definition entry_of (rt : RoutingTable.t) (i : NodeId) : NodeInfo :=
  default NodeInfo_default (RoutingTable.GetNodeInfo rt i).

(** [edited m x]: [x] is [m] after some of the writes the handlers make
    on a message in flight once its hop count has been decremented:
    source id, destination id, [direct], [visited] set. *)
Inductive edited (m : Message) : Message → Prop :=
| edited_none : edited m m
| edited_source_id x v : edited m x → edited m (set_source_id v x)
| edited_no_source_id x : edited m x → edited m (clear_source_id x)
| edited_destination_id x v : edited m x → edited m (set_destination_id v x)
| edited_no_destination_id x : edited m x → edited m (clear_destination_id x)
| edited_direct x v : edited m x → edited m (set_direct v x)
| edited_visited x : edited m x → edited m (set_visited true x).

(** [a] is the send that follows a routing service (lines 87-95 of
    message_handler.cc): the service was handed [m], edited, and [a] sends
    on what it left. *)
Definition served_reply `{RoutingServices} (bootstrap_connection_id : NodeId)
    (m : Message) (a : Action) : Prop :=
  ∃ (handler : RoutingHandler) (handed left : Message) (routing_table : RoutingTable.t),
    edited m handed
    ∧ routing_services handler handed = Leaves left routing_table
    ∧ a ∈ HandleRoutingMessage_reply bootstrap_connection_id routing_table
                                     (request handed) left.

(** [network_.SendToDirect] and [network_.SendToClosestNode]. *)
Definition is_send (a : Action) : bool :=
  match a with
  | SendToDirect _ _ _ | SendToClosestNode _ => true
  | _ => false
  end.

(** [cache_manager_->HandleGetFromCache] and [cache_manager_->AddToCache]. *)
Definition is_cache (a : Action) : bool :=
  match a with
  | HandleGetFromCache _ | AddToCache _ => true
  | _ => false
  end.

(** What a handler does with the message [m] it works on: it hands [m],
    edited, to the network, a routing service, the application or the
    timer, or it sends on what a routing service left. *)
Definition handed_on `{RoutingServices} (bootstrap_connection_id : NodeId)
    (m : Message) (a : Action) : Prop :=
  (edited m (carried a) ∧ is_cache a = false)
  ∨ served_reply bootstrap_connection_id m a.

End MessageHandler_states.

Module GroupChangeHandler_states.

Import GroupChangeHandler.

Definition with_subscribers (l : list NodeInfo) (s : State) : State :=
  {| routing_table_ := routing_table_ s;
     update_subscribers_ := l;
     network_ := network_ s |}.

(** The state [Subscribe] leaves when it accepts the peer [ni]: the peer
    is appended unless a subscriber carries its id, and one
    ClosestNodesUpdate with this node's closest peers is sent to it. *)
Definition subscribed (P : Parameters.t) (ni : NodeInfo) (s : State) : State :=
  let rt := routing_table_ s in
  {| routing_table_ := rt;
     update_subscribers_ :=
       if bool_decide (node_id ni ∈ node_id <$> update_subscribers_ s)
       then update_subscribers_ s
       else update_subscribers_ s ++ [ni];
     network_ :=
       network_ s
       ++ [SendToDirect
             (ClosestNodesUpdateRequest
                (node_id ni) (RoutingTable.kNodeId rt)
                (RoutingTable.GetClosestNodeInfo
                   rt (RoutingTable.kNodeId rt) (Parameters.closest_nodes_size P)))
             (node_id ni) (connection_id ni)] |}.

End GroupChangeHandler_states.

(** ** Sample networks *)

Module Examples.

Definition self_id : NodeId := NodeIds.pad "S".
Definition idA : NodeId := NodeIds.pad "A".
Definition idB : NodeId := NodeIds.pad "B".
Definition idC : NodeId := NodeIds.pad "C".
Definition idD : NodeId := NodeIds.pad "D".
Definition idE : NodeId := NodeIds.pad "E".
Definition idF : NodeId := NodeIds.pad "F".

(** The usual values: group size 4, close group 8. *)
Definition params : Parameters.t :=
  {| Parameters.max_routing_table_size := 64;
     Parameters.closest_nodes_size := 8;
     Parameters.node_group_size := 4;
     Parameters.max_route_history := 5;
     Parameters.hops_to_live := 50;
     Parameters.caching := true |}.

(** A small close group, to keep the sample tables short. *)
Definition small_params : Parameters.t :=
  {| Parameters.max_routing_table_size := 64;
     Parameters.closest_nodes_size := 2;
     Parameters.node_group_size := 4;
     Parameters.max_route_history := 5;
     Parameters.hops_to_live := 50;
     Parameters.caching := true |}.

Definition contact (id : NodeId) : NodeInfo :=
  {| node_id := id; connection_id := id; rank := 0 |}.

(** A moved-from entry with its ids emptied, as the move assignment of
    [std::string] commonly leaves them. *)
#[export] Instance emptied : MovedFrom :=
  λ node, {| node_id := EmptyString; connection_id := EmptyString;
             rank := rank node |}.

Definition table (ids : list NodeId) : RoutingTable.t :=
  {| RoutingTable.kNodeId := self_id;
     RoutingTable.client_mode := false;
     RoutingTable.nodes := contact <$> ids;
     RoutingTable.group_matrix := ∅ |}.

Definition no_clients : NonRoutingTable.t := {| NonRoutingTable.nodes := [] |}.

(** Routing services that leave the message they are handed, and the
    routing table [rt], as they are. *)
Definition untouched (rt : RoutingTable.t) : MessageHandler.RoutingServices :=
  λ _ message, MessageHandler.Leaves message rt.

(** Routing services that clear the message they are handed. *)
Definition consumed (rt : RoutingTable.t) : MessageHandler.RoutingServices :=
  λ _ _, MessageHandler.Leaves Clear rt.

(** Closeness queries that place this node at the head of every group. *)
Definition always_leader : ClosenessQueries :=
  {| IsThisNodeClosestTo := λ _ _ _, true;
     IsThisNodeInRange := λ _ _ _, true;
     IsThisNodeGroupLeader := λ _ _, (true, NodeInfo_default) |}.

(** An application request from [idA] to [destination]. *)
Definition request_to (destination : NodeId) : Message :=
  {| id_ := Some 7%Z; type_ := kNodeLevel 100; source_id_ := Some idA;
     destination_id_ := Some destination; last_id_ := Some idA;
     relay_id_ := None; relay_connection_id_ := None;
     request_ := true; direct_ := true; visited_ := None;
     client_node_ := false; routing_message_ := false; cacheable_ := false;
     replication_ := 1; hops_to_live_ := 8; route_history_ := [];
     group_claim_ := None; data_ := ["payload"] |}.

(** The same request addressed to the group around [destination]. *)
Definition group_request_to (destination : NodeId) (replication : Z) : Message :=
  {| id_ := Some 7%Z; type_ := kNodeLevel 100; source_id_ := Some idA;
     destination_id_ := Some destination; last_id_ := Some idA;
     relay_id_ := None; relay_connection_id_ := None;
     request_ := true; direct_ := false; visited_ := None;
     client_node_ := false; routing_message_ := false; cacheable_ := false;
     replication_ := replication; hops_to_live_ := 8; route_history_ := [];
     group_claim_ := None; data_ := ["payload"] |}.

(** A response that carries both a destination and a relay id. *)
Definition relay_response : Message :=
  {| id_ := Some 7%Z; type_ := kNodeLevel 100; source_id_ := Some idA;
     destination_id_ := Some idD; last_id_ := Some idA;
     relay_id_ := Some idE; relay_connection_id_ := Some idE;
     request_ := false; direct_ := true; visited_ := None;
     client_node_ := false; routing_message_ := false; cacheable_ := false;
     replication_ := 1; hops_to_live_ := 8; route_history_ := [];
     group_claim_ := None; data_ := ["payload"] |}.

Definition with_history (h : list string) (m : Message) : Message :=
  map_fields keep keep keep keep keep (put h) m.

(** Payload parsers that return a fixed record. *)
Definition parse_update (u : GroupChangeHandler.ClosestNodesUpdate_pb)
    : string → option GroupChangeHandler.ClosestNodesUpdate_pb := λ _, Some u.
Definition parse_subscribe (u : GroupChangeHandler.ClosestNodesUpdateSubscrirbe_pb)
    : string → option GroupChangeHandler.ClosestNodesUpdateSubscrirbe_pb :=
  λ _, Some u.
(** A parser that reads the request from the payload text. *)
Definition parse_by_text (id : NodeId)
    : string → option GroupChangeHandler.ClosestNodesUpdateSubscrirbe_pb :=
  λ text,
    if bool_decide (text = "subscribe")
    then Some {| GroupChangeHandler.peer := id; GroupChangeHandler.subscribe := true |}
    else if bool_decide (text = "unsubscribe")
    then Some {| GroupChangeHandler.peer := id; GroupChangeHandler.subscribe := false |}
    else None.

(** A group-change request of type [t] from [idB] to this node, with the
    given payload. *)
Definition group_change_request (t : MessageType) (payload : string) : Message :=
  {| id_ := Some 9%Z; type_ := t;
     source_id_ := Some idB; destination_id_ := Some self_id;
     last_id_ := Some idB; relay_id_ := None; relay_connection_id_ := None;
     request_ := true; direct_ := true; visited_ := None;
     client_node_ := false; routing_message_ := true; cacheable_ := false;
     replication_ := 1; hops_to_live_ := 8; route_history_ := [];
     group_claim_ := None; data_ := [payload] |}.

Definition subscribe_message : string → Message :=
  group_change_request kClosestNodesUpdateSubscribe.

Definition update_message : string → Message :=
  group_change_request kClosestNodesUpdate.

(** A handler state over [table ids] with the given subscribers. *)
Definition handler_state (ids : list NodeId) (subscribers : list NodeInfo)
    : GroupChangeHandler.State :=
  {| GroupChangeHandler.routing_table_ := table ids;
     GroupChangeHandler.update_subscribers_ := subscribers;
     GroupChangeHandler.network_ := [] |}.

(** [table [idB; idC]] where the matrix row of [idB] is [[idC; self]]. *)
Definition table_with_row : RoutingTable.t :=
  RoutingTable.GroupUpdateFromConnectedPeer (table [idB; idC]) idB
                                            [contact idC; contact self_id].

Definition state_with_row : GroupChangeHandler.State :=
  {| GroupChangeHandler.routing_table_ := table_with_row;
     GroupChangeHandler.update_subscribers_ := [];
     GroupChangeHandler.network_ := [] |}.

End Examples.

(** ** The transport seen from the network utilities *)

Module Transport.

Import NetworkUtils.

(** [rudp_.Send], as opposed to the other calls. *)
Definition is_rudp_Send (c : Call) : bool :=
  match c with rudp_Send _ _ => true | _ => false end.

Section Transport.

Context (P : Parameters.t) (stopped_ : bool).
Context (connection_lost_functor_ : NodeId → RoutingTable.t → RoutingTable.t).

(** The routing table after the connection-lost functor has run for
    every [OnConnectionLost] of [cs]. *)
Definition after_calls (cs : list Call) (rt : RoutingTable.t) : RoutingTable.t :=
  foldl (λ t c, match c with
                | OnConnectionLost peer => connection_lost_functor_ peer t
                | _ => t
                end) rt cs.

(** The transport answers every send by running its callback with the
    outcome of the send.  [play outcomes] follows one message through
    [RecursiveSendOn] and the callbacks, the successive sends having the
    outcomes listed; a send beyond the list is left unanswered. *)
Fixpoint play (outcomes : list ReturnCode) (rt : RoutingTable.t) (message : Message)
    (last_node_attempted : NodeInfo) (attempt_count : Z) : list Call :=
  let activation :=
    RecursiveSendOn P stopped_ connection_lost_functor_ rt message
                    last_node_attempted attempt_count in
  match pending activation, outcomes with
  | Some (message', closest_node, attempt_count'), message_sent :: outcomes' =>
      let '(cs, next) :=
        message_sent_functor stopped_ message' closest_node attempt_count'
                             message_sent in
      calls activation ++ cs
      ++ match next with
         | Finished => []
         | Again message'' last attempt =>
             play outcomes' (after_calls cs (table activation)) message'' last attempt
         end
  | _, _ => calls activation
  end.

End Transport.

End Transport.

Module GroupChangeHandler_effects.

Import GroupChangeHandler.

(** The state after the calls [cs] have been made. *)
Definition sent_more (cs : list Call) (s : State) : State :=
  {| routing_table_ := routing_table_ s;
     update_subscribers_ := update_subscribers_ s;
     network_ := network_ s ++ cs |}.

(** The state with the routing table replaced by [rt]. *)
Definition with_table (rt : RoutingTable.t) (s : State) : State :=
  {| routing_table_ := rt;
     update_subscribers_ := update_subscribers_ s;
     network_ := network_ s |}.

(** The subscribe or unsubscribe request sent to [node] by a node whose
    id is [self]. *)
Definition subscribe_rpc (self : NodeId) (subscribe : bool) (node : NodeInfo) : Call :=
  SendToDirect (ClosestNodesUpdateSubscrirbe (node_id node) self subscribe)
               (node_id node) (connection_id node).

(** The close-group update sent to the subscriber [node]. *)
Definition update_rpc (self : NodeId) (closest_nodes : list NodeInfo)
    (node : NodeInfo) : Call :=
  SendToDirect (ClosestNodesUpdateRequest (node_id node) self closest_nodes)
               (node_id node) (connection_id node).

(** The subscribers that do not carry [id]. *)
Definition others (id : NodeId) (l : list NodeInfo) : list NodeInfo :=
  List.filter (λ n, negb (bool_decide (node_id n = id))) l.

End GroupChangeHandler_effects.

Module MessageHandler_edits.

Import MessageHandler MessageHandler_states.

(** No call of the trace is made on the cache manager. *)
Definition no_cache (trace : list Action) : Prop :=
  Forall (λ a, is_cache a = false) trace.

(** The message of a [SendToClosestNode] call names [self] as source. *)
Definition stamped (self : NodeId) (a : Action) : Prop :=
  match a with
  | SendToClosestNode x => source_id_ x = Some self
  | _ => True
  end.


End MessageHandler_edits.

(** ** More sample data *)

Module More_examples.

Import Examples.

(** Closeness queries of a node that is far from every target. *)
Definition never_close : ClosenessQueries :=
  {| IsThisNodeClosestTo := λ _ _ _, false;
     IsThisNodeInRange := λ _ _ _, false;
     IsThisNodeGroupLeader := λ _ _, (false, NodeInfo_default) |}.


(** A non-routing table holding the clients [ids]. *)
Definition clients (ids : list NodeId) : NonRoutingTable.t :=
  {| NonRoutingTable.nodes := contact <$> ids |}.

(** A connection-lost functor that drops the lost peer from the table. *)
Definition drop_connection (lost : NodeId) (rt : RoutingTable.t) : RoutingTable.t :=
  {| RoutingTable.kNodeId := RoutingTable.kNodeId rt;
     RoutingTable.client_mode := RoutingTable.client_mode rt;
     RoutingTable.nodes :=
       filter (λ n, connection_id n ≠ lost) (RoutingTable.nodes rt);
     RoutingTable.group_matrix := RoutingTable.group_matrix rt |}.

(** An application response from [idA] to [destination]. *)
Definition response_to (destination : NodeId) : Message :=
  {| id_ := Some 7%Z; type_ := kNodeLevel 100; source_id_ := Some idA;
     destination_id_ := Some destination; last_id_ := Some idA;
     relay_id_ := None; relay_connection_id_ := None;
     request_ := false; direct_ := true; visited_ := None;
     client_node_ := false; routing_message_ := false; cacheable_ := false;
     replication_ := 1; hops_to_live_ := 8; route_history_ := [];
     group_claim_ := None; data_ := ["payload"] |}.

(** A request without source id, as a relayed peer sends it. *)
Definition relayed_request_to (destination : NodeId) : Message :=
  clear_source_id (request_to destination).

(** A Ping request from [idB] to this node. *)
Definition ping_request : Message := group_change_request kPing "ping".

(** A close-group update naming [idB] with the close nodes [idC; idD]. *)
Definition update_from_B : GroupChangeHandler.ClosestNodesUpdate_pb :=
  {| GroupChangeHandler.node := idB;
     GroupChangeHandler.nodes_info :=
       [{| GroupChangeHandler.basic_node_id := idC;
           GroupChangeHandler.basic_rank := 0 |};
        {| GroupChangeHandler.basic_node_id := idD;
           GroupChangeHandler.basic_rank := 0 |}] |}.

(** A parser that accepts nothing. *)
Definition parse_nothing {A : Type} : string → option A := λ _, None.

End More_examples.

(** * Properties *)

(** Closes a decidable goal on concrete data by evaluation. *)
Ltac by_compute := apply (bool_decide_unpack _); vm_compute; exact I.

(** ** Messages *)

Section message_facts.

Lemma map_fields_compose f1 f2 f3 f4 f5 f6 g1 g2 g3 g4 g5 g6 (m : Message) :
  map_fields f1 f2 f3 f4 f5 f6 (map_fields g1 g2 g3 g4 g5 g6 m)
  = map_fields (f1 ∘ g1) (f2 ∘ g2) (f3 ∘ g3) (f4 ∘ g4) (f5 ∘ g5) (f6 ∘ g6) m.
Proof. reflexivity. Qed.

Lemma map_fields_keep (m : Message) : map_fields keep keep keep keep keep keep m = m.
Proof. by destruct m. Qed.

Lemma route_history_map_fields f1 f2 f3 f4 f5 f6 (m : Message) :
  route_history (map_fields f1 f2 f3 f4 f5 f6 m) = f6 (route_history m).
Proof. reflexivity. Qed.

(** Re-adding the entries one by one to a cleared history stores them in
    order. *)
Lemma foldl_add_route_history (l h : list string) (m : Message) :
  foldl (λ m route, add_route_history route m)
        (map_fields keep keep keep keep keep (put h) m) l
  = map_fields keep keep keep keep keep (put (h ++ l)) m.
Proof.
  revert h. induction l as [|x l IH]; intros h; simpl.
  - by rewrite app_nil_r.
  - replace (h ++ x :: l) with ((h ++ [x]) ++ l) by (by rewrite <- app_assoc).
    rewrite <- IH. reflexivity.
Qed.

End message_facts.

(** ** network_utils.cc *)

Module NetworkUtils_spec.

Import NetworkUtils.

Section route_history.

Context (P : Parameters.t) (rt : RoutingTable.t).

Abbreviation self := (RoutingTable.kNodeId rt).
Abbreviation H := (Parameters.max_route_history P).

Abbreviation adjusted := (adjusted_history P self).

Lemma AdjustRouteHistory_fields (m : Message) :
  AdjustRouteHistory P rt m
  = map_fields keep keep keep keep keep (put (adjusted (route_history m))) m.
Proof.
  unfold AdjustRouteHistory, adjusted_history.
  destruct (bool_decide (self ∈ route_history m)).
  - destruct m; reflexivity.
  - cbv zeta.
    assert (route_history (add_route_history self m) = route_history m ++ [self])
      as -> by reflexivity.
    rewrite length_app. simpl length.
    destruct (bool_decide (H < length (route_history m) + 1)); [|reflexivity].
    rewrite <- (app_nil_l (drop 1 _)).
    rewrite <- foldl_add_route_history. reflexivity.
Qed.

Lemma adjusted_NoDup (h : list string) : NoDup h → NoDup (adjusted h).
Proof.
  intros Hh. unfold adjusted_history. case_bool_decide as Hin; [done|].
  assert (NoDup (h ++ [self])) as Happ.
  { apply NoDup_app. split_and!; [done| |apply NoDup_singleton].
    intros x Hx ->%list_elem_of_singleton. done. }
  case_bool_decide; [|done].
  eapply sublist_NoDup; [done|apply sublist_drop].
Qed.

Lemma adjusted_length (h : list string) : length h ≤ H → length (adjusted h) ≤ H.
Proof.
  intros Hlen. unfold adjusted_history. case_bool_decide; [done|].
  case_bool_decide.
  - rewrite length_drop, length_app. simpl. lia.
  - rewrite length_app. simpl. lia.
Qed.

Lemma adjusted_elem_of (h : list string) : 0 < H → length h ≤ H → self ∈ adjusted h.
Proof.
  intros Hpos Hlen. unfold adjusted_history. case_bool_decide; [done|].
  case_bool_decide.
  - destruct h as [|x h]; simpl in *; [lia|].
    rewrite drop_0. apply elem_of_app. right. by apply list_elem_of_singleton.
  - apply elem_of_app. right. by apply list_elem_of_singleton.
Qed.

(** C9.  [AdjustRouteHistory] keeps the route history duplicate-free and
    at most [max_route_history] long, and the history contains this node
    afterwards.  When this node was already in the history the message is
    unchanged; otherwise this node is appended and, if the history is
    then longer than [max_route_history], its oldest entry is dropped.
    [max_route_history] is a positive constant. *)
Theorem AdjustRouteHistory_invariant (m : Message) :
  0 < H →
  NoDup (route_history m) →
  length (route_history m) ≤ H →
  let m' := AdjustRouteHistory P rt m in
  NoDup (route_history m')
  ∧ length (route_history m') ≤ H
  ∧ self ∈ route_history m'
  ∧ (self ∈ route_history m → m' = m)
  ∧ (self ∉ route_history m →
     let appended := route_history m ++ [self] in
     route_history m'
     = if bool_decide (H < length appended) then drop 1 appended else appended).
Proof.
  intros Hpos Hnd Hlen m'. subst m'.
  rewrite AdjustRouteHistory_fields, route_history_map_fields.
  unfold put. split_and!.
  - by apply adjusted_NoDup.
  - by apply adjusted_length.
  - by apply adjusted_elem_of.
  - intros Hin. unfold adjusted_history. rewrite bool_decide_eq_true_2 by done.
    by destruct m.
  - intros Hnin. cbv zeta. unfold adjusted_history.
    rewrite bool_decide_eq_false_2 by done.
    by rewrite length_app.
Qed.

End route_history.

Import Examples.

Lemma AdjustRouteHistory_invariant_witness :
  let m := with_history [idA; idB] (request_to idD) in
  let m' := AdjustRouteHistory params (table [idB]) m in
  NoDup (route_history m')
  ∧ length (route_history m') ≤ 5
  ∧ self_id ∈ route_history m'
  ∧ (self_id ∈ route_history m → m' = m)
  ∧ (self_id ∉ route_history m →
     let appended := route_history m ++ [self_id] in
     route_history m'
     = if bool_decide (5 < length appended) then drop 1 appended else appended).
Proof.
  apply (AdjustRouteHistory_invariant params (table [idB])
           (with_history [idA; idB] (request_to idD))).
  - simpl. lia.
  - by_compute.
  - simpl. lia.
Defined.

(** C2.  The ids [RecursiveSendOn] excludes from the next-hop choice are
    not the route history without this node.  A message arrives with the
    history [[A; B]], [B] being the hop that sent it here.  The history has
    more than one entry, so its last entry is left out unchecked: only [A]
    is excluded, and the routing table's closest peer to the destination,
    [B] itself, is chosen as next hop. *)
Theorem excluded_route_history_misses_previous_hop :
  let rt := table [idB; idC] in
  let m := with_history [idA; idB] (request_to idD) in
  excluded_route_history rt m = [idA]
  ∧ idB ∈ route_history m
  ∧ idB ≠ RoutingTable.kNodeId rt
  ∧ (idB ∉ excluded_route_history rt m)
  ∧ calls (RecursiveSendOn params false (λ _ t, t) rt m NodeInfo_default 0)
    = [rudp_Send idB (with_history [idA; idB; self_id] (request_to idD))].
Proof.
  cbv zeta. split_and!.
  - vm_compute. reflexivity.
  - by_compute.
  - by_compute.
  - by_compute.
  - vm_compute. reflexivity.
Qed.

(** On a retry the history ends with this node, and then the excluded ids
    are the history without this node. *)
Lemma excluded_route_history_after_adjust (rt : RoutingTable.t) (h : list string)
    (m : Message) :
  RoutingTable.kNodeId rt ∉ h →
  route_history m = h ++ [RoutingTable.kNodeId rt] →
  excluded_route_history rt m = h.
Proof.
  intros Hnin Hm. unfold excluded_route_history. rewrite Hm.
  rewrite length_app. simpl length.
  case_bool_decide as Hlen.
  - replace (length h + 1 - 1) with (length h) by lia.
    by rewrite take_app_length.
  - destruct h as [|x h]; [|simpl in Hlen; lia].
    simpl.
    by case_bool_decide.
Qed.

Section send_to_closest_node.

Context (P : Parameters.t) (nrt : NonRoutingTable.t) (stopped_ : bool).
Context (connection_lost_functor_ : NodeId → RoutingTable.t → RoutingTable.t).

Abbreviation SendToClosestNode' :=
  (SendToClosestNode P nrt stopped_ connection_lost_functor_).

(** C6, as the code has it.  With an empty routing table and no
    non-routing-table client matching under the direct rule, a message
    that has a destination id is dropped, also when it is a response
    bearing a relay id.  The relay rule is for messages without a
    destination id: such a response bearing a relay id is sent once, to
    the relay id, as a copy whose destination id is the relay id; any
    other message without a destination id is dropped. *)
Theorem SendToClosestNode_empty_table (rt : RoutingTable.t) (m : Message) :
  RoutingTable.size rt = 0 →
  NonRoutingTable.GetNodesInfo nrt (destination_id m) = [] ∨ direct m = false →
  (has_destination_id m = true → SendToClosestNode' rt m = [])
  ∧ (has_destination_id m = false →
     if has_relay_id m && IsResponse m
     then SendToClosestNode' rt m
          = [rudp_Send (relay_id m) (set_destination_id (relay_id m) m)]
     else SendToClosestNode' rt m = []).
Proof.
  intros Hsize Hnrt. unfold SendToClosestNode. split.
  - intros ->.
    assert (bool_decide (NonRoutingTable.GetNodesInfo nrt (destination_id m) ≠ [])
            && direct m = false) as ->.
    { destruct Hnrt as [-> | ->].
      - by rewrite bool_decide_eq_false_2 by (intros Hne; by apply Hne).
      - apply andb_false_r. }
    rewrite Hsize. by rewrite bool_decide_eq_false_2 by lia.
  - intros ->. by destruct (has_relay_id m && IsResponse m).
Qed.

End send_to_closest_node.

Lemma SendToClosestNode_empty_table_witness :
  (has_destination_id relay_response = true →
   SendToClosestNode params no_clients false (λ _ t, t) (table []) relay_response = [])
  ∧ (has_destination_id relay_response = false →
     if has_relay_id relay_response && IsResponse relay_response
     then SendToClosestNode params no_clients false (λ _ t, t) (table []) relay_response
          = [rudp_Send (relay_id relay_response)
                       (set_destination_id (relay_id relay_response) relay_response)]
     else SendToClosestNode params no_clients false (λ _ t, t) (table []) relay_response
          = []).
Proof.
  apply (SendToClosestNode_empty_table params no_clients false (λ _ t, t)
           (table []) relay_response).
  - reflexivity.
  - left. reflexivity.
Defined.

(** The response [relay_response] bears a relay id, no client matches its
    destination and the routing table is empty; its destination id is not
    overwritten with the relay id and nothing is sent.  The same response
    without a destination id is sent to the relay id in one transport call;
    a recursive send of the rewritten copy would find the table empty and
    send nothing. *)
Lemma SendToClosestNode_drops_relay_response :
  let send := SendToClosestNode params no_clients false (λ _ t, t) (table []) in
  IsResponse relay_response = true
  ∧ has_relay_id relay_response = true
  ∧ NonRoutingTable.GetNodesInfo no_clients (destination_id relay_response) = []
  ∧ RoutingTable.size (table []) = 0
  ∧ send relay_response = []
  ∧ send (clear_destination_id relay_response)
    = [rudp_Send idE (set_destination_id idE relay_response)]
  ∧ send (set_destination_id idE relay_response) = [].
Proof. cbv zeta. split_and!; reflexivity. Qed.

End NetworkUtils_spec.

(** ** Routing table *)

Module RoutingTable_spec.

#[global] Instance closer_total target : Total (NodeIds.closer target).
Proof. intros a b. unfold NodeIds.closer. lia. Qed.

#[global] Instance closer_trans target : Transitive (NodeIds.closer target).
Proof. intros a b c. unfold NodeIds.closer. lia. Qed.

#[local] Instance closer_info_total target :
  Total (λ a b : NodeInfo, NodeIds.closer target (node_id a) (node_id b)).
Proof. intros a b. apply closer_total. Qed.

#[local] Instance closer_info_trans target :
  Transitive (λ a b : NodeInfo, NodeIds.closer target (node_id a) (node_id b)).
Proof. intros a b c. apply closer_trans. Qed.

Lemma GetNodeInfo_Some (rt : RoutingTable.t) (id : NodeId) (ni : NodeInfo) :
  RoutingTable.GetNodeInfo rt id = Some ni → node_id ni = id ∧ ni ∈ RoutingTable.nodes rt.
Proof.
  unfold RoutingTable.GetNodeInfo. intros Hfind.
  apply List.find_some in Hfind as [Hin Heq].
  apply bool_decide_eq_true in Heq. split; [done|].
  by apply list_elem_of_In.
Qed.

Lemma GetNodeInfo_is_Some (rt : RoutingTable.t) (id : NodeId) :
  id ∈ node_id <$> RoutingTable.nodes rt → is_Some (RoutingTable.GetNodeInfo rt id).
Proof.
  unfold RoutingTable.GetNodeInfo.
  induction (RoutingTable.nodes rt) as [|x l IH]; simpl; intros Hin.
  - by apply elem_of_nil in Hin.
  - case_bool_decide as Heq; [by eexists|].
    apply IH. apply elem_of_cons in Hin as [Hx|Hl]; [congruence|done].
Qed.

Lemma sorted_by_distance_Permutation (target : NodeId) (l : list NodeInfo) :
  RoutingTable.sorted_by_distance target l ≡ₚ l.
Proof. apply merge_sort_Permutation. Qed.

Lemma length_GetClosestNodeInfo (rt : RoutingTable.t) (target : NodeId) (n : nat) :
  length (RoutingTable.GetClosestNodeInfo rt target n) = n `min` RoutingTable.size rt.
Proof.
  unfold RoutingTable.GetClosestNodeInfo, RoutingTable.size.
  rewrite length_take. by rewrite sorted_by_distance_Permutation.
Qed.

Lemma length_GetClosestNodes (rt : RoutingTable.t) (target : NodeId) (n : nat) :
  length (RoutingTable.GetClosestNodes rt target n) = n `min` RoutingTable.size rt.
Proof.
  unfold RoutingTable.GetClosestNodes.
  by rewrite length_fmap, length_GetClosestNodeInfo.
Qed.

Lemma GetClosestNodes_connected (rt : RoutingTable.t) (target : NodeId) (n : nat)
    (id : NodeId) :
  id ∈ RoutingTable.GetClosestNodes rt target n →
  id ∈ node_id <$> RoutingTable.nodes rt.
Proof.
  unfold RoutingTable.GetClosestNodes, RoutingTable.GetClosestNodeInfo.
  intros Hin. apply list_elem_of_fmap in Hin as (x & -> & Hx).
  apply list_elem_of_fmap_2.
  rewrite <- (sorted_by_distance_Permutation target).
  by apply (subseteq_take n).
Qed.

(** [GetClosestNodes] returns ids of routing-table entries none of which
    is further from the target than an entry left out. *)
Lemma GetClosestNodes_closest (rt : RoutingTable.t) (target : NodeId) (n : nat) :
  closest_to target (RoutingTable.GetClosestNodes rt target n) (RoutingTable.nodes rt).
Proof.
  unfold closest_to, RoutingTable.GetClosestNodes, RoutingTable.GetClosestNodeInfo.
  set (sorted := RoutingTable.sorted_by_distance target (RoutingTable.nodes rt)).
  exists (take n sorted), (drop n sorted). split_and!.
  - done.
  - rewrite take_drop. symmetry. apply sorted_by_distance_Permutation.
  - intros p q Hp Hq.
    apply (StronglySorted_app_1_elem_of
             (λ a b : NodeInfo, NodeIds.closer target (node_id a) (node_id b))
             (take n sorted) (drop n sorted)); [|done|done].
    rewrite take_drop. apply StronglySorted_merge_sort; apply _.
Qed.

End RoutingTable_spec.

(** ** std::vector algorithms *)

Module vector_spec.

Lemma filter_partition_length {A} (f : A → bool) (l : list A) :
  length (List.filter f l) + length (List.filter (λ x, negb (f x)) l) = length l.
Proof.
  induction l as [|x l IH]; [done|]. simpl.
  destruct (f x); simpl; lia.
Qed.

Lemma filter_none {A} (f : A → bool) (l : list A) :
  Forall (λ x, f x = false) l → List.filter (λ x, negb (f x)) l = l.
Proof.
  induction 1 as [|x l Hx _ IH]; [done|]. simpl. rewrite Hx. simpl. by rewrite IH.
Qed.

(** The value of a slot behind the new logical end: the element it had
    when that one matches, a moved-from value when it was moved to the
    front. *)
Lemma remove_if_loop_closed {A} (moved_from : A → A) (f : A → bool)
    (rest done kept gap : list A) :
  let left_over := λ x, if f x then x else moved_from x in
  kept = List.filter (λ x, negb (f x)) done →
  gap = drop (length kept) (left_over <$> done) →
  length kept < length done →
  let v := done ++ rest in
  let kept' := List.filter (λ x, negb (f x)) v in
  vector.remove_if_loop moved_from f kept gap rest
  = (kept' ++ (left_over <$> drop (length kept') v), length kept').
Proof.
  intros left_over. revert done kept gap.
  induction rest as [|x rest IH]; intros done kept gap Hkept Hgap Hlt; simpl.
  - rewrite app_nil_r. rewrite <- Hkept. by rewrite Hgap, fmap_drop.
  - replace (done ++ x :: rest) with ((done ++ [x]) ++ rest)
      by (by rewrite <- app_assoc).
    destruct (f x) eqn:Hx.
    + apply IH.
      * rewrite List.filter_app. simpl. rewrite Hx. simpl. by rewrite app_nil_r.
      * rewrite fmap_app. simpl. unfold left_over at 2. rewrite Hx.
        rewrite drop_app_le by (rewrite length_fmap; lia). by rewrite Hgap.
      * rewrite length_app. simpl. lia.
    + apply IH.
      * rewrite List.filter_app. simpl. rewrite Hx. simpl. by rewrite Hkept.
      * rewrite fmap_app. simpl. unfold left_over at 2. rewrite Hx.
        rewrite length_app. simpl.
        rewrite drop_app_le by (rewrite length_fmap; lia).
        by rewrite Hgap, drop_drop.
      * rewrite !length_app. simpl. lia.
Qed.

(** [remove_if] in closed form: the elements that do not match, in their
    order, and behind them the slots left over. *)
Lemma remove_if_closed {A} (moved_from : A → A) (f : A → bool) (v : list A) :
  let kept := List.filter (λ x, negb (f x)) v in
  vector.remove_if moved_from f v
  = (kept ++ ((λ x, if f x then x else moved_from x) <$> drop (length kept) v),
     length kept).
Proof.
  induction v as [|x v IH]; [done|]. simpl. destruct (f x) eqn:Hx; simpl.
  - rewrite (remove_if_loop_closed moved_from f v [x] [] [x]).
    + simpl. by rewrite Hx.
    + simpl. by rewrite Hx.
    + simpl. by rewrite Hx.
    + simpl. lia.
  - cbv zeta in IH. rewrite IH. reflexivity.
Qed.

(** Nothing matches: [remove_if] returns [end()], which [erase] must not
    be given. *)
Lemma erase_remove_if_no_match {A} (moved_from : A → A) (f : A → bool) (l : list A) :
  Forall (λ x, f x = false) l →
  vector.erase (vector.remove_if moved_from f l).1 (vector.remove_if moved_from f l).2
  = None.
Proof.
  intros Hl. rewrite remove_if_closed. unfold vector.erase. simpl.
  rewrite filter_none by done.
  rewrite drop_all, app_nil_r.
  by rewrite bool_decide_eq_false_2 by lia.
Qed.

(** Exactly one element matches: it is the one erased, and no slot is
    left over. *)
Lemma erase_remove_if_one_match {A} (moved_from : A → A) (f : A → bool) (l : list A) :
  length (List.filter f l) = 1 →
  vector.erase (vector.remove_if moved_from f l).1 (vector.remove_if moved_from f l).2
  = Some (List.filter (λ x, negb (f x)) l).
Proof.
  intros Hone. rewrite remove_if_closed. unfold vector.erase. simpl.
  pose proof (filter_partition_length f l) as Hlen.
  set (kept := List.filter (λ x, negb (f x)) l) in *.
  assert (length (drop (length kept) l) = 1) as Htail
    by (rewrite length_drop; lia).
  destruct (drop (length kept) l) as [|x [|y tail]]; simpl in Htail; try lia.
  simpl. rewrite length_app. simpl.
  rewrite bool_decide_eq_true_2 by lia.
  by rewrite delete_middle, app_nil_r.
Qed.

End vector_spec.

(** ** group_change_handler.cc *)

Module GroupChangeHandler_spec.

Import GroupChangeHandler GroupChangeHandler_states RoutingTable_spec.

Lemma no_entry_for_absent_id (id : NodeId) (l : list NodeInfo) :
  id ∉ node_id <$> l →
  List.filter (λ n, bool_decide (node_id n = id)) l = [].
Proof.
  induction l as [|x l IH]; simpl; intros Hnin; [done|].
  apply not_elem_of_cons in Hnin as [Hne Hnin].
  rewrite bool_decide_eq_false_2 by done.
  by apply IH.
Qed.

(** In a list without duplicate ids, a present id is carried by exactly
    one entry. *)
Lemma one_entry_per_id (id : NodeId) (l : list NodeInfo) :
  NoDup (node_id <$> l) →
  id ∈ node_id <$> l →
  length (List.filter (λ n, bool_decide (node_id n = id)) l) = 1.
Proof.
  induction l as [|x l IH]; simpl; intros Hnd Hin.
  - by apply elem_of_nil in Hin.
  - apply NoDup_cons in Hnd as [Hx Hnd].
    case_bool_decide as Heq; simpl.
    + subst id. by rewrite no_entry_for_absent_id.
    + apply IH; [done|].
      apply elem_of_cons in Hin as [Hhere|Hthere]; [congruence|done].
Qed.

Lemma find_if_is_end_spec (id : NodeId) (l : list NodeInfo) :
  vector.find_if_is_end (λ node, bool_decide (node_id node = id)) l = true
  ↔ id ∉ node_id <$> l.
Proof.
  unfold vector.find_if_is_end. rewrite bool_decide_eq_true.
  induction l as [|x l IH]; simpl.
  - split; [intros _; apply not_elem_of_nil|done].
  - case_bool_decide as Heq.
    + subst id. split; [done|]. intros Hnin. exfalso. apply Hnin.
      apply elem_of_cons. by left.
    + rewrite IH. rewrite not_elem_of_cons. split; [by intros ?|by intros [_ ?]].
Qed.

Section subscribers.

Context `{MovedFrom} (P : Parameters.t) (NDEBUG : bool).
Context (ParseClosestNodesUpdate : string → option ClosestNodesUpdate_pb).
Context (ParseClosestNodesUpdateSubscrirbe :
           string → option ClosestNodesUpdateSubscrirbe_pb).

Abbreviation C := (Parameters.closest_nodes_size P).

Lemma with_subscribers_same (s : State) :
  with_subscribers (update_subscribers_ s) s = s.
Proof. by destruct s. Qed.

(** Unsubscribing an id that no subscriber carries, from a non-empty
    list, erases at [end()]. *)
Lemma Unsubscribe_no_match (id : NodeId) (s : State) :
  update_subscribers_ s ≠ [] →
  id ∉ node_id <$> update_subscribers_ s →
  Unsubscribe id s = Undefined.
Proof.
  intros Hne Hnin. unfold Unsubscribe, bind, get_subscribers, erase_remove_if.
  rewrite bool_decide_eq_true_2 by done. unfold bind, get_subscribers.
  pose proof (vector_spec.erase_remove_if_no_match moved_from
                (λ n, bool_decide (node_id n = id)) (update_subscribers_ s)) as Herase.
  destruct (vector.remove_if _ _) as [v new_end]. simpl in Herase.
  rewrite Herase; [done|].
  apply Forall_forall. intros x Hx. apply bool_decide_eq_false_2.
  intros <-. apply Hnin. by apply list_elem_of_fmap_2.
Qed.

(** Unsubscribing an id that exactly one subscriber carries removes that
    subscriber. *)
Lemma Unsubscribe_present (id : NodeId) (s : State) :
  NoDup (node_id <$> update_subscribers_ s) →
  id ∈ node_id <$> update_subscribers_ s →
  Unsubscribe id s
  = Returned tt
      (with_subscribers
         (List.filter (λ n, negb (bool_decide (node_id n = id)))
                      (update_subscribers_ s)) s).
Proof.
  intros Hnd Hin. unfold Unsubscribe, bind, get_subscribers, erase_remove_if.
  rewrite bool_decide_eq_true_2
    by (intros Heq; rewrite Heq in Hin; by apply elem_of_nil in Hin).
  unfold bind, get_subscribers.
  pose proof (vector_spec.erase_remove_if_one_match moved_from
                (λ n, bool_decide (node_id n = id)) (update_subscribers_ s)
                (one_entry_per_id id _ Hnd Hin)) as Herase.
  destruct (vector.remove_if _ _) as [v new_end]. simpl in Herase.
  by rewrite Herase.
Qed.

Abbreviation subscribed := (subscribed P).

Lemma Subscribe_accepts (id : NodeId) (ni : NodeInfo) (s : State) :
  C ≤ RoutingTable.size (routing_table_ s) →
  RoutingTable.GetNodeInfo (routing_table_ s) id = Some ni →
  id ≠ NodeIds.zero →
  Subscribe P NDEBUG id s = Returned tt (subscribed ni s).
Proof.
  intros Hsize Hfound Hnz.
  destruct (GetNodeInfo_Some _ _ _ Hfound) as [Hid _].
  unfold Subscribe, bind, get_table. cbv zeta.
  rewrite length_GetClosestNodeInfo.
  rewrite bool_decide_eq_false_2 by lia.
  rewrite Hfound. change (default NodeInfo_default (Some ni)) with ni.
  rewrite bool_decide_eq_true_2 by eauto.
  unfold get_subscribers, GroupChangeHandler_states.subscribed. rewrite Hid.
  rewrite (bool_decide_eq_true_2 (id ≠ NodeIds.zero)) by done.
  unfold assert. rewrite (bool_decide_eq_true_2 (_ ≤ _)) by lia.
  rewrite orb_true_r.
  destruct (vector.find_if_is_end _ _) eqn:Hend.
  - apply find_if_is_end_spec in Hend.
    rewrite bool_decide_eq_false_2 by done. reflexivity.
  - assert (id ∈ node_id <$> update_subscribers_ s) as Hin.
    { destruct (decide (id ∈ node_id <$> update_subscribers_ s)) as [|Hnin]; [done|].
      apply find_if_is_end_spec in Hnin. congruence. }
    rewrite bool_decide_eq_true_2 by done. reflexivity.
Qed.

Lemma Subscribe_too_few_peers (id : NodeId) (s : State) :
  RoutingTable.size (routing_table_ s) < C →
  Subscribe P NDEBUG id s = Returned tt s.
Proof.
  intros Hsize. unfold Subscribe, bind, get_table. cbv zeta.
  rewrite length_GetClosestNodeInfo.
  by rewrite bool_decide_eq_true_2 by lia.
Qed.

Lemma subscribed_NoDup (ni : NodeInfo) (s : State) :
  NoDup (node_id <$> update_subscribers_ s) →
  NoDup (node_id <$> update_subscribers_ (subscribed ni s)).
Proof.
  intros Hnd. unfold GroupChangeHandler_states.subscribed. simpl. case_bool_decide as Hin; [done|].
  rewrite fmap_app. apply NoDup_app. split_and!; [done| |apply NoDup_singleton].
  intros x Hx. simpl. intros ->%list_elem_of_singleton. done.
Qed.

Abbreviation ClosestNodesUpdateSubscribe' :=
  (ClosestNodesUpdateSubscribe P NDEBUG ParseClosestNodesUpdateSubscrirbe).

(** C7, as the code has it.  A subscribe request names a peer with a
    non-zero id that is in the routing table.  When the routing table
    holds at least [closest_nodes_size] peers, the peer is appended to the
    subscribers if and only if no subscriber carries its id (a
    duplicate-free list stays duplicate-free), and exactly one
    ClosestNodesUpdate with this node's closest [closest_nodes_size]
    peers is sent to it.  When the routing table holds fewer peers the
    request changes nothing and sends nothing.  An unsubscribe request
    for a peer that is among the duplicate-free subscribers removes
    it. *)
Theorem ClosestNodesUpdateSubscribe_handled (id : NodeId) (s : State) :
  CheckId id = true →
  (∀ m ni,
     destination_id m = RoutingTable.kNodeId (routing_table_ s) →
     ParseClosestNodesUpdateSubscrirbe (data0 m)
     = Some {| peer := id; subscribe := true |} →
     id ≠ NodeIds.zero →
     RoutingTable.GetNodeInfo (routing_table_ s) id = Some ni →
     (C ≤ RoutingTable.size (routing_table_ s) →
      ClosestNodesUpdateSubscribe' m s = Returned Clear (subscribed ni s)
      ∧ (id ∈ node_id <$> update_subscribers_ (subscribed ni s))
      ∧ (NoDup (node_id <$> update_subscribers_ s) →
         NoDup (node_id <$> update_subscribers_ (subscribed ni s))))
     ∧ (RoutingTable.size (routing_table_ s) < C →
        ClosestNodesUpdateSubscribe' m s = Returned Clear s))
  ∧ (∀ m,
       destination_id m = RoutingTable.kNodeId (routing_table_ s) →
       ParseClosestNodesUpdateSubscrirbe (data0 m)
       = Some {| peer := id; subscribe := false |} →
       NoDup (node_id <$> update_subscribers_ s) →
       id ∈ node_id <$> update_subscribers_ s →
       ClosestNodesUpdateSubscribe' m s
       = Returned Clear
           (with_subscribers
              (List.filter (λ n, negb (bool_decide (node_id n = id)))
                           (update_subscribers_ s)) s)).
Proof.
  intros Hcheck.
  assert (id ≠ EmptyString) as Hne.
  { intros ->. unfold CheckId in Hcheck. by apply bool_decide_eq_true in Hcheck. }
  assert (∀ m b,
            destination_id m = RoutingTable.kNodeId (routing_table_ s) →
            ParseClosestNodesUpdateSubscrirbe (data0 m)
            = Some {| peer := id; subscribe := b |} →
            ClosestNodesUpdateSubscribe' m s
            = bind (if b then Subscribe P NDEBUG id else Unsubscribe id)
                   (λ _, ret Clear) s) as Hstep.
  { intros m b Hdest Hparse. unfold ClosestNodesUpdateSubscribe at 1.
    unfold bind at 1. unfold get_table.
    rewrite bool_decide_eq_false_2 by (intros Hx; by apply Hx).
    rewrite Hparse. cbn [peer subscribe].
    rewrite bool_decide_eq_false_2 by done. rewrite Hcheck. reflexivity. }
  split.
  - intros m ni Hdest Hparse Hnz Hfound. rewrite (Hstep m true Hdest Hparse). split.
    + intros Hsize. unfold bind.
      rewrite (Subscribe_accepts id ni s Hsize Hfound Hnz).
      split_and!; [done| |apply subscribed_NoDup].
      destruct (GetNodeInfo_Some _ _ _ Hfound) as [Hid _].
      unfold GroupChangeHandler_states.subscribed. simpl. rewrite Hid.
      case_bool_decide; [done|]. rewrite fmap_app. simpl. rewrite Hid.
      apply elem_of_app. right. apply list_elem_of_singleton. done.
    + intros Hsize. unfold bind. by rewrite (Subscribe_too_few_peers id s Hsize).
  - intros m Hdest Hparse Hnd Hin. rewrite (Hstep m false Hdest Hparse). unfold bind.
    by rewrite (Unsubscribe_present id s Hnd Hin).
Qed.

End subscribers.

Import Examples.

Lemma ClosestNodesUpdateSubscribe_handled_witness :
  let s := handler_state [idA; idB] [contact idB] in
  let parse := parse_by_text idB in
  ClosestNodesUpdateSubscribe small_params true parse (subscribe_message "subscribe") s
  = Returned Clear (subscribed small_params (contact idB) s)
  ∧ ClosestNodesUpdateSubscribe small_params true parse
      (subscribe_message "unsubscribe") s
    = Returned Clear (with_subscribers [] s).
Proof.
  pose proof (ClosestNodesUpdateSubscribe_handled small_params true
                (parse_by_text idB) idB (handler_state [idA; idB] [contact idB])
                eq_refl) as [Hsubscribe Hunsubscribe].
  split.
  - apply (Hsubscribe (subscribe_message "subscribe") (contact idB)).
    + reflexivity.
    + reflexivity.
    + by_compute.
    + vm_compute. reflexivity.
    + vm_compute. lia.
  - apply (Hunsubscribe (subscribe_message "unsubscribe")).
    + reflexivity.
    + reflexivity.
    + by_compute.
    + by_compute.
Defined.

(** The peer [idB] is in the routing table and asks to subscribe, but the
    table holds two peers and [closest_nodes_size] is 8: the subscribers
    stay empty and nothing is sent.  With a close group of 2, a peer whose
    id is the zero id is appended to the subscribers and is sent
    nothing. *)
Lemma subscribe_without_update :
  (let s := handler_state [idA; idB] [] in
   RoutingTable.IsConnected (table [idA; idB]) idB = true
   ∧ ClosestNodesUpdateSubscribe params true
       (parse_subscribe {| peer := idB; subscribe := true |})
       (subscribe_message "subscribe") s
     = Returned Clear s)
  ∧ (let s := handler_state [NodeIds.zero; idA] [] in
     RoutingTable.IsConnected (table [NodeIds.zero; idA]) NodeIds.zero = true
     ∧ ClosestNodesUpdateSubscribe small_params true
         (parse_subscribe {| peer := NodeIds.zero; subscribe := true |})
         (subscribe_message "subscribe") s
       = Returned Clear (with_subscribers [contact NodeIds.zero] s)).
Proof. cbv zeta. split_and!; vm_compute; reflexivity. Qed.

(** C10.  [Unsubscribe] of an id that no subscriber carries, on a
    non-empty list: [std::remove_if] returns [end()] and the one-iterator
    [erase] is called on it, which is undefined behaviour.  The same holds
    when the request comes in as a message. *)
Theorem Unsubscribe_absent_peer_undefined :
  Unsubscribe idB (handler_state [idA] [contact idA]) = Undefined
  ∧ ClosestNodesUpdateSubscribe params true
      (parse_subscribe {| peer := idB; subscribe := false |})
      (subscribe_message "unsubscribe") (handler_state [idA] [contact idA])
    = Undefined.
Proof. split; vm_compute; reflexivity. Qed.

(** C8.  A ClosestNodesUpdate from the connected peer [idB] with an empty
    list of close nodes is not ignored.  In a release build the row of
    [idB] in the group matrix, [[idC; self]] before, is replaced by the
    empty row; in a debug build the assertion on line 71 fails.  A list
    with only invalid ids behaves the same. *)
Theorem ClosestNodesUpdate_empty_list_applied :
  let m := update_message "update" in
  let empty := parse_update {| node := idB; nodes_info := [] |} in
  let invalid :=
    parse_update {| node := idB;
                    nodes_info := [{| basic_node_id := "short"; basic_rank := 0 |}] |} in
  let row := λ s : State, RoutingTable.group_matrix (routing_table_ s) !! idB in
  row state_with_row = Some [contact idC; contact self_id]
  ∧ (∃ s', ClosestNodesUpdate true empty m state_with_row = Returned Clear s'
           ∧ row s' = Some [])
  ∧ ClosestNodesUpdate false empty m state_with_row = AssertionFailed
  ∧ (∃ s', ClosestNodesUpdate true invalid m state_with_row = Returned Clear s'
           ∧ row s' = Some [])
  ∧ ClosestNodesUpdate false invalid m state_with_row = AssertionFailed.
Proof.
  cbv zeta. split_and!.
  - vm_compute. reflexivity.
  - eexists. split; vm_compute; reflexivity.
  - vm_compute. reflexivity.
  - eexists. split; vm_compute; reflexivity.
  - vm_compute. reflexivity.
Qed.

End GroupChangeHandler_spec.
(** ** message_handler.cc *)

Module MessageHandler_spec.

Import MessageHandler MessageHandler_states RoutingTable_spec.

Create HintDb edits.

#[local] Hint Constructors edited : edits.

(** *** Runs *)

Lemma after_nil {A} (r : Run A) : after [] r = r.
Proof. by destruct r. Qed.

Lemma calls_of_after {A} (calls : list Action) (r : Run A) :
  calls_of (after calls r) = calls ++ calls_of r.
Proof. by destruct r. Qed.

Lemma after_Done {A} (calls calls' : list Action) (a : A) :
  after calls (Done a calls') = Done a (calls ++ calls').
Proof. reflexivity. Qed.

Lemma bind_ret {A B} (a : A) (k : A → Run B) : bind (ret a) k = k a.
Proof. apply after_nil. Qed.

Lemma bind_call {B} (a : Action) (k : unit → Run B) :
  bind (call a) k = after [a] (k tt).
Proof. reflexivity. Qed.

(** An assertion that holds, and any assertion in a release build, is
    passed. *)
Lemma bind_assert {B} (NDEBUG cond : bool) (k : unit → Run B) :
  NDEBUG || cond = true → bind (assert NDEBUG cond) k = k tt.
Proof. intros Hpass. unfold assert. rewrite Hpass. apply bind_ret. Qed.

Lemma bind_assert_true {B} (NDEBUG cond : bool) (k : unit → Run B) :
  cond = true → bind (assert NDEBUG cond) k = k tt.
Proof. intros ->. apply bind_assert, orb_true_r. Qed.

(** An assertion that fails in a debug build stops the handler. *)
Lemma bind_assert_false {B} (cond : bool) (k : unit → Run B) :
  cond = false → bind (assert false cond) k = Aborted [].
Proof. by intros ->. Qed.

Lemma calls_of_assert (NDEBUG cond : bool) : calls_of (assert NDEBUG cond) = [].
Proof. unfold assert. by destruct (NDEBUG || cond). Qed.

(** The calls of a sequence are the calls of its first part followed,
    when that returns, by the calls of what follows. *)
Lemma Forall_calls_bind {A B} (Q : Action → Prop) (c : Run A) (k : A → Run B) :
  Forall Q (calls_of c) →
  (∀ a calls, c = Done a calls → Forall Q (calls_of (k a))) →
  Forall Q (calls_of (bind c k)).
Proof.
  intros Hc Hk. destruct c as [a calls|calls]; simpl in *; [|done].
  rewrite calls_of_after. apply Forall_app_2; [done|]. by eapply Hk.
Qed.

Lemma Forall_calls_assert {B} (Q : Action → Prop) (NDEBUG cond : bool)
    (k : unit → Run B) :
  Forall Q (calls_of (k tt)) → Forall Q (calls_of (bind (assert NDEBUG cond) k)).
Proof.
  intros Hk. apply Forall_calls_bind.
  - rewrite calls_of_assert. apply Forall_nil_2.
  - by intros [] _ _.
Qed.

Lemma Forall_calls_after {A} (Q : Action → Prop) (calls : list Action) (r : Run A) :
  Forall Q calls → Forall Q (calls_of r) → Forall Q (calls_of (after calls r)).
Proof. intros Hcalls Hr. rewrite calls_of_after. by apply Forall_app_2. Qed.

Lemma Forall_calls_call (Q : Action → Prop) (a : Action) :
  Q a → Forall Q (calls_of (call a)).
Proof. intros Ha. by apply Forall_singleton. Qed.

Lemma Forall_calls_ret {A} (Q : Action → Prop) (a : A) : Forall Q (calls_of (ret a)).
Proof. apply Forall_nil_2. Qed.

Section handlers.

Context `{ClosenessQueries} {services : RoutingServices} (P : Parameters.t).
Context (NDEBUG : bool).
Context (rt : RoutingTable.t) (nrt : NonRoutingTable.t).
Context (bootstrap_connection_id : NodeId) (message_received_functor_ : bool).

Abbreviation self := (RoutingTable.kNodeId rt).
Abbreviation G := (Parameters.node_group_size P).
Abbreviation HandleMessage' :=
  (HandleMessage P NDEBUG rt nrt bootstrap_connection_id message_received_functor_).
Abbreviation HandleRoutingMessage' :=
  (HandleRoutingMessage NDEBUG bootstrap_connection_id).

(** *** Direct messages handled as closest node *)

Lemma visited_false (m : Message) :
  visited m = false → negb (has_visited m) || negb (visited m) = true.
Proof. intros ->. apply orb_true_r. Qed.

Lemma visited_true (m : Message) :
  visited m = true → negb (has_visited m) || negb (visited m) = false.
Proof.
  unfold visited, has_visited. destruct (visited_ m) as [[]|]; simpl; try done.
Qed.

(** C5.  A direct message is handled as closest node and this node is
    closest to the destination.  If the destination is connected in the
    routing table or the non-routing table the message is forwarded.  If
    it is not connected and [visited] is false, [visited] is set and the
    message is forwarded once.  If it is not connected and [visited] is
    true, nothing is sent.  In each case the handler returns, in either
    build. *)
Theorem direct_message_as_closest_node (m : Message) :
  direct m = true →
  IsThisNodeClosestTo rt (destination_id m) false = true →
  let connected :=
    RoutingTable.IsConnected rt (destination_id m)
    || NonRoutingTable.IsConnected nrt (destination_id m) in
  let trace :=
    HandleMessageAsClosestNode P NDEBUG rt nrt bootstrap_connection_id
                               message_received_functor_ m in
  (connected = true → trace = Done tt [SendToClosestNode m])
  ∧ (connected = false → visited m = false →
     trace = Done tt [SendToClosestNode (set_visited true m)]
     ∧ visited (set_visited true m) = true)
  ∧ (connected = false → visited m = true → trace = Done tt []).
Proof.
  intros Hdirect Hclosest connected trace. subst connected trace.
  unfold HandleMessageAsClosestNode, IsDirect. rewrite Hdirect.
  unfold HandleDirectMessageAsClosestNode.
  rewrite bind_assert_true by done. rewrite Hclosest.
  split_and!.
  - by intros ->.
  - intros -> Hvisited. by rewrite visited_false.
  - intros -> Hvisited. by rewrite visited_true.
Qed.

(** *** The reply functor *)

(** C4.  A request that carries an id is delivered to the application
    at this node, and the reply functor is called with a non-empty
    reply.  The response it builds has the request's source as
    destination, this node as source, the request's id, [request] false
    and [hops_to_live] set to the protocol constant.  It is passed to
    [SendToClosestNode], or to [HandleMessage] when this node, not in
    client mode, was the request's own source. *)
Theorem reply_inverts_request (m : Message) (reply : string) :
  IsRequest m = true →
  destination_id m = self →
  has_id m = true →
  reply ≠ EmptyString →
  let out := message_out P rt m reply in
  HandleNodeLevelMessageForThisNode true m
  = Done tt [MessageReceived (data0 m)
               (if has_group_claim m then group_claim m else NodeIds.zero)
               false m]
  ∧ response_functor P NDEBUG rt nrt bootstrap_connection_id
                     message_received_functor_ m reply
    = (if RoutingTable.client_mode rt || bool_decide (source_id m ≠ self)
       then Done tt [SendToClosestNode out]
       else HandleMessage' out)
  ∧ destination_id out = source_id m
  ∧ source_id out = self
  ∧ has_id out = true
  ∧ id out = id m
  ∧ request out = false
  ∧ hops_to_live out = Parameters.hops_to_live P.
Proof.
  intros Hrequest Hdest Hid Hreply out. subst out. split_and!.
  - unfold HandleNodeLevelMessageForThisNode. by rewrite Hrequest.
  - unfold response_functor. rewrite bool_decide_eq_false_2 by done.
    cbv zeta.
    change (destination_id (message_out P rt m reply)) with (source_id m).
    unfold client_mode, kNodeId, call.
    destruct (RoutingTable.client_mode rt); simpl.
    + repeat case_bool_decide; congruence.
    + repeat case_bool_decide; congruence.
  - reflexivity.
  - reflexivity.
  - unfold has_id, message_out. simpl. by rewrite Hid.
  - unfold id at 1, message_out. simpl. by rewrite Hid.
  - reflexivity.
  - reflexivity.
Qed.

(** *** Group fan-out *)

Lemma set_destination_id_twice (a b : string) (m : Message) :
  set_destination_id a (set_destination_id b m) = set_destination_id a m.
Proof. reflexivity. Qed.

Abbreviation entry_of := (entry_of rt).

Lemma entry_of_connected (i : NodeId) :
  i ∈ node_id <$> RoutingTable.nodes rt →
  RoutingTable.GetNodeInfo rt i = Some (entry_of i)
  ∧ node_id (entry_of i) = i
  ∧ entry_of i ∈ RoutingTable.nodes rt.
Proof.
  intros Hin. unfold MessageHandler_states.entry_of.
  destruct (GetNodeInfo_is_Some rt i Hin) as [ni Hni]. rewrite Hni. simpl.
  destruct (GetNodeInfo_Some rt i ni Hni). done.
Qed.

(** The replication loop sends one copy to every id of [close], each
    with that id as destination, and leaves in [message] a copy that
    differs from the original in its destination only. *)
Lemma replicate_to_connected (close : list NodeId) (m : Message) :
  Forall (λ i, i ∈ node_id <$> RoutingTable.nodes rt) close →
  set_destination_id self (replicate_to rt close m).1 = set_destination_id self m
  ∧ (replicate_to rt close m).2
    = (λ p, SendToDirect (set_destination_id (node_id p) m)
                         (node_id p) (connection_id p))
        <$> (entry_of <$> close).
Proof.
  intros Hclose. revert m.
  induction Hclose as [|i close Hi _ IH]; intros m; [done|].
  simpl. destruct (entry_of_connected i Hi) as (Hfound & Hid & _).
  rewrite Hfound.
  destruct (IH (set_destination_id i m)) as [IHm IHsent].
  destruct (replicate_to rt close (set_destination_id i m)) as [m' rest].
  simpl in *. split.
  - by rewrite IHm.
  - rewrite Hid. f_equal. rewrite IHsent. done.
Qed.

Lemma filter_fan_out (f : NodeInfo → Message) (peers : list NodeInfo) :
  List.filter is_SendToDirect
    ((λ p, SendToDirect (f p) (node_id p) (connection_id p)) <$> peers)
  = (λ p, SendToDirect (f p) (node_id p) (connection_id p)) <$> peers.
Proof. induction peers as [|p peers IH]; [done|]. simpl. f_equal. exact IH. Qed.

(** What [HandleRoutingMessage] does once its assertion is passed: the
    service is called, and what it left is sent on by lines 87-95. *)
Lemma HandleRoutingMessage_served (m : Message) (handler : RoutingHandler) :
  routing_handler m = Some handler →
  NDEBUG || (negb (asserts_request handler) || request m) = true →
  HandleRoutingMessage' m
  = match routing_services handler m with
    | Leaves message' routing_table =>
        Done tt (Service handler m
                 :: HandleRoutingMessage_reply bootstrap_connection_id routing_table
                                               (request m) message')
    | NeverReturns => Aborted [Service handler m]
    end.
Proof.
  intros Hhandler Hpass. unfold HandleRoutingMessage. rewrite Hhandler.
  rewrite bind_assert by done. unfold serve.
  by destruct (routing_services handler m).
Qed.

(** C1, as the code has it.  A group message for which this node is
    group leader, with no routing-table peer at the destination id; [k]
    is [replication] as the handler reads it, truncated to 16 bits.
    When [1 <= k <= node_group_size] the handler makes [min (k - 1) |RT|]
    calls of [SendToDirect], one to each of the routing-table peers
    closest to the destination, each with the destination id rewritten
    to that peer's id and [direct] set, and then hands the message, its
    destination id set to this node, to [HandleRoutingMessage] or to the
    application.  For an application message these are all the
    [SendToDirect] calls made.  For a routing message the service is
    called and lines 87-95 then send on what it left: one more
    [SendToDirect], to the bootstrap connection, when the message was a
    request, is left initialised and the routing table is left empty.
    When [k] is outside the range nothing is sent and nothing is
    dispatched. *)
Theorem group_fan_out (m : Message) :
  direct m = false →
  is_group_leader_for P rt m = true →
  RoutingTable.IsConnected rt (destination_id m) = false →
  let k := u16 (replication m) in
  let trace :=
    HandleGroupMessageAsClosestNode P NDEBUG rt bootstrap_connection_id
                                    message_received_functor_ m in
  ((1 ≤ k ≤ Z.of_nat G)%Z →
   ∃ peers : list NodeInfo,
     let replica := set_direct true m in
     let local := set_destination_id self replica in
     let fan_out :=
       (λ p, SendToDirect (set_destination_id (node_id p) replica)
                          (node_id p) (connection_id p)) <$> peers in
     trace
     = after fan_out
         (if IsRoutingMessage local then HandleRoutingMessage' local
          else HandleNodeLevelMessageForThisNode message_received_functor_ local)
     ∧ length peers = (Z.to_nat k - 1) `min` RoutingTable.size rt
     ∧ Forall (λ p, p ∈ RoutingTable.nodes rt) peers
     ∧ closest_to (destination_id m) (node_id <$> peers) (RoutingTable.nodes rt)
     ∧ (IsRoutingMessage m = false →
        List.filter is_SendToDirect (calls_of trace) = fan_out)
     ∧ (IsRoutingMessage m = true →
        ∀ handler,
          routing_handler m = Some handler →
          NDEBUG || (negb (asserts_request handler) || request m) = true →
          trace
          = match routing_services handler local with
            | Leaves message' routing_table =>
                Done tt (fan_out
                         ++ Service handler local
                         :: HandleRoutingMessage_reply
                              bootstrap_connection_id routing_table (request m) message')
            | NeverReturns => Aborted (fan_out ++ [Service handler local])
            end))
  ∧ ((k < 1 ∨ Z.of_nat G < k)%Z → trace = Done tt []).
Proof.
  intros Hdirect Hleader Hconnected k trace. subst trace.
  unfold is_group_leader_for in Hleader.
  apply andb_true_iff in Hleader as [Hleader Hgroup].
  apply andb_true_iff in Hleader as [Hclosest Hvisited].
  apply negb_true_iff in Hclosest, Hvisited.
  unfold HandleGroupMessageAsClosestNode.
  rewrite bind_assert_true by (by rewrite Hdirect).
  rewrite Hclosest, Hvisited.
  destruct (IsThisNodeGroupLeader rt (destination_id m)) as [is_leader leader].
  simpl in Hgroup. subst is_leader. simpl negb. cbv iota.
  fold k. rewrite Hconnected.
  assert (0 ≤ k < 65536)%Z as Hk by (apply Z.mod_pos_bound; lia).
  split.
  - intros Hrange.
    assert ((k <? 1)%Z || (Z.of_nat G <? k)%Z = false) as ->.
    { apply orb_false_iff. split; apply Z.ltb_ge; lia. }
    assert (u16 (k - 1) = (k - 1)%Z) as -> by (apply Z.mod_small; lia).
    change (destination_id (set_direct true m)) with (destination_id m).
    replace (Z.to_nat (k - 1)) with (Z.to_nat k - 1) by lia.
    set (close := RoutingTable.GetClosestNodes rt (destination_id m) (Z.to_nat k - 1)).
    assert (Forall (λ i, i ∈ node_id <$> RoutingTable.nodes rt) close) as Hclose.
    { apply Forall_forall. intros i Hi.
      by apply (GetClosestNodes_connected rt (destination_id m) (Z.to_nat k - 1)). }
    destruct (replicate_to_connected close (set_direct true m) Hclose)
      as [Hmessage Hsent].
    destruct (replicate_to rt close (set_direct true m)) as [message sent].
    simpl in Hmessage, Hsent. unfold kNodeId. rewrite Hmessage, Hsent.
    assert (node_id <$> (entry_of <$> close) = close) as Hids.
    { rewrite <- list_fmap_compose. rewrite <- (list_fmap_id close) at 2.
      apply Forall_fmap_ext_1. eapply Forall_impl; [exact Hclose|].
      intros i Hi. simpl. by destruct (entry_of_connected i Hi) as (_ & ? & _). }
    exists (entry_of <$> close). cbv zeta.
    change (IsRoutingMessage (set_destination_id self (set_direct true m)))
      with (IsRoutingMessage m).
    split_and!.
    + done.
    + rewrite length_fmap. apply length_GetClosestNodes.
    + apply Forall_fmap. eapply Forall_impl; [exact Hclose|].
      intros i Hi. simpl. by destruct (entry_of_connected i Hi) as (_ & _ & ?).
    + rewrite Hids. apply GetClosestNodes_closest.
    + intros ->. rewrite calls_of_after, List.filter_app, filter_fan_out.
      unfold HandleNodeLevelMessageForThisNode.
      repeat case_match; simpl; by rewrite app_nil_r.
    + intros -> handler Hhandler Hpass.
      rewrite (HandleRoutingMessage_served _ handler) by done.
      by destruct (routing_services handler _).
  - intros Hrange.
    assert ((k <? 1)%Z || (Z.of_nat G <? k)%Z = true) as ->; [|done].
    apply orb_true_iff. destruct Hrange; [left|right]; apply Z.ltb_lt; lia.
Qed.

(** *** What the handlers hand on *)

Abbreviation handed_on := (handed_on bootstrap_connection_id).

Lemma handed_on_edited (m0 : Message) (a : Action) :
  edited m0 (carried a) → is_cache a = false → handed_on m0 a.
Proof. intros Ha Hcache. by left. Qed.

(** Takes a handler apart, down to the calls it makes. *)
Ltac calls :=
  repeat first
    [ apply Forall_calls_assert
    | apply Forall_calls_ret
    | apply Forall_nil_2
    | apply Forall_calls_call; apply handed_on_edited;
      [cbn [carried]; auto with edits|reflexivity] ].

Lemma HandleRoutingMessage_handed_on (m0 m : Message) :
  edited m0 m → Forall (handed_on m0) (calls_of (HandleRoutingMessage' m)).
Proof.
  intros Hm. unfold HandleRoutingMessage.
  destruct (routing_handler m) as [handler|]; [|apply Forall_nil_2].
  apply Forall_calls_assert, Forall_calls_bind.
  - unfold serve.
    destruct (routing_services handler m);
      apply Forall_singleton, handed_on_edited; done.
  - intros [message' routing_table] made Hserved. unfold serve in Hserved.
    destruct (routing_services handler m) eqn:Hservice; [|done].
    simplify_eq. simpl. apply Forall_forall. intros a Ha. right.
    by exists handler, m, message', routing_table.
Qed.

Lemma HandleNodeLevelMessageForThisNode_handed_on (m0 m : Message) :
  edited m0 m →
  Forall (handed_on m0)
         (calls_of (HandleNodeLevelMessageForThisNode message_received_functor_ m)).
Proof.
  intros Hm. unfold HandleNodeLevelMessageForThisNode. repeat case_match; calls.
Qed.

Lemma local_delivery_handed_on (m0 m : Message) :
  edited m0 m →
  Forall (handed_on m0)
         (calls_of (if IsRoutingMessage m then HandleRoutingMessage' m
                    else HandleNodeLevelMessageForThisNode
                           message_received_functor_ m)).
Proof.
  intros Hm. destruct (IsRoutingMessage m);
    auto using HandleRoutingMessage_handed_on,
      HandleNodeLevelMessageForThisNode_handed_on.
Qed.

Lemma HandleMessageForThisNode_handed_on (m0 m : Message) :
  edited m0 m →
  Forall (handed_on m0)
         (calls_of (HandleMessageForThisNode NDEBUG rt bootstrap_connection_id
                                             message_received_functor_ m)).
Proof.
  intros Hm. unfold HandleMessageForThisNode, RelayDirectMessageIfNeeded.
  apply Forall_calls_bind.
  - apply Forall_calls_assert. repeat case_match; calls.
  - intros [relayed m'] made Hrelayed.
    assert (relayed = true ∨ m' = m) as [->| ->].
    { unfold assert in Hrelayed. destruct (NDEBUG || _); [|done].
      rewrite bind_ret in Hrelayed.
      repeat case_match; unfold ret, call, bind in Hrelayed;
        simpl in Hrelayed; simplify_eq; auto. }
    + apply Forall_nil_2.
    + destruct relayed; [apply Forall_nil_2|].
      by apply local_delivery_handed_on.
Qed.

Lemma replicate_to_handed_on (m0 : Message) (close : list NodeId) (m : Message) :
  edited m0 m →
  edited m0 (replicate_to rt close m).1
  ∧ Forall (handed_on m0) (replicate_to rt close m).2.
Proof.
  revert m. induction close as [|i close IH]; intros m Hm; simpl.
  - split; [done|apply Forall_nil_2].
  - destruct (IH (set_destination_id i m)) as [IHm IHsent]; [auto with edits|].
    destruct (replicate_to rt close (set_destination_id i m)) as [m' rest].
    simpl in *. split; [done|].
    apply Forall_app_2; [|done].
    destruct (RoutingTable.GetNodeInfo rt i); [|apply Forall_nil_2].
    apply Forall_singleton, handed_on_edited; [cbn [carried]; auto with edits|done].
Qed.

Lemma HandleDirectMessageAsClosestNode_handed_on (m0 m : Message) :
  edited m0 m →
  Forall (handed_on m0) (calls_of (HandleDirectMessageAsClosestNode NDEBUG rt nrt m)).
Proof.
  intros Hm. unfold HandleDirectMessageAsClosestNode.
  apply Forall_calls_assert. repeat case_match; calls.
Qed.

Lemma HandleGroupMessageAsClosestNode_handed_on (m0 m : Message) :
  edited m0 m →
  Forall (handed_on m0)
         (calls_of (HandleGroupMessageAsClosestNode
                      P NDEBUG rt bootstrap_connection_id
                      message_received_functor_ m)).
Proof.
  intros Hm. unfold HandleGroupMessageAsClosestNode.
  apply Forall_calls_assert.
  destruct (negb _ && negb _); [by calls|].
  destruct (_ && negb (IsThisNodeInRange _ _ _)); [by calls|].
  destruct (IsThisNodeGroupLeader _ _) as [is_leader leader].
  destruct (negb is_leader); [by calls|].
  destruct (_ || _); [by calls|].
  match goal with
  | |- context [replicate_to rt ?close ?m1] =>
      destruct (replicate_to_handed_on m0 close m1) as [Hmessage Hsent];
        [auto with edits|];
      destruct (replicate_to rt close m1) as [message sent]
  end.
  simpl in Hmessage, Hsent.
  apply Forall_calls_after; [done|].
  apply local_delivery_handed_on. auto with edits.
Qed.

Lemma HandleGroupRelayRequestMessageAsClosestNode_handed_on (m0 m : Message) :
  edited m0 m →
  Forall (handed_on m0)
         (calls_of (HandleGroupRelayRequestMessageAsClosestNode
                      P NDEBUG rt bootstrap_connection_id
                      message_received_functor_ m)).
Proof.
  intros Hm. unfold HandleGroupRelayRequestMessageAsClosestNode.
  apply Forall_calls_assert.
  destruct (negb _ && negb _); [by calls|].
  destruct (IsThisNodeGroupLeader _ _) as [is_leader leader].
  destruct (negb is_leader); [by calls|].
  destruct (_ || _); [by calls|].
  match goal with
  | |- context [replicate_to rt ?close ?m1] =>
      destruct (replicate_to_handed_on m0 close m1) as [Hmessage Hsent];
        [auto with edits|];
      destruct (replicate_to rt close m1) as [message sent]
  end.
  simpl in Hmessage, Hsent.
  apply Forall_calls_after; [done|].
  apply local_delivery_handed_on. auto with edits.
Qed.

Lemma HandleRelayRequest_handed_on (m0 m : Message) :
  edited m0 m →
  Forall (handed_on m0)
         (calls_of (HandleRelayRequest P NDEBUG rt nrt bootstrap_connection_id
                                       message_received_functor_ m)).
Proof.
  intros Hm. unfold HandleRelayRequest, HandleGroupMessageToSelfId,
    HandleDirectRelayRequestMessageAsClosestNode.
  apply Forall_calls_assert.
  repeat case_match;
    auto using HandleMessageForThisNode_handed_on,
      HandleGroupRelayRequestMessageAsClosestNode_handed_on;
    calls.
Qed.

Lemma HandleClientMessage_handed_on (m0 m : Message) :
  edited m0 m →
  Forall (handed_on m0)
         (calls_of (HandleClientMessage NDEBUG rt bootstrap_connection_id
                                        message_received_functor_ m)).
Proof.
  intros Hm. unfold HandleClientMessage. apply Forall_calls_assert.
  repeat case_match;
    auto using HandleRoutingMessage_handed_on,
      HandleNodeLevelMessageForThisNode_handed_on;
    calls.
Qed.

(** The guards of [dispatch] behind the two cache guards. *)
Lemma guards_handed_on (m0 m : Message) :
  edited m0 m →
  Forall (handed_on m0)
    (calls_of
       (if IsGroupMessageRequestToSelfId rt m
        then HandleGroupMessageToSelfId NDEBUG rt m
        else if client_mode rt
        then HandleClientMessage NDEBUG rt bootstrap_connection_id
                                 message_received_functor_ m
        else if bool_decide (source_id m = EmptyString)
        then HandleRelayRequest P NDEBUG rt nrt bootstrap_connection_id
                                message_received_functor_ m
        else if NodeIds.IsZero (source_id m) then ret tt
        else if bool_decide (destination_id m = kNodeId rt)
        then HandleMessageForThisNode NDEBUG rt bootstrap_connection_id
                                      message_received_functor_ m
        else if IsRelayResponseForThisNode rt m then HandleRoutingMessage' m
        else if NonRoutingTable.IsConnected nrt (destination_id m) && IsDirect m
        then HandleMessageForNonRoutingNodes NDEBUG nrt m
        else if IsThisNodeInRange rt (destination_id m) G
                || (IsThisNodeClosestTo rt (destination_id m) (negb (direct m))
                    && visited m)
        then HandleMessageAsClosestNode P NDEBUG rt nrt bootstrap_connection_id
                                        message_received_functor_ m
        else HandleMessageAsFarNode rt m)).
Proof.
  intros Hm.
  unfold HandleGroupMessageToSelfId, HandleMessageForNonRoutingNodes,
    HandleMessageAsClosestNode, HandleMessageAsFarNode.
  repeat case_match;
    auto using HandleClientMessage_handed_on, HandleRelayRequest_handed_on,
      HandleMessageForThisNode_handed_on, HandleRoutingMessage_handed_on,
      HandleDirectMessageAsClosestNode_handed_on,
      HandleGroupMessageAsClosestNode_handed_on;
    calls.
Qed.



(** *** Validity and hop count *)


End handlers.

Import Examples.

Lemma direct_message_as_closest_node_witness :
  let m := request_to idD in
  let connected :=
    RoutingTable.IsConnected (table [idB]) (destination_id m)
    || NonRoutingTable.IsConnected no_clients (destination_id m) in
  let trace :=
    HandleMessageAsClosestNode (H := always_leader) (services := untouched (table [idB]))
                               params false (table [idB]) no_clients idF true m in
  (connected = true → trace = Done tt [SendToClosestNode m])
  ∧ (connected = false → visited m = false →
     trace = Done tt [SendToClosestNode (set_visited true m)]
     ∧ visited (set_visited true m) = true)
  ∧ (connected = false → visited m = true → trace = Done tt []).
Proof.
  apply (direct_message_as_closest_node (H := always_leader)
           (services := untouched (table [idB])) params false (table [idB])
           no_clients idF true (request_to idD)).
  - reflexivity.
  - reflexivity.
Defined.

Lemma reply_inverts_request_witness :
  let m := request_to self_id in
  let out := message_out params (table [idB]) m "reply" in
  HandleNodeLevelMessageForThisNode true m
  = Done tt [MessageReceived (data0 m)
               (if has_group_claim m then group_claim m else NodeIds.zero)
               false m]
  ∧ response_functor (H := always_leader) (services := untouched (table [idB]))
                     params false (table [idB]) no_clients idF true m "reply"
    = (if RoutingTable.client_mode (table [idB]) || bool_decide (source_id m ≠ self_id)
       then Done tt [SendToClosestNode out]
       else HandleMessage (H := always_leader) (services := untouched (table [idB]))
                          params false (table [idB]) no_clients idF true out)
  ∧ destination_id out = source_id m
  ∧ source_id out = self_id
  ∧ has_id out = true
  ∧ id out = id m
  ∧ request out = false
  ∧ hops_to_live out = 50%Z.
Proof.
  apply (reply_inverts_request (H := always_leader)
           (services := untouched (table [idB])) params false (table [idB])
           no_clients idF true (request_to self_id) "reply").
  - reflexivity.
  - reflexivity.
  - reflexivity.
  - discriminate.
Defined.

(** Scenario S3: five peers in the routing table, [replication = 4]:
    three copies are sent, and the application message is delivered at
    this node; no other [SendToDirect] is made. *)
Lemma group_fan_out_witness :
  let rt := table [idA; idB; idC; idE; idF] in
  let m := group_request_to idD 4 in
  let trace :=
    HandleGroupMessageAsClosestNode (H := always_leader) (services := untouched rt)
                                    params false rt idF true m in
  ∃ peers : list NodeInfo,
    let replica := set_direct true m in
    let local := set_destination_id self_id replica in
    let fan_out :=
      (λ p, SendToDirect (set_destination_id (node_id p) replica)
                         (node_id p) (connection_id p)) <$> peers in
    trace
    = after fan_out
        (if IsRoutingMessage local
         then HandleRoutingMessage (services := untouched rt) false idF local
         else HandleNodeLevelMessageForThisNode true local)
    ∧ length peers = 3
    ∧ Forall (λ p, p ∈ RoutingTable.nodes rt) peers
    ∧ closest_to (destination_id m) (node_id <$> peers) (RoutingTable.nodes rt)
    ∧ List.filter is_SendToDirect (calls_of trace) = fan_out.
Proof.
  cbv zeta.
  destruct (group_fan_out (H := always_leader)
              (services := untouched (table [idA; idB; idC; idE; idF])) params false
              (table [idA; idB; idC; idE; idF]) idF true (group_request_to idD 4))
    as [Hin_range _].
  - reflexivity.
  - reflexivity.
  - reflexivity.
  - destruct Hin_range as (peers & Htrace & Hlength & Hnodes & Hclosest & Hsends & _).
    + vm_compute. split; discriminate.
    + exists peers. split_and!; [exact Htrace|exact Hlength|exact Hnodes
                                |exact Hclosest|].
      apply Hsends. reflexivity.
Defined.

(** This node is group leader for [idD], [replication = 4] is within the
    group size and no peer has the id [idD], but the routing table holds
    one peer: one copy is sent, not three. *)
Lemma group_fan_out_short_table :
  let rt := table [idB] in
  let m := group_request_to idD 4 in
  direct m = false
  ∧ is_group_leader_for (H := always_leader) params rt m = true
  ∧ RoutingTable.IsConnected rt (destination_id m) = false
  ∧ u16 (replication m) = 4%Z
  ∧ Parameters.node_group_size params = 4
  ∧ List.filter is_SendToDirect
      (calls_of (HandleGroupMessageAsClosestNode
                   (H := always_leader) (services := untouched rt)
                   params false rt idF true m))
    = [SendToDirect (set_destination_id idB (set_direct true m)) idB idB].
Proof. cbv zeta. split_and!; vm_compute; reflexivity. Qed.



End MessageHandler_spec.

(** ** network_utils.cc, continued *)

Module NetworkUtils_more.

Import NetworkUtils NetworkUtils_spec RoutingTable_spec Transport.

Section route_history.

Context (P : Parameters.t) (rt : RoutingTable.t).

Abbreviation self := (RoutingTable.kNodeId rt).
Abbreviation H := (Parameters.max_route_history P).

Lemma adjusted_history_has_self (h : list string) :
  0 < H → self ∈ adjusted_history P self h.
Proof.
  intros Hpos. unfold adjusted_history. case_bool_decide; [done|].
  case_bool_decide.
  - destruct h as [|x h]; simpl in *; [lia|].
    rewrite drop_0. apply elem_of_app. right. by apply list_elem_of_singleton.
  - apply elem_of_app. right. by apply list_elem_of_singleton.
Qed.

Lemma AdjustRouteHistory_has_self (m : Message) :
  0 < H → self ∈ route_history (AdjustRouteHistory P rt m).
Proof.
  intros Hpos. rewrite AdjustRouteHistory_fields, route_history_map_fields.
  by apply adjusted_history_has_self.
Qed.

Lemma AdjustRouteHistory_present (m : Message) :
  self ∈ route_history m → AdjustRouteHistory P rt m = m.
Proof. intros Hin. unfold AdjustRouteHistory. by rewrite bool_decide_eq_true_2. Qed.

(** X1.  [AdjustRouteHistory] is idempotent: a retry of the same message
    at the same node leaves the route history as the first attempt left
    it. *)
Theorem AdjustRouteHistory_idempotent (m : Message) :
  0 < H →
  AdjustRouteHistory P rt (AdjustRouteHistory P rt m) = AdjustRouteHistory P rt m.
Proof.
  intros Hpos. apply AdjustRouteHistory_present.
  by apply AdjustRouteHistory_has_self.
Qed.

(** X2.  Once [AdjustRouteHistory] has appended this node, the ids
    excluded from the next-hop choice are the hops recorded before this
    node: all of them, or all but the oldest when the history was
    full. *)
Theorem excluded_after_AdjustRouteHistory (m : Message) :
  0 < H →
  self ∉ route_history m →
  excluded_route_history rt (AdjustRouteHistory P rt m)
  = if bool_decide (H < length (route_history m) + 1)
    then drop 1 (route_history m)
    else route_history m.
Proof.
  intros Hpos Hnin.
  case_bool_decide as Hfull.
  - apply excluded_route_history_after_adjust.
    + intros Hin. apply Hnin. by apply (subseteq_drop 1).
    + rewrite AdjustRouteHistory_fields, route_history_map_fields.
      unfold put, adjusted_history.
      rewrite bool_decide_eq_false_2 by done.
      rewrite bool_decide_eq_true_2 by done.
      destruct (route_history m) as [|x h]; simpl in *; [lia|].
      by rewrite !drop_0.
  - apply excluded_route_history_after_adjust; [done|].
    rewrite AdjustRouteHistory_fields, route_history_map_fields.
    unfold put, adjusted_history.
    rewrite bool_decide_eq_false_2 by done.
    by rewrite bool_decide_eq_false_2 by done.
Qed.

(** Whatever the history, the excluded ids are a prefix of it. *)
Lemma excluded_route_history_prefix (m : Message) :
  excluded_route_history rt m `prefix_of` route_history m.
Proof.
  unfold excluded_route_history.
  case_bool_decide; [apply prefix_take|].
  destruct (route_history m) as [|x [|y h]]; simpl.
  - done.
  - case_bool_decide; [done|]. apply prefix_nil.
  - apply prefix_nil.
Qed.

End route_history.

Section sending.

Context (P : Parameters.t) (nrt : NonRoutingTable.t).
Context (connection_lost_functor_ : NodeId → RoutingTable.t → RoutingTable.t).

Abbreviation H := (Parameters.max_route_history P).
Abbreviation RecursiveSendOn' := (RecursiveSendOn P false connection_lost_functor_).
Abbreviation play' := (play P false connection_lost_functor_).

Lemma GetClosestNode_found (rt : RoutingTable.t) (target : NodeId)
    (exclude : list string) (ignore_exact_match : bool) :
  let n := RoutingTable.GetClosestNode rt target exclude ignore_exact_match true in
  node_id n ≠ NodeIds.zero →
  n ∈ RoutingTable.nodes rt
  ∧ (node_id n ∉ exclude)
  ∧ (ignore_exact_match = true → node_id n ≠ target).
Proof.
  intros n Hn. subst n. unfold RoutingTable.GetClosestNode in *.
  destruct (head (filter _ _)) as [x|] eqn:Hhead; simpl in *; [|done].
  apply head_Some_elem_of, list_elem_of_filter in Hhead as [[Hex Hexact] Hin].
  split_and!; [|done|by intros ??; apply Hexact].
  by rewrite <- (sorted_by_distance_Permutation target).
Qed.

(** X3.  One activation of [RecursiveSendOn] issues at most one send, as
    its last call.  The send goes to the connection of a routing-table
    entry whose id is not among the excluded hops and, for a group
    message, is not the destination id itself; the message sent is the
    one [AdjustRouteHistory] returns.  Without a pending callback nothing
    was sent. *)
Theorem RecursiveSendOn_next_hop (stopped_ : bool) (rt : RoutingTable.t)
    (m : Message) (last_node_attempted : NodeInfo) (attempt_count : Z) :
  let r := RecursiveSendOn P stopped_ connection_lost_functor_ rt m
                           last_node_attempted attempt_count in
  match pending r with
  | Some (m', n, _) =>
      n ∈ RoutingTable.nodes (table r)
      ∧ (node_id n ∉ excluded_route_history (table r) m)
      ∧ (direct m = false → node_id n ≠ destination_id m)
      ∧ m' = AdjustRouteHistory P (table r) m
      ∧ ∃ before, calls r = before ++ [rudp_Send (connection_id n) m']
                  ∧ Forall (λ c, is_rudp_Send c = false) before
  | None => Forall (λ c, is_rudp_Send c = false) (calls r)
  end.
Proof.
  intros r. subst r. unfold RecursiveSendOn.
  destruct stopped_; simpl; [by apply Forall_nil_2|].
  set (rt' := if bool_decide (3 ≤ attempt_count)%Z then _ else rt).
  set (before := (if bool_decide (3 ≤ attempt_count)%Z then _ else [])
                 ++ (if bool_decide (0 < _)%Z then _ else [])).
  assert (Forall (λ c, is_rudp_Send c = false) before) as Hbefore.
  { subst before. apply Forall_app_2; repeat case_bool_decide;
      repeat constructor. }
  pose proof (GetClosestNode_found rt' (destination_id m)
                (excluded_route_history rt' m) (negb (IsDirect m))) as Hfound.
  simpl in Hfound.
  case_bool_decide as Hzero; simpl; [done|].
  destruct (Hfound Hzero) as (Hin & Hex & Hexact).
  split_and!; [done|done| |done|].
  - intros Hdirect. apply Hexact. unfold IsDirect. by rewrite Hdirect.
  - exists before. split; [|done]. unfold RudpSend. by rewrite app_assoc.
Qed.

Lemma RecursiveSendOn_attempt (rt : RoutingTable.t) (m : Message)
    (last_node_attempted : NodeInfo) (attempt_count : Z) :
  (attempt_count < 3)%Z →
  let n := RoutingTable.GetClosestNode rt (destination_id m)
             (excluded_route_history rt m) (negb (IsDirect m)) true in
  node_id n ≠ NodeIds.zero →
  RecursiveSendOn' rt m last_node_attempted attempt_count
  = {| table := rt;
       calls := (if bool_decide (0 < attempt_count)%Z then [Sleep 50] else [])
                ++ [rudp_Send (connection_id n) (AdjustRouteHistory P rt m)];
       pending := Some (AdjustRouteHistory P rt m, n, attempt_count) |}.
Proof.
  intros Ha n Hn. subst n. unfold RecursiveSendOn.
  rewrite (bool_decide_eq_false_2 (3 ≤ attempt_count)%Z) by lia.
  simpl. by rewrite bool_decide_eq_false_2 by done.
Qed.

(** After the third failed attempt the connection of the node last
    tried is removed, the connection-lost functor runs, and the message
    is routed afresh on the table the functor left. *)
Lemma RecursiveSendOn_exhausted (rt : RoutingTable.t) (m : Message)
    (last_node_attempted : NodeInfo) (attempt_count : Z) :
  (3 ≤ attempt_count)%Z →
  let c := connection_id last_node_attempted in
  calls (RecursiveSendOn' rt m last_node_attempted attempt_count)
  = [rudp_Remove c; OnConnectionLost c]
    ++ calls (RecursiveSendOn' (connection_lost_functor_ c rt) m NodeInfo_default 0).
Proof.
  intros Ha c. subst c. unfold RecursiveSendOn.
  rewrite (bool_decide_eq_true_2 (3 ≤ attempt_count)%Z) by lia.
  rewrite (bool_decide_eq_false_2 (3 ≤ 0)%Z) by lia.
  simpl. by case_bool_decide.
Qed.

Lemma play_send_failure (outcomes : list ReturnCode) (rt rt' : RoutingTable.t)
    (m m' : Message) (last n : NodeInfo) (a a' : Z) (cs : list Call) :
  RecursiveSendOn' rt m last a
  = {| table := rt'; calls := cs; pending := Some (m', n, a') |} →
  play' (kSendFailure :: outcomes) rt m last a
  = cs ++ play' outcomes rt' m' n (a' + 1).
Proof. intros Hr. cbn [play]. rewrite Hr. reflexivity. Qed.

(** X4.  Scenario S4.  A message with an empty route history is sent on
    and the transport reports a send failure three times.  The message
    is sent three times to the same peer, the closest one, with a 50 ms
    sleep before the second and the third send; then that peer's
    connection is removed, the connection-lost functor is called, and the
    message is routed afresh on the table the functor leaves. *)
Theorem three_send_failures (rt : RoutingTable.t) (m : Message) :
  0 < H →
  route_history m = [] →
  let n := RoutingTable.GetClosestNode rt (destination_id m) []
                                       (negb (IsDirect m)) true in
  let c := connection_id n in
  let m' := AdjustRouteHistory P rt m in
  node_id n ≠ NodeIds.zero →
  route_history m' = [RoutingTable.kNodeId rt]
  ∧ play' [kSendFailure; kSendFailure; kSendFailure] rt m NodeInfo_default 0
    = [rudp_Send c m'; Sleep 50; rudp_Send c m'; Sleep 50; rudp_Send c m';
       rudp_Remove c; OnConnectionLost c]
      ++ calls (RecursiveSendOn' (connection_lost_functor_ c rt) m'
                                 NodeInfo_default 0).
Proof.
  intros Hpos Hhistory n c m' Hn.
  assert (route_history m' = [RoutingTable.kNodeId rt]) as Hhistory'.
  { subst m'. rewrite AdjustRouteHistory_fields, route_history_map_fields.
    unfold put, adjusted_history. rewrite Hhistory.
    rewrite bool_decide_eq_false_2 by apply not_elem_of_nil.
    by rewrite bool_decide_eq_false_2 by (simpl; lia). }
  split; [done|].
  assert (excluded_route_history rt m = []) as Hex
    by (unfold excluded_route_history; by rewrite Hhistory).
  assert (excluded_route_history rt m' = []) as Hex'.
  { unfold excluded_route_history. rewrite Hhistory'. simpl.
    by case_bool_decide. }
  assert (destination_id m' = destination_id m ∧ IsDirect m' = IsDirect m)
    as [Hdest Hdirect]
    by (subst m'; by rewrite AdjustRouteHistory_fields).
  assert (AdjustRouteHistory P rt m' = m') as Hagain
    by (by apply AdjustRouteHistory_present, AdjustRouteHistory_has_self).
  assert (∀ a last, (a < 3)%Z →
            RecursiveSendOn' rt m' last a
            = {| table := rt;
                 calls := (if bool_decide (0 < a)%Z then [Sleep 50] else [])
                          ++ [rudp_Send c m'];
                 pending := Some (m', n, a) |}) as Hretry.
  { intros a last Ha.
    pose proof (RecursiveSendOn_attempt rt m' last a Ha) as Hr.
    cbv zeta in Hr. rewrite Hex', Hdest, Hdirect, Hagain in Hr. by apply Hr. }
  pose proof (RecursiveSendOn_attempt rt m NodeInfo_default 0 ltac:(lia)) as Hfirst.
  cbv zeta in Hfirst. rewrite Hex in Hfirst. specialize (Hfirst Hn).
  rewrite (play_send_failure _ _ _ _ _ _ _ _ _ _ Hfirst).
  rewrite (play_send_failure _ _ _ _ _ _ _ _ _ _ (Hretry 1%Z n ltac:(lia))).
  rewrite (play_send_failure _ _ _ _ _ _ _ _ _ _ (Hretry 2%Z n ltac:(lia))).
  assert (play' [] rt m' n (2 + 1) = calls (RecursiveSendOn' rt m' n 3)) as ->.
  { cbn [play]. by destruct (pending _) as [[[??]?]|]. }
  rewrite (RecursiveSendOn_exhausted rt m' n 3) by lia.
  reflexivity.
Qed.

Lemma SendTo_each (m : Message) (id : NodeId) (l : list NodeInfo) :
  Forall (λ i, node_id i = id) l →
  mjoin ((λ i, SendTo m (node_id i)) <$> l) = replicate (length l) (rudp_Send id m).
Proof.
  induction 1 as [|i l Hi _ IH]; [done|].
  simpl. unfold SendTo at 1. simpl. rewrite Hi. f_equal. apply IH.
Qed.

Lemma SendToClosestNode_clients (rt : RoutingTable.t) (m : Message) :
  has_destination_id m = true →
  direct m = true →
  let clients := NonRoutingTable.GetNodesInfo nrt (destination_id m) in
  clients ≠ [] →
  SendToClosestNode P nrt false connection_lost_functor_ rt m
  = replicate (length clients) (rudp_Send (destination_id m) m).
Proof.
  intros Hdest Hdirect clients Hclients. unfold SendToClosestNode.
  rewrite Hdest, Hdirect. fold clients.
  rewrite bool_decide_eq_true_2 by done. simpl.
  apply SendTo_each, Forall_forall. intros i Hi.
  by apply list_elem_of_filter in Hi as [? _].
Qed.

(** X5.  A direct message whose destination has entries in the
    non-routing table is sent once per entry, each time to the
    destination's node id and unchanged, whatever the routing table
    holds: every copy goes to the same transport peer, and none to the
    connection id of the entry. *)
Theorem SendToClosestNode_to_clients (rt : RoutingTable.t) (m : Message) :
  has_destination_id m = true →
  direct m = true →
  let clients := NonRoutingTable.GetNodesInfo nrt (destination_id m) in
  clients ≠ [] →
  SendToClosestNode P nrt false connection_lost_functor_ rt m
  = replicate (length clients) (rudp_Send (destination_id m) m).
Proof. apply SendToClosestNode_clients. Qed.

(** X6.  The outcomes of the first send of a message.  On success
    nothing more is done.  On an error other than a send failure the
    peer is not retried: its connection is removed at once, the
    connection-lost functor is called and the message, with its adjusted
    route history, is routed afresh from attempt 0; if the functor took
    the peer out of the routing table, the next send goes to another
    peer. *)
Theorem send_outcomes (rt : RoutingTable.t) (m : Message) (code : Z) :
  let n := RoutingTable.GetClosestNode rt (destination_id m)
             (excluded_route_history rt m) (negb (IsDirect m)) true in
  let c := connection_id n in
  let m' := AdjustRouteHistory P rt m in
  let rt' := connection_lost_functor_ c rt in
  let again := RecursiveSendOn' rt' m' NodeInfo_default 0 in
  node_id n ≠ NodeIds.zero →
  play' [kSuccess] rt m NodeInfo_default 0 = [rudp_Send c m']
  ∧ play' [kOtherError code] rt m NodeInfo_default 0
    = [rudp_Send c m'; rudp_Remove c; OnConnectionLost c] ++ calls again
  ∧ (n ∉ RoutingTable.nodes rt' →
     match pending again with
     | Some (_, n', _) => n' ∈ RoutingTable.nodes rt' ∧ n' ≠ n
     | None => calls again = []
     end).
Proof.
  intros n c m' rt' again Hn.
  pose proof (RecursiveSendOn_attempt rt m NodeInfo_default 0 ltac:(lia)) as Hfirst.
  cbv zeta in Hfirst. specialize (Hfirst Hn). fold n m' in Hfirst.
  split_and!.
  - cbn [play]. by rewrite Hfirst.
  - cbn [play]. rewrite Hfirst. cbn.
    fold c rt'. by destruct (pending _) as [[[??]?]|].
  - intros Hgone. subst again.
    set (n' := RoutingTable.GetClosestNode rt' (destination_id m')
                 (excluded_route_history rt' m') (negb (IsDirect m')) true).
    destruct (decide (node_id n' = NodeIds.zero)) as [Hzero|Hfound].
    + unfold RecursiveSendOn. rewrite (bool_decide_eq_false_2 (3 ≤ 0)%Z) by lia.
      cbn. fold n'. by rewrite bool_decide_eq_true_2.
    + pose proof (RecursiveSendOn_attempt rt' m' NodeInfo_default 0 ltac:(lia))
        as Hnext.
      cbv zeta in Hnext. specialize (Hnext Hfound). rewrite Hnext. cbn.
      destruct (GetClosestNode_found rt' (destination_id m')
                  (excluded_route_history rt' m') (negb (IsDirect m')) Hfound)
        as (Hin & _ & _).
      split; [done|]. intros Heq. apply Hgone. by rewrite <- Heq.
Qed.

End sending.

Import Examples More_examples.

Lemma AdjustRouteHistory_idempotent_witness :
  let rt := Examples.table [idB] in
  AdjustRouteHistory params rt (AdjustRouteHistory params rt (request_to idD))
  = AdjustRouteHistory params rt (request_to idD).
Proof.
  apply (AdjustRouteHistory_idempotent params (Examples.table [idB]) (request_to idD)).
  simpl. lia.
Defined.

Lemma excluded_after_AdjustRouteHistory_witness :
  let rt := Examples.table [idB] in
  let m := with_history [idA; idB] (request_to idD) in
  excluded_route_history rt (AdjustRouteHistory params rt m)
  = if bool_decide (5 < length (route_history m) + 1)
    then drop 1 (route_history m)
    else route_history m.
Proof.
  apply (excluded_after_AdjustRouteHistory params (Examples.table [idB])
           (with_history [idA; idB] (request_to idD))).
  - simpl. lia.
  - by_compute.
Defined.

Lemma RecursiveSendOn_next_hop_witness :
  let m := group_request_to idB 2 in
  let r := RecursiveSendOn params false drop_connection (Examples.table [idB; idC]) m
                           NodeInfo_default 0 in
  ∃ m' n a, pending r = Some (m', n, a) ∧ node_id n ≠ destination_id m.
Proof.
  pose proof (RecursiveSendOn_next_hop params drop_connection false
                (Examples.table [idB; idC]) (group_request_to idB 2)
                NodeInfo_default 0) as Hnext.
  cbv zeta in *.
  destruct (pending _) as [[[m' n] a]|] eqn:Hpending.
  - exists m', n, a. split; [reflexivity|].
    destruct Hnext as (_ & _ & Hexact & _). apply Hexact. reflexivity.
  - vm_compute in Hpending. discriminate Hpending.
Defined.

Lemma three_send_failures_witness :
  let rt := Examples.table [idB; idC] in
  let m := request_to idD in
  let n := RoutingTable.GetClosestNode rt (destination_id m) []
                                       (negb (IsDirect m)) true in
  let c := connection_id n in
  let m' := AdjustRouteHistory params rt m in
  route_history m' = [RoutingTable.kNodeId rt]
  ∧ play params false drop_connection [kSendFailure; kSendFailure; kSendFailure]
         rt m NodeInfo_default 0
    = [rudp_Send c m'; Sleep 50; rudp_Send c m'; Sleep 50; rudp_Send c m';
       rudp_Remove c; OnConnectionLost c]
      ++ calls (RecursiveSendOn params false drop_connection (drop_connection c rt) m'
                                NodeInfo_default 0).
Proof.
  apply (three_send_failures params drop_connection (Examples.table [idB; idC])
           (request_to idD)).
  - simpl. lia.
  - reflexivity.
  - by_compute.
Defined.

Lemma SendToClosestNode_to_clients_witness :
  let nrt := More_examples.clients [idD; idD] in
  let m := request_to idD in
  SendToClosestNode params nrt false drop_connection (Examples.table [idB]) m
  = replicate (length (NonRoutingTable.GetNodesInfo nrt (destination_id m)))
              (rudp_Send (destination_id m) m).
Proof.
  apply (SendToClosestNode_to_clients params (More_examples.clients [idD; idD])
           drop_connection (Examples.table [idB]) (request_to idD)).
  - reflexivity.
  - reflexivity.
  - by_compute.
Defined.

Lemma send_outcomes_witness :
  let rt := Examples.table [idB; idC] in
  let m := request_to idD in
  let n := RoutingTable.GetClosestNode rt (destination_id m)
             (excluded_route_history rt m) (negb (IsDirect m)) true in
  let c := connection_id n in
  let m' := AdjustRouteHistory params rt m in
  let rt' := drop_connection c rt in
  let again := RecursiveSendOn params false drop_connection rt' m' NodeInfo_default 0 in
  play params false drop_connection [kSuccess] rt m NodeInfo_default 0
  = [rudp_Send c m']
  ∧ play params false drop_connection [kOtherError (-1)] rt m NodeInfo_default 0
    = [rudp_Send c m'; rudp_Remove c; OnConnectionLost c] ++ calls again
  ∧ match pending again with
    | Some (_, n', _) => n' ∈ RoutingTable.nodes rt' ∧ n' ≠ n
    | None => calls again = []
    end.
Proof.
  destruct (send_outcomes params drop_connection (Examples.table [idB; idC])
              (request_to idD) (-1)) as (Hsuccess & Herror & Hother).
  - by_compute.
  - split_and!; [exact Hsuccess|exact Herror|].
    apply Hother. by_compute.
Defined.

End NetworkUtils_more.

(** ** group_change_handler.cc, continued *)

Module GroupChangeHandler_more.

Import GroupChangeHandler GroupChangeHandler_states GroupChangeHandler_effects.
Import RoutingTable_spec GroupChangeHandler_spec.

Lemma sent_more_nil (s : State) : sent_more [] s = s.
Proof. destruct s. unfold sent_more. simpl. by rewrite app_nil_r. Qed.

Lemma sent_more_app (cs1 cs2 : list Call) (s : State) :
  sent_more cs2 (sent_more cs1 s) = sent_more (cs1 ++ cs2) s.
Proof. unfold sent_more. simpl. by rewrite app_assoc. Qed.

(** A loop of sends makes its calls in the order of the list and changes
    nothing else. *)
Lemma for_each_send {A} (f : A → Call) (l : list A) (s : State) :
  for_each l (λ x, send (f x)) s = Returned tt (sent_more (f <$> l) s).
Proof.
  revert s. induction l as [|x l IH]; intros s; simpl.
  - by rewrite sent_more_nil.
  - unfold bind. simpl. rewrite IH. f_equal. unfold sent_more. simpl.
    by rewrite <- app_assoc.
Qed.

Lemma filter_some_match (id : NodeId) (l : list NodeInfo) :
  id ∈ node_id <$> l →
  List.filter (λ n, bool_decide (node_id n = id)) l ≠ [].
Proof.
  intros Hin Hnil. apply list_elem_of_fmap in Hin as (x & -> & Hx).
  apply list_elem_of_In in Hx.
  assert (List.In x (List.filter (λ n, bool_decide (node_id n = node_id x)) l)) as Hf
    by (apply List.filter_In; split; [done|by apply bool_decide_eq_true_2]).
  by rewrite Hnil in Hf.
Qed.

(** The one-iterator erase after [remove_if], when at least one element
    matches: the elements that do not match are in front, in order, and
    of the slots [remove_if] left over behind them the first is erased. *)
Lemma erase_remove_if_some_match {A} (moved_from : A → A) (f : A → bool)
    (l : list A) :
  List.filter f l ≠ [] →
  let kept := List.filter (λ x, negb (f x)) l in
  let left_over :=
    (λ x, if f x then x else moved_from x) <$> drop (length kept) l in
  vector.erase (vector.remove_if moved_from f l).1 (vector.remove_if moved_from f l).2
  = Some (kept ++ drop 1 left_over)
  ∧ length left_over = length (List.filter f l).
Proof.
  intros Hsome kept left_over.
  rewrite vector_spec.remove_if_closed. unfold vector.erase. simpl.
  fold kept. fold left_over.
  pose proof (vector_spec.filter_partition_length f l) as Hlen. fold kept in Hlen.
  assert (0 < length (List.filter f l)) as Hpos
    by (destruct (List.filter f l); [done|simpl; lia]).
  assert (length left_over = length (List.filter f l)) as Htail
    by (subst left_over; rewrite length_fmap, length_drop; lia).
  split; [|done].
  destruct left_over as [|x tail]; simpl in Htail; [lia|].
  rewrite !length_app. simpl.
  rewrite bool_decide_eq_true_2 by lia.
  by rewrite delete_middle.
Qed.

Section subscribers.

Context `{MovedFrom}.

Lemma SendSubscribeRpc_subscribe (node_info : NodeInfo) (s : State) :
  let rt := routing_table_ s in
  SendSubscribeRpc true node_info s
  = Returned tt
      (sent_more (subscribe_rpc (RoutingTable.kNodeId rt) true
                    <$> RoutingTable.GetNodesNeedingGroupUpdates rt) s).
Proof.
  intros rt. unfold SendSubscribeRpc, bind, get_table, ret. simpl.
  apply (for_each_send (subscribe_rpc (RoutingTable.kNodeId rt) true)).
Qed.

Lemma Unsubscribe_empty (id : NodeId) (s : State) :
  update_subscribers_ s = [] → Unsubscribe id s = Returned tt s.
Proof.
  intros Hnil. unfold Unsubscribe, bind, get_subscribers. rewrite Hnil.
  by rewrite bool_decide_eq_false_2 by (intros Hne; by apply Hne).
Qed.

(** X7.  [Unsubscribe] on an empty list does nothing.  When some
    subscriber carries the id, the list gets one slot shorter, whatever
    the number of entries that carry it.  The entries that do not carry
    the id are in front, in order; behind them stay the slots
    [std::remove_if] left over, but the first: each holds the entry it
    had when that one carries the id, and a moved-from entry otherwise.
    With one entry for the id nothing is left over and the removal is
    clean; with several, entries stay behind, so the id may still be
    subscribed.  Neither the routing table nor the network is
    touched. *)
Theorem Unsubscribe_erases_one_slot (id : NodeId) (s : State) :
  let subscribers := update_subscribers_ s in
  let carries := λ n : NodeInfo, bool_decide (node_id n = id) in
  let kept := others id subscribers in
  let left_over :=
    (λ n, if carries n then n else moved_from n)
      <$> drop (length kept) subscribers in
  (subscribers = [] → Unsubscribe id s = Returned tt s)
  ∧ (id ∈ node_id <$> subscribers →
     Unsubscribe id s = Returned tt (with_subscribers (kept ++ drop 1 left_over) s)
     ∧ length (kept ++ drop 1 left_over) + 1 = length subscribers
     ∧ length (drop 1 left_over) + 1 = length (List.filter carries subscribers)
     ∧ (NoDup (node_id <$> subscribers) → drop 1 left_over = [])).
Proof.
  intros subscribers carries kept left_over.
  split; [apply Unsubscribe_empty|].
  intros Hin.
  destruct (erase_remove_if_some_match moved_from carries subscribers
              (filter_some_match id _ Hin)) as [Herase Hleft].
  pose proof (vector_spec.filter_partition_length carries subscribers) as Hlen.
  change (List.filter (λ x, negb (carries x)) subscribers)
    with kept in Herase, Hleft, Hlen.
  change ((λ x, if carries x then x else moved_from x)
            <$> drop (length kept) subscribers) with left_over in Herase, Hleft.
  assert (0 < length (List.filter carries subscribers)) as Hpos.
  { pose proof (filter_some_match id _ Hin) as Hsome. fold carries in Hsome.
    destruct (List.filter carries subscribers); [done|simpl; lia]. }
  split_and!.
  - unfold Unsubscribe, bind, get_subscribers, erase_remove_if.
    rewrite bool_decide_eq_true_2
      by (intros Heq; unfold subscribers in Hin; rewrite Heq in Hin;
          by apply elem_of_nil in Hin).
    unfold bind, get_subscribers. fold subscribers.
    destruct (vector.remove_if _ _ subscribers) as [v new_end].
    simpl in Herase. by rewrite Herase.
  - rewrite length_app, length_drop. lia.
  - rewrite length_drop. lia.
  - intros Hnodup.
    pose proof (one_entry_per_id id _ Hnodup Hin) as Hone. fold carries in Hone.
    apply nil_length_inv. rewrite length_drop. lia.
Qed.

End subscribers.

Section handlers.

Context `{MovedFrom} (P : Parameters.t) (NDEBUG : bool).
Context (ParseClosestNodesUpdate : string → option ClosestNodesUpdate_pb).
Context (ParseClosestNodesUpdateSubscrirbe :
           string → option ClosestNodesUpdateSubscrirbe_pb).

Abbreviation C := (Parameters.closest_nodes_size P).

Lemma SendSubscribeRpc_after_Unsubscribe (node_info : NodeInfo) (s : State) :
  SendSubscribeRpc false node_info s
  = match Unsubscribe (node_id node_info) s with
    | Returned _ s' =>
        Returned tt
          (sent_more [subscribe_rpc (RoutingTable.kNodeId (routing_table_ s'))
                                    false node_info] s')
    | AssertionFailed => AssertionFailed
    | Undefined => Undefined
    end.
Proof.
  unfold SendSubscribeRpc, Unsubscribe, bind, get_subscribers, get_table, ret.
  destruct (bool_decide (update_subscribers_ s ≠ [])).
  - by destruct (erase_remove_if _ s).
  - reflexivity.
Qed.

(** X8.  [SendSubscribeRpc(false, node)] tells [node] to unsubscribe
    and drops it from the subscribers.  With no subscribers only the
    request is sent.  With [node] among the duplicate-free subscribers it
    is removed and the request is sent.  With subscribers but [node] not
    among them, the erase runs on [end()]: undefined behaviour, before
    anything is sent. *)
Theorem SendSubscribeRpc_unsubscribe (node_info : NodeInfo) (s : State) :
  let self := RoutingTable.kNodeId (routing_table_ s) in
  let request := subscribe_rpc self false node_info in
  (update_subscribers_ s = [] →
   SendSubscribeRpc false node_info s = Returned tt (sent_more [request] s))
  ∧ (NoDup (node_id <$> update_subscribers_ s) →
     node_id node_info ∈ node_id <$> update_subscribers_ s →
     SendSubscribeRpc false node_info s
     = Returned tt
         (sent_more [request]
            (with_subscribers (others (node_id node_info) (update_subscribers_ s)) s)))
  ∧ (update_subscribers_ s ≠ [] →
     node_id node_info ∉ node_id <$> update_subscribers_ s →
     SendSubscribeRpc false node_info s = Undefined).
Proof.
  intros self request. subst self request.
  rewrite SendSubscribeRpc_after_Unsubscribe. split_and!.
  - intros Hnil.
    by rewrite (Unsubscribe_empty (node_id node_info) s Hnil).
  - intros Hnd Hin. by rewrite (Unsubscribe_present (node_id node_info) s Hnd Hin).
  - intros Hne Hnin. by rewrite (Unsubscribe_no_match (node_id node_info) s Hne Hnin).
Qed.

(** X9.  [SendClosestNodesUpdateRpcs] does nothing when handed fewer
    than [closest_nodes_size] nodes.  Handed exactly that many, it sends
    one update carrying them to every subscriber, in the order of the
    list, and changes nothing else.  Handed more, a release build does
    the same and a debug build stops at the assertion. *)
Theorem SendClosestNodesUpdateRpcs_broadcast (closest_nodes : list NodeInfo)
    (s : State) :
  let self := RoutingTable.kNodeId (routing_table_ s) in
  let broadcast :=
    sent_more (update_rpc self closest_nodes <$> update_subscribers_ s) s in
  (length closest_nodes < C →
   SendClosestNodesUpdateRpcs P NDEBUG closest_nodes s = Returned tt s)
  ∧ (length closest_nodes = C →
     SendClosestNodesUpdateRpcs P NDEBUG closest_nodes s = Returned tt broadcast)
  ∧ (C < length closest_nodes →
     SendClosestNodesUpdateRpcs P NDEBUG closest_nodes s
     = if NDEBUG then Returned tt broadcast else AssertionFailed).
Proof.
  intros self broadcast. subst self broadcast.
  unfold SendClosestNodesUpdateRpcs. split_and!.
  - intros Hlen. by rewrite bool_decide_eq_true_2 by lia.
  - intros Hlen. rewrite bool_decide_eq_false_2 by lia.
    unfold bind, assert. rewrite (bool_decide_eq_true_2 (_ ≤ _)) by lia.
    rewrite orb_true_r. unfold get_subscribers, get_table.
    apply (for_each_send
             (update_rpc (RoutingTable.kNodeId (routing_table_ s)) closest_nodes)).
  - intros Hlen. rewrite bool_decide_eq_false_2 by lia.
    unfold bind, assert. rewrite (bool_decide_eq_false_2 (_ ≤ _)) by lia.
    rewrite orb_false_r. destruct NDEBUG; [|done].
    unfold get_subscribers, get_table.
    apply (for_each_send
             (update_rpc (RoutingTable.kNodeId (routing_table_ s)) closest_nodes)).
Qed.

(** The state a call of [Subscribe] leaves, in every case. *)
Lemma Subscribe_outcome (id : NodeId) (s : State) :
  let rt := routing_table_ s in
  Subscribe P NDEBUG id s
  = Returned tt
      (if bool_decide (RoutingTable.size rt < C) then s
       else match RoutingTable.GetNodeInfo rt id with
            | None => s
            | Some ni =>
                if bool_decide (id ≠ NodeIds.zero) then subscribed P ni s
                else with_subscribers
                       (update_subscribers_ (subscribed P ni s)) s
            end).
Proof.
  intros rt. subst rt.
  destruct (decide (RoutingTable.size (routing_table_ s) < C)) as [Hfew|Henough].
  - rewrite bool_decide_eq_true_2 by done. by apply Subscribe_too_few_peers.
  - rewrite bool_decide_eq_false_2 by done.
    destruct (RoutingTable.GetNodeInfo (routing_table_ s) id) as [ni|] eqn:Hfound.
    + case_bool_decide as Hzero.
      * apply Subscribe_accepts; [lia|done|done].
      * destruct (GetNodeInfo_Some _ _ _ Hfound) as [Hid _].
        unfold Subscribe, bind, get_table. cbv zeta.
        rewrite length_GetClosestNodeInfo.
        rewrite bool_decide_eq_false_2 by lia.
        rewrite Hfound. change (default NodeInfo_default (Some ni)) with ni.
        rewrite bool_decide_eq_true_2 by eauto.
        rewrite Hid.
        rewrite (bool_decide_eq_false_2 (id ≠ NodeIds.zero))
          by (intros Hne; by apply Hne).
        unfold get_subscribers, subscribed, with_subscribers. simpl. rewrite Hid.
        destruct (vector.find_if_is_end _ _) eqn:Hend.
        -- apply find_if_is_end_spec in Hend.
           by rewrite bool_decide_eq_false_2 by done.
        -- assert (id ∈ node_id <$> update_subscribers_ s) as Hin.
           { destruct (decide (id ∈ node_id <$> update_subscribers_ s))
               as [|Hnin]; [done|].
             apply find_if_is_end_spec in Hnin. congruence. }
           rewrite bool_decide_eq_true_2 by done. by destruct s.
    + unfold Subscribe, bind, get_table. cbv zeta.
      rewrite length_GetClosestNodeInfo.
      rewrite bool_decide_eq_false_2 by lia.
      rewrite Hfound. simpl. reflexivity.
Qed.

(** X10.  [Subscribe] never faults, in either build, and never touches
    the routing table.  It keeps the subscribers duplicate-free, adds at
    most the routing-table entry of the given id, and makes at most one
    call.  A peer that is not in the routing table is not added and is
    sent nothing. *)
Theorem Subscribe_keeps_invariants (id : NodeId) (s : State) :
  ∃ s',
    Subscribe P NDEBUG id s = Returned tt s'
    ∧ routing_table_ s' = routing_table_ s
    ∧ (NoDup (node_id <$> update_subscribers_ s) →
       NoDup (node_id <$> update_subscribers_ s'))
    ∧ (∀ x, x ∈ update_subscribers_ s' →
         x ∈ update_subscribers_ s
         ∨ (RoutingTable.GetNodeInfo (routing_table_ s) id = Some x))
    ∧ (∃ sent, network_ s' = network_ s ++ sent ∧ length sent ≤ 1)
    ∧ (RoutingTable.GetNodeInfo (routing_table_ s) id = None → s' = s).
Proof.
  eexists. split; [apply Subscribe_outcome|]. cbv zeta.
  assert (∀ ni x,
            x ∈ update_subscribers_ (subscribed P ni s) →
            x ∈ update_subscribers_ s ∨ ni = x) as Hadded.
  { intros ni x. unfold subscribed. simpl. case_bool_decide; [by left|].
    intros [?| ->%list_elem_of_singleton]%elem_of_app; [by left|by right]. }
  assert (∃ sent : list Call, network_ s = network_ s ++ sent ∧ length sent ≤ 1)
    as Hnothing by (exists []; split; [by rewrite app_nil_r|simpl; lia]).
  case_bool_decide.
  { split_and!; try done. intros x Hx. by left. }
  destruct (RoutingTable.GetNodeInfo (routing_table_ s) id) as [ni|] eqn:Hfound.
  - case_bool_decide.
    + split_and!; try done.
      * apply subscribed_NoDup.
      * intros x Hx. destruct (Hadded ni x Hx) as [?| ->]; [by left|by right].
      * eexists. split; [reflexivity|]. simpl. lia.
    + split_and!; try done.
      * apply subscribed_NoDup.
      * intros x Hx. destruct (Hadded ni x Hx) as [?| ->]; [by left|by right].
  - split_and!; try done. intros x Hx. by left.
Qed.

Lemma others_absent (id : NodeId) (l : list NodeInfo) :
  id ∉ node_id <$> l → others id l = l.
Proof.
  intros Hnin. unfold others.
  apply (vector_spec.filter_none (λ n, bool_decide (node_id n = id))).
  apply Forall_forall. intros x Hx. apply bool_decide_eq_false_2.
  intros <-. apply Hnin. by apply list_elem_of_fmap_2.
Qed.

(** X11.  Subscribing a routing-table peer that was not a subscriber and
    unsubscribing it again gives back the subscribers as they were. *)
Theorem Subscribe_then_Unsubscribe (id : NodeId) (ni : NodeInfo) (s : State) :
  C ≤ RoutingTable.size (routing_table_ s) →
  RoutingTable.GetNodeInfo (routing_table_ s) id = Some ni →
  id ≠ NodeIds.zero →
  NoDup (node_id <$> update_subscribers_ s) →
  id ∉ node_id <$> update_subscribers_ s →
  ∃ s1 s2,
    Subscribe P NDEBUG id s = Returned tt s1
    ∧ id ∈ node_id <$> update_subscribers_ s1
    ∧ Unsubscribe id s1 = Returned tt s2
    ∧ update_subscribers_ s2 = update_subscribers_ s
    ∧ routing_table_ s2 = routing_table_ s.
Proof.
  intros Hsize Hfound Hzero Hnd Hnin.
  destruct (GetNodeInfo_Some _ _ _ Hfound) as [Hid _].
  assert (update_subscribers_ (subscribed P ni s) = update_subscribers_ s ++ [ni])
    as Hsubs.
  { unfold subscribed. simpl. rewrite Hid. by rewrite bool_decide_eq_false_2. }
  assert (id ∈ node_id <$> update_subscribers_ (subscribed P ni s)) as Hin.
  { rewrite Hsubs, fmap_app. apply elem_of_app. right. simpl. rewrite Hid.
    by apply list_elem_of_singleton. }
  eexists _, _. split; [by apply Subscribe_accepts|].
  split; [done|].
  split; [apply Unsubscribe_present; [by apply subscribed_NoDup|done]|].
  split; [|done]. unfold with_subscribers. cbn [update_subscribers_].
  rewrite Hsubs. rewrite List.filter_app.
  fold (others id (update_subscribers_ s)).
  rewrite others_absent by done. simpl.
  rewrite bool_decide_eq_true_2 by done. simpl. by rewrite app_nil_r.
Qed.

(** X12.  A group-change request that is not addressed to this node is
    cleared, and one whose payload does not parse or names an invalid id
    is left as it is; in both cases the subscribers, the routing table
    and the network are untouched. *)
Theorem group_change_request_rejected (m : Message) (s : State) :
  let self := RoutingTable.kNodeId (routing_table_ s) in
  let update := ClosestNodesUpdate NDEBUG ParseClosestNodesUpdate m s in
  let subscribe :=
    ClosestNodesUpdateSubscribe P NDEBUG ParseClosestNodesUpdateSubscrirbe m s in
  (destination_id m ≠ self →
   update = Returned Clear s ∧ subscribe = Returned Clear s)
  ∧ (destination_id m = self →
     (match ParseClosestNodesUpdate (data0 m) with
      | None => True
      | Some u => CheckId (node u) = false
      end → update = Returned m s)
     ∧ (match ParseClosestNodesUpdateSubscrirbe (data0 m) with
        | None => True
        | Some u => CheckId (peer u) = false
        end → subscribe = Returned m s)).
Proof.
  intros self update subscribe. subst self update subscribe.
  unfold ClosestNodesUpdate, ClosestNodesUpdateSubscribe, bind, get_table.
  split.
  - intros Hdest. by rewrite !bool_decide_eq_true_2 by done.
  - intros Hdest. rewrite !bool_decide_eq_false_2 by (intros Hne; by apply Hne).
    split.
    + destruct (ParseClosestNodesUpdate (data0 m)) as [u|]; [|done].
      intros ->. simpl. by rewrite orb_true_r.
    + destruct (ParseClosestNodesUpdateSubscrirbe (data0 m)) as [u|]; [|done].
      intros ->. simpl. by rewrite orb_true_r.
Qed.

Lemma collect_closest_nodes_valid (infos : list BasicNodeInfo) :
  Forall (λ n, CheckId (node_id n) = true ∧ connection_id n = NodeIds.zero)
         (collect_closest_nodes infos).
Proof.
  unfold collect_closest_nodes. apply Forall_fmap, Forall_forall.
  intros x Hx. apply list_elem_of_In, List.filter_In in Hx as [_ Hx]. done.
Qed.

Lemma UpdateGroupChange_outcome (id : NodeId) (close_nodes : list NodeInfo)
    (s : State) :
  let rt := routing_table_ s in
  let rt' :=
    if RoutingTable.IsConnected rt id
    then RoutingTable.GroupUpdateFromConnectedPeer rt id close_nodes
    else rt in
  UpdateGroupChange id close_nodes s
  = Returned tt
      (sent_more (subscribe_rpc (RoutingTable.kNodeId rt) true
                    <$> RoutingTable.GetNodesNeedingGroupUpdates rt')
                 (with_table rt' s)).
Proof.
  intros rt rt'. subst rt rt'. unfold UpdateGroupChange, bind, get_table.
  destruct (RoutingTable.IsConnected (routing_table_ s) id).
  - unfold set_table. by rewrite SendSubscribeRpc_subscribe.
  - unfold ret. rewrite SendSubscribeRpc_subscribe. by destruct s.
Qed.

(** X13.  A ClosestNodesUpdate addressed to this node that names a valid
    peer and carries at least one valid close node is applied in either
    build.  If the peer is connected, the close nodes with a valid id
    replace its row of the group matrix; if not, the routing table stays
    as it is.  In both cases a subscribe request is then sent to every
    peer that needs this node's updates, the subscribers are untouched
    and the message is cleared. *)
Theorem ClosestNodesUpdate_applied (m : Message) (u : ClosestNodesUpdate_pb)
    (s : State) :
  destination_id m = RoutingTable.kNodeId (routing_table_ s) →
  ParseClosestNodesUpdate (data0 m) = Some u →
  CheckId (node u) = true →
  collect_closest_nodes (nodes_info u) ≠ [] →
  let rt := routing_table_ s in
  let close_nodes := collect_closest_nodes (nodes_info u) in
  let rt' :=
    if RoutingTable.IsConnected rt (node u)
    then RoutingTable.GroupUpdateFromConnectedPeer rt (node u) close_nodes
    else rt in
  ClosestNodesUpdate NDEBUG ParseClosestNodesUpdate m s
  = Returned Clear
      (sent_more (subscribe_rpc (RoutingTable.kNodeId rt) true
                    <$> RoutingTable.GetNodesNeedingGroupUpdates rt')
                 (with_table rt' s))
  ∧ Forall (λ n, CheckId (node_id n) = true) close_nodes
  ∧ (RoutingTable.IsConnected rt (node u) = true →
     RoutingTable.group_matrix rt' !! node u
     = Some (RoutingTable.sorted_by_distance (node u) close_nodes)).
Proof.
  intros Hdest Hparse Hcheck Hnonempty rt close_nodes rt'.
  assert (node u ≠ EmptyString) as Hne.
  { intros Heq. rewrite Heq in Hcheck. unfold CheckId in Hcheck.
    by apply bool_decide_eq_true in Hcheck. }
  split_and!.
  - unfold ClosestNodesUpdate. unfold bind at 1. unfold get_table.
    rewrite bool_decide_eq_false_2 by (intros Hx; by apply Hx).
    rewrite Hparse. rewrite bool_decide_eq_false_2 by done.
    rewrite Hcheck. simpl orb. cbv iota zeta.
    unfold bind, assert.
    rewrite (bool_decide_eq_true_2 (_ ≠ [])) by done. rewrite orb_true_r.
    change (false || negb true) with false. cbv iota beta.
    by rewrite UpdateGroupChange_outcome.
  - eapply Forall_impl; [apply collect_closest_nodes_valid|]. by intros ? [? _].
  - intros Hconnected. subst rt'. rewrite Hconnected. simpl.
    apply lookup_insert_eq.
Qed.

End handlers.

Import Examples More_examples.

(** With the subscribers [A; B; A], unsubscribing [A] leaves [B; A]:
    the list is one shorter and [A] is still subscribed. *)
Lemma Unsubscribe_erases_one_slot_witness :
  let s0 := handler_state [idA; idB] [] in
  let s := handler_state [idA; idB] [contact idA; contact idB; contact idA] in
  Unsubscribe idA s0 = Returned tt s0
  ∧ Unsubscribe idA s = Returned tt (with_subscribers [contact idB; contact idA] s)
  ∧ Unsubscribe idB s = Returned tt (with_subscribers [contact idA; contact idA] s).
Proof.
  split_and!.
  - pose proof (Unsubscribe_erases_one_slot idA (handler_state [idA; idB] []))
      as [Hempty _].
    apply Hempty. reflexivity.
  - pose proof (Unsubscribe_erases_one_slot idA
                  (handler_state [idA; idB] [contact idA; contact idB; contact idA]))
      as [_ Hfound].
    apply Hfound. by_compute.
  - pose proof (Unsubscribe_erases_one_slot idB
                  (handler_state [idA; idB] [contact idA; contact idB; contact idA]))
      as [_ Hfound].
    apply Hfound. by_compute.
Defined.

Lemma SendSubscribeRpc_unsubscribe_witness :
  let request := subscribe_rpc self_id false (contact idB) in
  let s0 := handler_state [idA; idB] [] in
  let s := handler_state [idA; idB] [contact idA; contact idB] in
  let s' := handler_state [idA; idB] [contact idA] in
  SendSubscribeRpc false (contact idB) s0 = Returned tt (sent_more [request] s0)
  ∧ SendSubscribeRpc false (contact idB) s
    = Returned tt
        (sent_more [request]
           (with_subscribers (others idB (update_subscribers_ s)) s))
  ∧ SendSubscribeRpc false (contact idB) s' = Undefined.
Proof.
  pose proof (SendSubscribeRpc_unsubscribe (contact idB) (handler_state [idA; idB] []))
    as (Hnone & _ & _).
  pose proof (SendSubscribeRpc_unsubscribe (contact idB)
                (handler_state [idA; idB] [contact idA; contact idB]))
    as (_ & Hamong & _).
  pose proof (SendSubscribeRpc_unsubscribe (contact idB)
                (handler_state [idA; idB] [contact idA]))
    as (_ & _ & Habsent).
  split_and!.
  - apply Hnone. reflexivity.
  - apply Hamong; by_compute.
  - apply Habsent; by_compute.
Defined.

Lemma SendClosestNodesUpdateRpcs_broadcast_witness :
  let s := handler_state [idA; idB] [contact idC] in
  let two := [contact idA; contact idB] in
  let three := [contact idA; contact idB; contact idD] in
  SendClosestNodesUpdateRpcs small_params false [contact idA] s = Returned tt s
  ∧ SendClosestNodesUpdateRpcs small_params false two s
    = Returned tt (sent_more (update_rpc self_id two <$> update_subscribers_ s) s)
  ∧ SendClosestNodesUpdateRpcs small_params false three s = AssertionFailed.
Proof.
  pose proof (SendClosestNodesUpdateRpcs_broadcast small_params false [contact idA]
                (handler_state [idA; idB] [contact idC])) as (Hfewer & _ & _).
  pose proof (SendClosestNodesUpdateRpcs_broadcast small_params false
                [contact idA; contact idB] (handler_state [idA; idB] [contact idC]))
    as (_ & Hexact & _).
  pose proof (SendClosestNodesUpdateRpcs_broadcast small_params false
                [contact idA; contact idB; contact idD]
                (handler_state [idA; idB] [contact idC])) as (_ & _ & Hmore).
  split_and!.
  - apply Hfewer. simpl. lia.
  - apply Hexact. reflexivity.
  - apply Hmore. simpl. lia.
Defined.

Lemma Subscribe_keeps_invariants_witness :
  let s := handler_state [idA; idB] [contact idA] in
  ∃ s', Subscribe small_params true idB s = Returned tt s'
        ∧ NoDup (node_id <$> update_subscribers_ s').
Proof.
  destruct (Subscribe_keeps_invariants small_params true idB
              (handler_state [idA; idB] [contact idA]))
    as (s' & Hs' & _ & Hnodup & _).
  exists s'. split; [exact Hs'|]. apply Hnodup. by_compute.
Defined.

Lemma Subscribe_then_Unsubscribe_witness :
  let s := handler_state [idA; idB] [contact idA] in
  ∃ s1 s2,
    Subscribe small_params true idB s = Returned tt s1
    ∧ idB ∈ node_id <$> update_subscribers_ s1
    ∧ Unsubscribe idB s1 = Returned tt s2
    ∧ update_subscribers_ s2 = update_subscribers_ s
    ∧ routing_table_ s2 = routing_table_ s.
Proof.
  apply (Subscribe_then_Unsubscribe small_params true idB (contact idB)
           (handler_state [idA; idB] [contact idA])).
  - vm_compute. lia.
  - vm_compute. reflexivity.
  - by_compute.
  - by_compute.
  - by_compute.
Defined.

Lemma group_change_request_rejected_witness :
  let s := handler_state [idA; idB] [] in
  let elsewhere := set_destination_id idD (update_message "update") in
  let garbled := update_message "garbled" in
  (ClosestNodesUpdate true parse_nothing elsewhere s = Returned Clear s
   ∧ ClosestNodesUpdateSubscribe small_params true parse_nothing elsewhere s
     = Returned Clear s)
  ∧ ClosestNodesUpdate true parse_nothing garbled s = Returned garbled s
  ∧ ClosestNodesUpdateSubscribe small_params true parse_nothing garbled s
    = Returned garbled s.
Proof.
  split.
  - pose proof (group_change_request_rejected small_params true parse_nothing
                  parse_nothing (set_destination_id idD (update_message "update"))
                  (handler_state [idA; idB] [])) as [Helsewhere _].
    apply Helsewhere. by_compute.
  - destruct (group_change_request_rejected small_params true parse_nothing
                parse_nothing (update_message "garbled")
                (handler_state [idA; idB] [])) as [_ Hhere].
    destruct (Hhere eq_refl) as [Hupdate Hsubscribe].
    split; [apply Hupdate; exact I|apply Hsubscribe; exact I].
Defined.

Lemma ClosestNodesUpdate_applied_witness :
  let m := update_message "update" in
  let u := update_from_B in
  let s := handler_state [idB; idC] [] in
  let rt := routing_table_ s in
  let close_nodes := collect_closest_nodes (nodes_info u) in
  let rt' := RoutingTable.GroupUpdateFromConnectedPeer rt idB close_nodes in
  ClosestNodesUpdate false (parse_update u) m s
  = Returned Clear
      (sent_more (subscribe_rpc self_id true
                    <$> RoutingTable.GetNodesNeedingGroupUpdates rt')
                 (with_table rt' s))
  ∧ RoutingTable.group_matrix rt' !! idB
    = Some (RoutingTable.sorted_by_distance idB close_nodes).
Proof.
  destruct (ClosestNodesUpdate_applied false (parse_update update_from_B)
              (update_message "update") update_from_B
              (handler_state [idB; idC] [])) as (Happlied & _ & Hrow).
  - reflexivity.
  - reflexivity.
  - vm_compute. reflexivity.
  - by_compute.
  - split; [exact Happlied|]. apply Hrow. vm_compute. reflexivity.
Defined.

End GroupChangeHandler_more.
(** ** message_handler.cc, continued *)

Module MessageHandler_more.

Import MessageHandler MessageHandler_states MessageHandler_edits MessageHandler_spec.

#[local] Hint Constructors edited : edits.

Section handlers.

Context `{ClosenessQueries} {services : RoutingServices} (P : Parameters.t).
Context (NDEBUG : bool).
Context (rt : RoutingTable.t) (nrt : NonRoutingTable.t).
Context (bootstrap_connection_id : NodeId) (message_received_functor_ : bool).

Abbreviation self := (RoutingTable.kNodeId rt).
Abbreviation HandleMessage' :=
  (HandleMessage P NDEBUG rt nrt bootstrap_connection_id message_received_functor_).
Abbreviation HandleRoutingMessage' :=
  (HandleRoutingMessage NDEBUG bootstrap_connection_id).
Abbreviation served_reply := (served_reply bootstrap_connection_id).

(** *** What the handlers write *)


Lemma calls_of_invalid (m : Message) :
  calls_of (run assert NDEBUG (0 <? hops_to_live m)%Z ;; ret tt) = [].
Proof. unfold assert. by destruct (NDEBUG || _). Qed.


(** *** Relay requests *)

Abbreviation stamped_or_served :=
  (λ m a, stamped self a ∨ served_reply m a).

(** The delivery at this node makes no send but the one that follows a
    routing service. *)
Lemma local_delivery_sends (m0 m : Message) :
  edited m0 m →
  Forall (λ a, is_send a = false ∨ served_reply m0 a)
         (calls_of (if IsRoutingMessage m then HandleRoutingMessage' m
                    else HandleNodeLevelMessageForThisNode
                           message_received_functor_ m)).
Proof.
  intros Hm. destruct (IsRoutingMessage m).
  - unfold HandleRoutingMessage.
    destruct (routing_handler m) as [handler|]; [|apply Forall_nil_2].
    apply Forall_calls_assert, Forall_calls_bind.
    + unfold serve.
      destruct (routing_services handler m); apply Forall_singleton; by left.
    + intros [message' routing_table] made Hserved. unfold serve in Hserved.
      destruct (routing_services handler m) eqn:Hservice; [|done].
      simplify_eq. simpl. apply Forall_forall. intros a Ha. right.
      by exists handler, m, message', routing_table.
  - unfold HandleNodeLevelMessageForThisNode.
    repeat case_match; repeat constructor.
Qed.

Lemma local_delivery_stamped (m0 m : Message) :
  edited m0 m →
  Forall (stamped_or_served m0)
         (calls_of (if IsRoutingMessage m then HandleRoutingMessage' m
                    else HandleNodeLevelMessageForThisNode
                           message_received_functor_ m)).
Proof.
  intros Hm. eapply Forall_impl; [by apply local_delivery_sends|].
  intros a [Ha|Ha]; [left; by destruct a|by right].
Qed.

Lemma replicate_to_stamped (m0 : Message) (close : list NodeId) (m : Message) :
  edited m0 m →
  edited m0 (replicate_to rt close m).1
  ∧ Forall (stamped_or_served m0) (replicate_to rt close m).2.
Proof.
  revert m. induction close as [|i close IH]; intros m Hm; simpl.
  - split; [done|apply Forall_nil_2].
  - destruct (IH (set_destination_id i m)) as [IHm IHsent]; [auto with edits|].
    destruct (replicate_to rt close (set_destination_id i m)) as [m' rest].
    simpl in *. split; [done|]. apply Forall_app_2; [|done].
    destruct (RoutingTable.GetNodeInfo rt i); repeat constructor.
Qed.

(** X15.  A relay request (a message without source id) that this node
    forwards with [SendToClosestNode] names this node as its source, so
    that the response comes back through this node.  The one send that
    need not is the send that follows a routing service when the request
    is handled at this node (lines 87-95): it carries the message as the
    service left it, and the handlers give the service the request
    without a source id. *)
Theorem HandleRelayRequest_stamps_source (m : Message) :
  Forall (λ a, stamped self a ∨ served_reply m a)
         (calls_of (HandleRelayRequest P NDEBUG rt nrt bootstrap_connection_id
                                       message_received_functor_ m)).
Proof.
  unfold HandleRelayRequest, HandleGroupMessageToSelfId, kNodeId.
  apply Forall_calls_assert.
  destruct (bool_decide (destination_id m = self) && IsRequest m) eqn:Hlocal.
  - destruct (_ && negb (direct m)).
    { do 4 apply Forall_calls_assert. apply Forall_singleton. by left. }
    apply andb_true_iff in Hlocal as [_ Hrequest].
    unfold HandleMessageForThisNode, RelayDirectMessageIfNeeded, IsResponse.
    unfold IsRequest in Hrequest. rewrite Hrequest. simpl negb.
    rewrite andb_false_r.
    apply Forall_calls_bind.
    + apply Forall_calls_assert. destruct (negb (has_relay_id m)); apply Forall_nil_2.
    + intros [relayed m'] made Hrelayed.
      assert (relayed = false ∧ m' = m) as [-> ->].
      { unfold assert in Hrelayed. destruct (NDEBUG || _); [|done].
        rewrite bind_ret in Hrelayed.
        destruct (negb (has_relay_id m)); unfold ret in Hrelayed; by simplify_eq. }
      apply local_delivery_stamped, edited_none.
  - destruct (request m && _) eqn:Hclosest.
    2: { apply Forall_singleton. by left. }
    apply andb_true_iff in Hclosest as [_ Hclosest].
    destruct (direct m).
    + unfold HandleDirectRelayRequestMessageAsClosestNode, kNodeId.
      apply Forall_calls_assert.
      rewrite Hclosest. destruct (_ || _); repeat constructor.
    + unfold HandleGroupRelayRequestMessageAsClosestNode, kNodeId.
      apply Forall_calls_assert.
      destruct (negb _ && negb _); [repeat constructor|].
      destruct (IsThisNodeGroupLeader _ _) as [is_leader leader].
      destruct (negb is_leader); [repeat constructor|].
      destruct (_ || _); [apply Forall_nil_2|].
      match goal with
      | |- context [replicate_to rt ?close ?m1] =>
          destruct (replicate_to_stamped m close m1) as [Hmessage Hsent];
            [auto with edits|];
          destruct (replicate_to rt close m1) as [message sent]
      end.
      simpl in Hmessage, Hsent.
      apply Forall_calls_after; [done|].
      apply local_delivery_stamped. auto with edits.
Qed.

(** *** Client mode *)


(** *** Routing messages for this node *)

(** X17.  Scenario S1.  A valid routing message addressed to this node
    of a vault, with a proper source and no relay id, reaches exactly the
    routing handler its type and request flag select, with [hops_to_live]
    decremented.  If the handler returns, what it left of a request that
    is still initialised is sent on: to the bootstrap connection when the
    routing table is left empty, with [SendToClosestNode] otherwise.  A
    debug build stops before the call when a group-change message is not
    a request (the assertions of lines 76 and 80). *)
Theorem routing_message_for_this_node (m : Message) (handler : RoutingHandler) :
  ValidateMessage m = true →
  RoutingTable.client_mode rt = false →
  IsRoutingMessage m = true →
  source_id m ≠ EmptyString →
  NodeIds.IsZero (source_id m) = false →
  destination_id m = self →
  has_relay_id m = false →
  IsGroupMessageRequestToSelfId rt m = false →
  routing_handler m = Some handler →
  let m' := set_hops_to_live (hops_to_live m - 1) m in
  HandleMessage' m
  = if NDEBUG || (negb (asserts_request handler) || request m) then
      match routing_services handler m' with
      | Leaves message' routing_table =>
          Done tt (Service handler m'
                   :: HandleRoutingMessage_reply bootstrap_connection_id
                        routing_table (request m) message')
      | NeverReturns => Aborted [Service handler m']
      end
    else Aborted [].
Proof.
  intros Hvalid Hclient Hrouting Hsource Hzero Hdest Hrelay Hgroup Hhandler m'.
  unfold HandleMessage. rewrite Hvalid. simpl negb. cbv iota zeta. fold m'.
  unfold dispatch, client_mode, IsCacheableRequest, IsCacheableResponse,
    IsNodeLevelMessage, kNodeId.
  change (IsRoutingMessage m') with (IsRoutingMessage m).
  change (IsGroupMessageRequestToSelfId rt m')
    with (IsGroupMessageRequestToSelfId rt m).
  change (source_id m') with (source_id m).
  change (destination_id m') with (destination_id m).
  rewrite Hclient, Hrouting, Hgroup, Hzero. simpl. rewrite ?after_nil, ?bind_ret.
  rewrite bool_decide_eq_false_2 by done.
  rewrite bool_decide_eq_true_2 by done.
  unfold HandleMessageForThisNode, RelayDirectMessageIfNeeded, kNodeId.
  change (destination_id m') with (destination_id m).
  rewrite bind_assert_true by (by apply bool_decide_eq_true_2).
  change (has_relay_id m') with (has_relay_id m). rewrite Hrelay. simpl negb.
  cbv iota. rewrite ?after_nil, ?bind_ret.
  change (IsRoutingMessage m') with (IsRoutingMessage m). rewrite Hrouting.
  unfold HandleRoutingMessage.
  change (routing_handler m') with (routing_handler m). rewrite Hhandler.
  change (request m') with (request m).
  destruct (NDEBUG || (negb (asserts_request handler) || request m)) eqn:Hpass.
  - rewrite bind_assert by done. unfold serve.
    by destruct (routing_services handler m').
  - apply orb_false_iff in Hpass as [-> Hpass]. by rewrite bind_assert_false.
Qed.

(** *** The cache manager *)

Lemma handed_on_no_cache (m0 : Message) (a : Action) :
  handed_on bootstrap_connection_id m0 a → is_cache a = false.
Proof.
  intros [[_ Ha]|(handler & handed & message' & routing_table & _ & _ & Ha)];
    [done|].
  unfold HandleRoutingMessage_reply in Ha.
  repeat case_match;
    [by apply elem_of_nil in Ha|apply list_elem_of_singleton in Ha
    |apply list_elem_of_singleton in Ha]; by subst a.
Qed.

(** X18.  The cache manager is called only by a vault with caching on,
    and only for a valid, cacheable application message.  A request is
    then handed to the cache lookup and to nothing else (the cache
    manager does the forwarding); a response is first offered to the
    cache and then handled as usual.  In every other case
    [HandleMessage] makes no call on the cache manager. *)
Theorem cache_only_when_enabled (m : Message) :
  let m' := set_hops_to_live (hops_to_live m - 1) m in
  let outcome := HandleMessage' m in
  if ValidateMessage m && IsNodeLevelMessage m && Parameters.caching P
     && negb (RoutingTable.client_mode rt) && IsCacheable m
  then
    if IsRequest m then outcome = Done tt [HandleGetFromCache m']
    else ∃ rest, calls_of outcome = AddToCache m' :: rest ∧ no_cache rest
  else no_cache (calls_of outcome).
Proof.
  intros m' outcome. subst outcome. unfold HandleMessage.
  destruct (ValidateMessage m); simpl negb; cbv iota;
    [|rewrite calls_of_invalid; apply Forall_nil_2].
  cbv zeta. fold m'.
  pose proof (guards_handed_on P NDEBUG rt nrt bootstrap_connection_id
                message_received_functor_ m' m' (edited_none m')) as Hrest.
  apply (Forall_impl _ (λ a, is_cache a = false)) in Hrest;
    [|intros a; apply handed_on_no_cache].
  unfold dispatch, IsCacheableRequest, IsCacheableResponse, HandleCacheLookup,
    StoreCacheCopy, client_mode in *.
  change (IsNodeLevelMessage m') with (IsNodeLevelMessage m).
  change (IsCacheable m') with (IsCacheable m).
  change (IsRequest m') with (IsRequest m).
  destruct (IsNodeLevelMessage m), (Parameters.caching P),
    (RoutingTable.client_mode rt), (IsCacheable m), (IsRequest m);
    simpl; rewrite ?after_nil, ?bind_ret, ?bind_assert_true by done; try done.
  rewrite bind_call, calls_of_after. by eexists.
Qed.

End handlers.

Import Examples More_examples.



Lemma routing_message_for_this_node_witness :
  let rt := table [idB] in
  let m' := set_hops_to_live (hops_to_live ping_request - 1) ping_request in
  HandleMessage (H := always_leader) (services := untouched rt)
                params false rt no_clients idF true ping_request
  = Done tt [Service service_Ping m'; SendToClosestNode m'].
Proof.
  apply (routing_message_for_this_node (H := always_leader)
           (services := untouched (table [idB])) params false (table [idB])
           no_clients idF true ping_request service_Ping).
  - vm_compute. reflexivity.
  - reflexivity.
  - reflexivity.
  - by_compute.
  - vm_compute. reflexivity.
  - reflexivity.
  - reflexivity.
  - vm_compute. reflexivity.
  - reflexivity.
Defined.

End MessageHandler_more.

(** ** Message handler and network utilities together *)

Module Routing_more.

Import RoutingTable_spec NetworkUtils_spec NetworkUtils_more.

Section routing.

Context `{ClosenessQueries} {services : MessageHandler.RoutingServices}.
Context (P : Parameters.t) (NDEBUG : bool).
Context (rt : RoutingTable.t) (nrt : NonRoutingTable.t).
Context (bootstrap_connection_id : NodeId) (message_received_functor_ : bool).
Context (connection_lost_functor_ : NodeId → RoutingTable.t → RoutingTable.t).

Abbreviation HandleMessage' :=
  (MessageHandler.HandleMessage P NDEBUG rt nrt bootstrap_connection_id
                                message_received_functor_).

Abbreviation self := (RoutingTable.kNodeId rt).
Abbreviation max_history := (Parameters.max_route_history P).
Abbreviation group_size := (Parameters.node_group_size P).

(** X19.  A response that arrives at this node on behalf of a relayed
    peer (it bears a relay id other than its destination) is passed on
    with its destination id cleared, and the network utilities then send
    it once, straight to the relay id, with the relay id as destination;
    neither table is consulted.  (A debug build stops at the assertion of
    line 503 when the handler is given a message that is not addressed to
    this node.) *)
Theorem relay_response_reaches_relay (m : Message) :
  has_relay_id m = true →
  IsResponse m = true →
  destination_id m ≠ relay_id m →
  MessageHandler.HandleMessageForThisNode NDEBUG rt bootstrap_connection_id
                                          message_received_functor_ m
  = (if NDEBUG || bool_decide (destination_id m = self)
     then MessageHandler.Done tt
            [MessageHandler.SendToClosestNode (clear_destination_id m)]
     else MessageHandler.Aborted [])
  ∧ NetworkUtils.SendToClosestNode P nrt false connection_lost_functor_ rt
      (clear_destination_id m)
    = [NetworkUtils.rudp_Send (relay_id m) (set_destination_id (relay_id m) m)].
Proof.
  intros Hrelay Hresponse Hdest. split.
  - unfold MessageHandler.HandleMessageForThisNode,
      MessageHandler.RelayDirectMessageIfNeeded, MessageHandler.assert,
      MessageHandler.kNodeId.
    rewrite Hrelay, Hresponse.
    rewrite (bool_decide_eq_true_2 (destination_id m ≠ relay_id m)) by done.
    by destruct (NDEBUG || _).
  - unfold NetworkUtils.SendToClosestNode.
    change (has_destination_id (clear_destination_id m)) with false.
    change (has_relay_id (clear_destination_id m)) with (has_relay_id m).
    change (IsResponse (clear_destination_id m)) with (IsResponse m).
    rewrite Hrelay, Hresponse. reflexivity.
Qed.

(** X20.  Scenario S2.  A valid message for another node, with a proper
    source and an empty route history, arrives at a vault that is neither
    in range of nor closest to the destination and has no client with
    that id.  [HandleMessage] passes it to [SendToClosestNode] once, with
    [hops_to_live] decremented; the network utilities send it once, to
    the connection of the routing-table peer closest to the destination,
    with this node as its only route-history entry and the payload as it
    came. *)
Theorem simple_forward (m : Message) :
  ValidateMessage m = true →
  RoutingTable.client_mode rt = false →
  IsCacheable m = false →
  source_id m ≠ EmptyString →
  NodeIds.IsZero (source_id m) = false →
  destination_id m ≠ self →
  MessageHandler.IsRelayResponseForThisNode rt m = false →
  NonRoutingTable.GetNodesInfo nrt (destination_id m) = [] →
  IsThisNodeInRange rt (destination_id m) group_size = false →
  IsThisNodeClosestTo rt (destination_id m) (negb (direct m)) = false →
  route_history m = [] →
  0 < max_history →
  let n := RoutingTable.GetClosestNode rt (destination_id m) []
                                       (negb (IsDirect m)) true in
  node_id n ≠ NodeIds.zero →
  let m' := set_hops_to_live (hops_to_live m - 1) m in
  let sent := NetworkUtils.AdjustRouteHistory P rt m' in
  HandleMessage' m = MessageHandler.Done tt [MessageHandler.SendToClosestNode m']
  ∧ NetworkUtils.SendToClosestNode P nrt false connection_lost_functor_ rt m'
    = [NetworkUtils.rudp_Send (connection_id n) sent]
  ∧ route_history sent = [self]
  ∧ hops_to_live sent = (hops_to_live m - 1)%Z
  ∧ data_ sent = data_ m.
Proof.
  intros Hvalid Hclient Hcache Hsource Hzero Hdest Hrelay Hclients Hrange
    Hclosest Hhistory Hpos n Hn m' sent.
  assert (has_destination_id m = true) as Hhas.
  { unfold ValidateMessage, IsInitialized in Hvalid.
    by repeat (apply andb_true_iff in Hvalid as [Hvalid ?]). }
  assert (sent = map_fields keep keep keep keep keep
                   (put [self]) m') as Hsent.
  { subst sent. rewrite AdjustRouteHistory_fields.
    change (route_history m') with (route_history m). rewrite Hhistory.
    unfold adjusted_history.
    rewrite bool_decide_eq_false_2 by apply not_elem_of_nil.
    by rewrite bool_decide_eq_false_2 by (simpl; lia). }
  split_and!.
  - unfold MessageHandler.HandleMessage. rewrite Hvalid. simpl negb.
    cbv iota zeta. fold m'.
    unfold MessageHandler.dispatch, MessageHandler.client_mode,
      MessageHandler.IsCacheableRequest, MessageHandler.IsCacheableResponse,
      MessageHandler.kNodeId, MessageHandler.client_mode.
    change (IsCacheable m') with (IsCacheable m).
    change (MessageHandler.IsGroupMessageRequestToSelfId rt m')
      with (MessageHandler.IsGroupMessageRequestToSelfId rt m).
    change (MessageHandler.IsRelayResponseForThisNode rt m')
      with (MessageHandler.IsRelayResponseForThisNode rt m).
    change (source_id m') with (source_id m).
    change (destination_id m') with (destination_id m).
    change (direct m') with (direct m).
    change (visited m') with (visited m).
    rewrite Hclient, Hcache, Hzero, Hrelay, Hrange, Hclosest.
    rewrite !andb_false_r. simpl.
    rewrite ?MessageHandler_spec.after_nil, ?MessageHandler_spec.bind_ret.
    assert (MessageHandler.IsGroupMessageRequestToSelfId rt m = false) as ->.
    { unfold MessageHandler.IsGroupMessageRequestToSelfId, MessageHandler.kNodeId.
      rewrite (bool_decide_eq_false_2 (destination_id m = self)) by done.
      by rewrite andb_false_r. }
    rewrite bool_decide_eq_false_2 by done.
    rewrite bool_decide_eq_false_2 by done.
    unfold NonRoutingTable.IsConnected. rewrite Hclients.
    rewrite bool_decide_eq_false_2 by (intros Hne; by apply Hne). simpl.
    unfold MessageHandler.HandleMessageAsFarNode.
    change (destination_id m') with (destination_id m).
    change (direct m') with (direct m).
    rewrite Hclosest. by rewrite andb_false_r.
  - destruct (GetClosestNode_found rt (destination_id m) [] (negb (IsDirect m)) Hn)
      as (Hin & _ & _).
    pose proof (RecursiveSendOn_attempt P connection_lost_functor_ rt m'
                  NodeInfo_default 0 ltac:(lia)) as Hr.
    cbv zeta in Hr.
    assert (NetworkUtils.excluded_route_history rt m' = []) as Hex.
    { unfold NetworkUtils.excluded_route_history.
      change (route_history m') with (route_history m). by rewrite Hhistory. }
    rewrite Hex in Hr.
    change (destination_id m') with (destination_id m) in Hr.
    change (IsDirect m') with (IsDirect m) in Hr.
    unfold NetworkUtils.SendToClosestNode.
    change (has_destination_id m') with (has_destination_id m).
    change (destination_id m') with (destination_id m).
    rewrite Hhas, Hclients, (Hr Hn).
    rewrite bool_decide_eq_false_2 by (intros Hne; by apply Hne).
    rewrite bool_decide_eq_true_2; [reflexivity|].
    unfold RoutingTable.size.
    destruct (RoutingTable.nodes rt); [by apply elem_of_nil in Hin|simpl; lia].
  - by rewrite Hsent.
  - by rewrite Hsent.
  - by rewrite Hsent.
Qed.

(** X21.  A valid direct message for a client connected to this vault,
    not cacheable, with a source id that is neither empty nor zero, and
    not a relay response for this node.  A response is passed on; a
    request is passed on only when it comes from a client and names the
    same id as source and destination, and is dropped otherwise.  What is
    passed on has [hops_to_live] decremented, and the network utilities
    send one copy of it for every non-routing-table entry of the
    destination. *)
Theorem message_for_connected_client (m : Message) :
  ValidateMessage m = true →
  RoutingTable.client_mode rt = false →
  IsCacheable m = false →
  source_id m ≠ EmptyString →
  NodeIds.IsZero (source_id m) = false →
  destination_id m ≠ self →
  MessageHandler.IsRelayResponseForThisNode rt m = false →
  direct m = true →
  let entries := NonRoutingTable.GetNodesInfo nrt (destination_id m) in
  entries ≠ [] →
  let m' := set_hops_to_live (hops_to_live m - 1) m in
  HandleMessage' m
  = MessageHandler.Done tt
      (if IsRequest m
          && (negb (client_node m)
              || bool_decide (source_id m ≠ destination_id m))
       then []
       else [MessageHandler.SendToClosestNode m'])
  ∧ NetworkUtils.SendToClosestNode P nrt false connection_lost_functor_ rt m'
    = replicate (length entries) (NetworkUtils.rudp_Send (destination_id m) m').
Proof.
  intros Hvalid Hclient Hcache Hsource Hzero Hdest Hrelay Hdirect entries
    Hentries m'.
  assert (has_destination_id m = true) as Hhas.
  { unfold ValidateMessage, IsInitialized in Hvalid.
    by repeat (apply andb_true_iff in Hvalid as [Hvalid ?]). }
  split.
  - unfold MessageHandler.HandleMessage. rewrite Hvalid. simpl negb.
    cbv iota zeta. fold m'.
    unfold MessageHandler.dispatch, MessageHandler.client_mode,
      MessageHandler.IsCacheableRequest, MessageHandler.IsCacheableResponse,
      MessageHandler.kNodeId, MessageHandler.client_mode.
    change (IsCacheable m') with (IsCacheable m).
    change (MessageHandler.IsGroupMessageRequestToSelfId rt m')
      with (MessageHandler.IsGroupMessageRequestToSelfId rt m).
    change (MessageHandler.IsRelayResponseForThisNode rt m')
      with (MessageHandler.IsRelayResponseForThisNode rt m).
    change (source_id m') with (source_id m).
    change (destination_id m') with (destination_id m).
    change (IsDirect m') with (direct m).
    rewrite Hclient, Hcache, Hzero, Hrelay, Hdirect.
    rewrite !andb_false_r. simpl.
    rewrite ?MessageHandler_spec.after_nil, ?MessageHandler_spec.bind_ret.
    assert (MessageHandler.IsGroupMessageRequestToSelfId rt m = false) as ->.
    { unfold MessageHandler.IsGroupMessageRequestToSelfId, MessageHandler.kNodeId.
      rewrite (bool_decide_eq_false_2 (destination_id m = self)) by done.
      by rewrite andb_false_r. }
    rewrite bool_decide_eq_false_2 by done.
    rewrite bool_decide_eq_false_2 by done.
    unfold NonRoutingTable.IsConnected.
    rewrite bool_decide_eq_true_2 by done. simpl.
    unfold MessageHandler.HandleMessageForNonRoutingNodes.
    change (destination_id m') with (destination_id m).
    change (direct m') with (direct m).
    rewrite MessageHandler_spec.bind_assert_true
      by (rewrite Hdirect, andb_true_r; by apply bool_decide_eq_true_2).
    change (IsRequest m') with (IsRequest m).
    change (client_node m') with (client_node m).
    change (source_id m') with (source_id m).
    by destruct (IsRequest m && _).
  - exact (SendToClosestNode_clients P nrt connection_lost_functor_ rt m'
             Hhas Hdirect Hentries).
Qed.

End routing.

Section group_change.

Context `{MovedFrom} (P : Parameters.t) (NDEBUG : bool).
Context (rt : RoutingTable.t) (bootstrap_connection_id : NodeId).
Context (ParseClosestNodesUpdate :
           string → option GroupChangeHandler.ClosestNodesUpdate_pb).
Context (ParseClosestNodesUpdateSubscrirbe :
           string → option GroupChangeHandler.ClosestNodesUpdateSubscrirbe_pb).
Context (others : MessageHandler.RoutingServices).

Abbreviation self := (RoutingTable.kNodeId rt).

(** X22.  A ClosestNodesUpdate request addressed to this node whose
    payload does not parse is left in place by the group-change handler,
    so [HandleRoutingMessage], finding the request still initialised,
    sends it on with [SendToClosestNode] (to the bootstrap connection
    when the routing table is empty) as if it were a reply.  A request
    that was handled is cleared and nothing is sent. *)
Theorem unparsed_update_is_sent_on (m : Message) (s : GroupChangeHandler.State) :
  GroupChangeHandler.routing_table_ s = rt →
  type m = kClosestNodesUpdate →
  request m = true →
  IsInitialized m = true →
  destination_id m = self →
  ParseClosestNodesUpdate (data0 m) = None →
  let group_change_handler_ :=
    MessageHandler.group_change_services
      P NDEBUG ParseClosestNodesUpdate ParseClosestNodesUpdateSubscrirbe s others in
  let sent_on :=
    if bool_decide (RoutingTable.size rt = 0)
    then [MessageHandler.SendToDirect m bootstrap_connection_id
                                      bootstrap_connection_id]
    else [MessageHandler.SendToClosestNode m] in
  GroupChangeHandler.ClosestNodesUpdate NDEBUG ParseClosestNodesUpdate m s
  = GroupChangeHandler.Returned m s
  ∧ MessageHandler.HandleRoutingMessage (services := group_change_handler_)
      NDEBUG bootstrap_connection_id m
    = MessageHandler.Done tt
        (MessageHandler.Service
           MessageHandler.group_change_handler_ClosestNodesUpdate m :: sent_on)
  ∧ MessageHandler.HandleRoutingMessage_reply bootstrap_connection_id rt
      (request m) m
    = sent_on
  ∧ MessageHandler.HandleRoutingMessage_reply bootstrap_connection_id rt
      (request m) Clear
    = [].
Proof.
  intros Htable Htype Hrequest Hinit Hdest Hparse group_change_handler_ sent_on.
  assert (GroupChangeHandler.ClosestNodesUpdate NDEBUG ParseClosestNodesUpdate m s
          = GroupChangeHandler.Returned m s) as Hleft.
  { unfold GroupChangeHandler.ClosestNodesUpdate, GroupChangeHandler.bind,
      GroupChangeHandler.get_table.
    rewrite Htable. rewrite bool_decide_eq_false_2 by (intros Hne; by apply Hne).
    by rewrite Hparse. }
  assert (MessageHandler.HandleRoutingMessage_reply bootstrap_connection_id rt
            (request m) m = sent_on) as Hreply.
  { unfold MessageHandler.HandleRoutingMessage_reply.
    by rewrite Hrequest, Hinit. }
  split_and!.
  - exact Hleft.
  - rewrite (MessageHandler_spec.HandleRoutingMessage_served
               (services := group_change_handler_) NDEBUG bootstrap_connection_id m
               MessageHandler.group_change_handler_ClosestNodesUpdate).
    + unfold MessageHandler.routing_services, group_change_handler_,
        MessageHandler.group_change_services.
      rewrite Hleft, Htable. by rewrite Hreply.
    + unfold MessageHandler.routing_handler. by rewrite Htype.
    + rewrite Hrequest. by rewrite !orb_true_r.
  - exact Hreply.
  - unfold MessageHandler.HandleRoutingMessage_reply. rewrite Hrequest.
    reflexivity.
Qed.

End group_change.

Import Examples More_examples.

Lemma relay_response_reaches_relay_witness :
  let rt := table [idB] in
  let m := set_destination_id self_id relay_response in
  MessageHandler.HandleMessageForThisNode (services := untouched rt) false rt idF true m
  = MessageHandler.Done tt [MessageHandler.SendToClosestNode (clear_destination_id m)]
  ∧ NetworkUtils.SendToClosestNode params no_clients false drop_connection
      rt (clear_destination_id m)
    = [NetworkUtils.rudp_Send (relay_id m) (set_destination_id (relay_id m) m)].
Proof.
  apply (relay_response_reaches_relay (services := untouched (table [idB])) params
           false (table [idB]) no_clients idF true drop_connection
           (set_destination_id self_id relay_response)).
  - reflexivity.
  - reflexivity.
  - by_compute.
Defined.

Lemma simple_forward_witness :
  let rt := table [idB; idC] in
  let m := request_to idD in
  let n := RoutingTable.GetClosestNode rt (destination_id m) []
                                       (negb (IsDirect m)) true in
  let m' := set_hops_to_live (hops_to_live m - 1) m in
  let sent := NetworkUtils.AdjustRouteHistory params rt m' in
  MessageHandler.HandleMessage (H := never_close) (services := untouched rt)
                               params false rt no_clients idF true m
  = MessageHandler.Done tt [MessageHandler.SendToClosestNode m']
  ∧ NetworkUtils.SendToClosestNode params no_clients false drop_connection rt m'
    = [NetworkUtils.rudp_Send (connection_id n) sent]
  ∧ route_history sent = [RoutingTable.kNodeId rt]
  ∧ hops_to_live sent = (hops_to_live m - 1)%Z
  ∧ data_ sent = data_ m.
Proof.
  apply (simple_forward (H := never_close) (services := untouched (table [idB; idC]))
           params false (table [idB; idC]) no_clients idF true drop_connection
           (request_to idD)).
  - vm_compute. reflexivity.
  - reflexivity.
  - reflexivity.
  - by_compute.
  - vm_compute. reflexivity.
  - by_compute.
  - reflexivity.
  - reflexivity.
  - reflexivity.
  - reflexivity.
  - reflexivity.
  - simpl. lia.
  - by_compute.
Defined.

Lemma message_for_connected_client_witness :
  let rt := table [idB] in
  let nrt := clients [idD] in
  let m := response_to idD in
  let m' := set_hops_to_live (hops_to_live m - 1) m in
  MessageHandler.HandleMessage (H := never_close) (services := untouched rt)
                               params false rt nrt idF true m
  = MessageHandler.Done tt
      (if IsRequest m
          && (negb (client_node m) || bool_decide (source_id m ≠ destination_id m))
       then []
       else [MessageHandler.SendToClosestNode m'])
  ∧ NetworkUtils.SendToClosestNode params nrt false drop_connection rt m'
    = replicate (length (NonRoutingTable.GetNodesInfo nrt (destination_id m)))
                (NetworkUtils.rudp_Send (destination_id m) m').
Proof.
  apply (message_for_connected_client (H := never_close)
           (services := untouched (table [idB])) params false (table [idB])
           (clients [idD]) idF true drop_connection (response_to idD)).
  - vm_compute. reflexivity.
  - reflexivity.
  - reflexivity.
  - by_compute.
  - vm_compute. reflexivity.
  - by_compute.
  - reflexivity.
  - reflexivity.
  - by_compute.
Defined.

Lemma unparsed_update_is_sent_on_witness :
  let rt := table [idB] in
  let m := update_message "garbled" in
  let s := handler_state [idB] [] in
  let group_change_handler_ :=
    MessageHandler.group_change_services small_params false parse_nothing
                                         parse_nothing s (consumed rt) in
  GroupChangeHandler.ClosestNodesUpdate false parse_nothing m s
  = GroupChangeHandler.Returned m s
  ∧ MessageHandler.HandleRoutingMessage (services := group_change_handler_)
      false idF m
    = MessageHandler.Done tt
        [MessageHandler.Service
           MessageHandler.group_change_handler_ClosestNodesUpdate m;
         MessageHandler.SendToClosestNode m]
  ∧ MessageHandler.HandleRoutingMessage_reply idF rt (request m) m
    = [MessageHandler.SendToClosestNode m]
  ∧ MessageHandler.HandleRoutingMessage_reply idF rt (request m) Clear = [].
Proof.
  apply (unparsed_update_is_sent_on small_params false (table [idB]) idF
           parse_nothing parse_nothing (consumed (table [idB]))
           (update_message "garbled") (handler_state [idB] [])).
  - reflexivity.
  - reflexivity.
  - reflexivity.
  - reflexivity.
  - reflexivity.
  - reflexivity.
Defined.

End Routing_more.
